(** * Error taxonomy, error reporter and page-action wrappers

    A shallow embedding of the error-reporting core of the Playwright
    test-automation framework:

    - [core-framework/utils/ErrorConstants.ts]: [ErrorCategory], the
      [ErrorCode] catalog and the [ErrorDetails] record;
    - the [ErrorReportingUtils] class ([reportError], [createError],
      [handleError], [getErrorStatistics], [getErrorsByCategory],
      [generateAIMaintenanceReport], [clearOldErrorLogs] and the private
      helpers [getCurrentPageInfo] and [logErrorToFile]);
    - the [BasePage] wrappers [navigate], [isVisible] and [getText].

    JavaScript values, exceptions, the [fs] calls on the error-log
    directory, the console and the Playwright page are modelled
    explicitly; asynchronous functions run to completion, so a rejected
    promise is a thrown exception and [await] is sequencing. *)

From Stdlib Require Import String Ascii ZArith List Bool Lia DecimalString Permutation.
Import ListNotations.
Open Scope string_scope.
Open Scope Z_scope.
Set Warnings "-register-all".

(* ================================================================== *)
(** ** Strings *)

Module Str.

(** [s.endsWith(suffix)] *)
Definition endsWith (s suffix : string) : bool :=
  let n := String.length s in
  let m := String.length suffix in
  if (m <=? n)%nat then String.eqb (substring (n - m) m s) suffix else false.

(** [s.includes(sub)] *)
Fixpoint includes (s sub : string) : bool :=
  if prefix sub s then true
  else match s with
       | EmptyString => false
       | String _ rest => includes rest sub
       end.

(** [s.replace(/[:.]/g, '-')] *)
Fixpoint replaceColonDot (s : string) : string :=
  match s with
  | EmptyString => EmptyString
  | String c rest =>
      String (if (Ascii.eqb c ":" || Ascii.eqb c ".")%bool then "-"%char else c)
             (replaceColonDot rest)
  end.

(** All the decimal digits of an integer: what a template literal
    prints for the catalog codes, the counters and the clock readings,
    which stay below 2^53. *)
Definition ofZ (z : Z) : string := NilZero.string_of_int (Z.to_int z).

(** [parts.join(sep)] *)
Fixpoint join (sep : string) (parts : list string) : string :=
  match parts with
  | [] => ""
  | [p] => p
  | p :: rest => p ++ sep ++ join sep rest
  end.

(** The number a string of decimal digits spells, if it holds
    nothing else. *)
Fixpoint digitsValue (s : string) (acc : Z) : option Z :=
  match s with
  | EmptyString => Some acc
  | String c rest =>
      let n := Z.of_nat (nat_of_ascii c) in
      if (48 <=? n) && (n <=? 57) then digitsValue rest (10 * acc + (n - 48))
      else None
  end.

Fixpoint reverseOnto (s acc : string) : string :=
  match s with
  | EmptyString => acc
  | String c rest => reverseOnto rest (String c acc)
  end.

Fixpoint dropLeadingZeros (s : string) : string :=
  match s with
  | String "0" rest => dropLeadingZeros rest
  | _ => s
  end.

(** A digit string without its trailing zeros. *)
Definition significant (s : string) : string :=
  reverseOnto (dropLeadingZeros (reverseOnto s "")) "".

End Str.

(* ================================================================== *)
(** ** JavaScript values

    The payloads that travel through the reporter are typed [any], and
    the records read back from disk are the unvalidated result of
    [JSON.parse].  Both are values of [Js.Value].

    A number is an IEEE double.  [Integer z] is the double whose value
    is the integer [z] (zero is the positive zero), [NegativeZero] is
    [-0], [Fraction text] is any other finite double, identified by the
    text Number::toString gives it ([0.5], [1.5e-7]), and [NotANumber]
    and the two infinities complete the type.  The counters of the
    statistics, which only ever hold a small integer or [NaN], have the
    type [Count] of their own.

    An object is a plain object (an object literal, or what
    [JSON.parse] builds) and lists its own enumerable string-keyed
    properties in enumeration order: the keys that spell an array
    index first, in ascending order, then the other keys in the order
    they were added ([Js.set]).  [JSymbol] is a symbol.
    [JCyclic] is an object whose property graph reaches itself again
    ([const o = {}; o.self = o]), the case [JSON.stringify] rejects.
    Functions and class instances are not among the values: no caller
    of the reporter passes one and [JSON.parse] produces none, so an
    own property named [toString], [valueOf] or [toJSON] is never
    callable. *)

Module Js.

Inductive Number : Type :=
| Integer (z : Z)
| NegativeZero
| Fraction (text : string)
| NotANumber
| Infinity (negative : bool).

(** The value of a statistics counter. *)
Inductive Count : Type :=
| Finite (z : Z)
| NaN.

Inductive Value : Type :=
| JUndefined
| JNull
| JBool (b : bool)
| JNum (n : Number)
| JStr (s : string)
| JArr (items : list Value)
| JObj (props : list (string * Value))
| JCyclic
| JSymbol.

(** *** Doubles that hold an integer *)

Definition two53 : Z := 9007199254740992.

(** The double nearest to an integer, ties going to the even
    significand; none when the integer rounds beyond the largest
    double. *)
Definition nearestDouble (z : Z) : option Z :=
  let a := Z.abs z in
  if a <=? two53 then Some z
  else
    let unit := 2 ^ (Z.log2 a - 52) in
    let q := a / unit in
    let r := a mod unit in
    let half := unit / 2 in
    let q' := if (half <? r) || ((r =? half) && Z.odd q) then q + 1 else q in
    if 2 ^ 1024 <=? q' * unit then None else Some (Z.sgn z * (q' * unit)).

(** The Number value of a mathematical integer. *)
Definition ofInteger (z : Z) : Number :=
  match nearestDouble z with
  | Some d => Integer d
  | None => Infinity (z <? 0)
  end.

Definition digitCount (a : Z) : Z := Z.of_nat (String.length (Str.ofZ a)).

Definition readsAs (x candidate : Z) : bool :=
  match nearestDouble candidate with
  | Some d => d =? x
  | None => false
  end.

(** The decimal of [k] significant digits that reads back as the
    double [x], the closer one when there are two. *)
Definition shortestWith (x k : Z) : option Z :=
  let scale := 10 ^ (digitCount x - k) in
  let lo := (x / scale) * scale in
  let hi := lo + scale in
  match readsAs x lo, readsAs x hi with
  | true, true => Some (if x - lo <=? hi - x then lo else hi)
  | true, false => Some lo
  | false, true => Some hi
  | false, false => None
  end.

Fixpoint firstSome {A : Type} (f : Z -> option A) (ks : list Z) : option A :=
  match ks with
  | [] => None
  | k :: rest =>
      match f k with
      | Some v => Some v
      | None => firstSome f rest
      end
  end.

(** The decimal with the fewest significant digits that reads back as
    the positive double [x]. *)
Definition shortest (x : Z) : Z :=
  match firstSome (shortestWith x) [1;2;3;4;5;6;7;8;9;10;11;12;13;14;15;16;17] with
  | Some v => v
  | None => x
  end.

(** Number::toString of an integer-valued double: all the digits up to
    2^53, beyond it the shortest digits that read back as the same
    double, zero-filled up to 21 digits and in exponent notation from
    [1e+21]. *)
Definition integerText (z : Z) : string :=
  let a := Z.abs z in
  if a <=? two53 then Str.ofZ z
  else
    let v := shortest a in
    let n := digitCount v in
    (if z <? 0 then "-" else "") ++
    (if n <=? 21 then Str.ofZ v
     else match Str.significant (Str.ofZ v) with
          | String d EmptyString => String d ("e+" ++ Str.ofZ (n - 1))
          | String d rest => String d ("." ++ rest ++ "e+" ++ Str.ofZ (n - 1))
          | EmptyString => "0"
          end).

(** Number::toString *)
Definition numToString (n : Number) : string :=
  match n with
  | Integer z => integerText z
  | NegativeZero => "0"
  | Fraction text => text
  | NotANumber => "NaN"
  | Infinity false => "Infinity"
  | Infinity true => "-Infinity"
  end.

(** [a + b] on counters *)
Definition add (a b : Count) : Count :=
  match a, b with
  | Finite x, Finite y => Finite (x + y)
  | _, _ => NaN
  end.

(** [a - b] on counters *)
Definition sub (a b : Count) : Count :=
  match a, b with
  | Finite x, Finite y => Finite (x - y)
  | _, _ => NaN
  end.

(** ToBoolean *)
Definition truthy (v : Value) : bool :=
  match v with
  | JUndefined | JNull => false
  | JBool b => b
  | JNum (Integer z) => negb (z =? 0)
  | JNum NegativeZero | JNum NotANumber => false
  | JNum (Fraction _) | JNum (Infinity _) => true
  | JStr s => negb (String.eqb s "")
  | JArr _ | JObj _ | JCyclic | JSymbol => true
  end.

(** Own property lookup in a property list. *)
Fixpoint lookup {A : Type} (k : string) (props : list (string * A)) : option A :=
  match props with
  | [] => None
  | (k', v) :: rest => if String.eqb k k' then Some v else lookup k rest
  end.

Definition hasOwn {A : Type} (k : string) (props : list (string * A)) : bool :=
  match lookup k props with
  | Some _ => true
  | None => false
  end.

(** What ToString gives: a string, or a TypeError with its message. *)
Inductive Converted : Type :=
| Text (s : string)
| Unconvertible (why : string).

(** The elements of an array joined by [sep]; the first element that
    cannot be converted ends the conversion. *)
Fixpoint joinConverted (sep : string) (parts : list Converted) : Converted :=
  match parts with
  | [] => Text ""
  | [p] => p
  | p :: rest =>
      match p, joinConverted sep rest with
      | Unconvertible why, _ => Unconvertible why
      | Text _, Unconvertible why => Unconvertible why
      | Text s, Text t => Text (s ++ sep ++ t)
      end
  end.

(** ToString, as applied by template literals and by property keys
    (ToPropertyKey).  An array prints its elements joined by commas,
    [null] and [undefined] elements printing as the empty string.  An
    object prints as [[object Object]] through the [toString] it
    inherits; when it has an own property of that name, which is not
    callable, neither that property nor [valueOf] gives a primitive
    and the conversion throws.  A symbol is never converted. *)
Fixpoint toString (v : Value) : Converted :=
  match v with
  | JUndefined => Text "undefined"
  | JNull => Text "null"
  | JBool true => Text "true"
  | JBool false => Text "false"
  | JNum n => Text (numToString n)
  | JStr s => Text s
  | JArr items =>
      joinConverted ","
        (map (fun x => match x with
                       | JUndefined | JNull => Text ""
                       | _ => toString x
                       end) items)
  | JObj props =>
      if hasOwn "toString" props
      then Unconvertible "Cannot convert object to primitive value"
      else Text "[object Object]"
  | JCyclic => Text "[object Object]"
  | JSymbol => Unconvertible "Cannot convert a Symbol value to a string"
  end.

(** The array index a property key spells: the canonical decimal of
    an integer from 0 to 2^32 - 2. *)
Definition arrayIndex (k : string) : option Z :=
  match k with
  | EmptyString => None
  | _ =>
      match Str.digitsValue k 0 with
      | Some i =>
          if String.eqb (Str.ofZ i) k && (i <=? 4294967294) then Some i else None
      | None => None
      end
  end.

(** Whether a new key [k] is enumerated before the key [k']. *)
Definition listedBefore (k k' : string) : bool :=
  match arrayIndex k, arrayIndex k' with
  | Some i, Some j => i <? j
  | Some _, None => true
  | None, _ => false
  end.

(** The value of an own property replaced where it stands. *)
Fixpoint replace {A : Type} (k : string) (v : A) (props : list (string * A))
  : list (string * A) :=
  match props with
  | [] => []
  | (k', v') :: rest =>
      if String.eqb k k' then (k', v) :: rest else (k', v') :: replace k v rest
  end.

(** A new property put at its place in the enumeration order. *)
Fixpoint place {A : Type} (k : string) (v : A) (props : list (string * A))
  : list (string * A) :=
  match props with
  | [] => [(k, v)]
  | (k', v') :: rest =>
      if listedBefore k k' then (k, v) :: (k', v') :: rest
      else (k', v') :: place k v rest
  end.

(** [obj[k] = v]: an existing property keeps its place; a new one is
    listed among the array indices if its key spells one, and last
    otherwise. *)
Definition set {A : Type} (k : string) (v : A) (props : list (string * A))
  : list (string * A) :=
  if hasOwn k props then replace k v props else place k v props.

(** [v?.k] for a key [k] that no built-in prototype defines (the code
    reads [message] and [category]): [undefined] on [undefined],
    [null], primitives and arrays. *)
Definition optGet (v : Value) (k : string) : Value :=
  match v with
  | JObj props =>
      match lookup k props with
      | Some x => x
      | None => JUndefined
      end
  | _ => JUndefined
  end.

(** [v.k], same keys: a TypeError on [undefined] and [null]. *)
Definition get (v : Value) (k : string) : option Value :=
  match v with
  | JUndefined | JNull => None
  | _ => Some (optGet v k)
  end.

(** [a === b] against a string. *)
Definition strictEqStr (v : Value) (s : string) : bool :=
  match v with
  | JStr s' => String.eqb s' s
  | _ => false
  end.

End Js.

(* ================================================================== *)
(** ** JSON

    A JSON text is represented by its syntax tree: the text that
    [JSON.stringify] prints, up to white space, and what [JSON.parse]
    reads, with a number literal held as the double it denotes.  A
    file on disk holds either such a text or bytes that are not JSON
    at all. *)

Module JSON.
Import Js.

Inductive Text : Type :=
| TNull
| TBool (b : bool)
| TNum (n : Number)
| TStr (s : string)
| TArr (items : list Text)
| TObj (members : list (string * Text)).

(** What serialising one value gives: a TypeError, nothing at all
    ([undefined]), or a text. *)
Inductive Serialized : Type :=
| Rejected
| Omitted
| Printed (t : Text).

(** The elements of an array: one rejected element rejects the
    array, an element that prints nothing prints as [null]. *)
Fixpoint arrayTexts (results : list Serialized) : option (list Text) :=
  match results with
  | [] => Some []
  | r :: rest =>
      match r, arrayTexts rest with
      | Rejected, _ => None
      | _, None => None
      | Omitted, Some ts => Some (TNull :: ts)
      | Printed t, Some ts => Some (t :: ts)
      end
  end.

(** The members of an object: one rejected value rejects the object,
    a property that prints nothing is left out. *)
Fixpoint memberTexts (results : list (string * Serialized))
  : option (list (string * Text)) :=
  match results with
  | [] => Some []
  | (k, r) :: rest =>
      match r, memberTexts rest with
      | Rejected, _ => None
      | _, None => None
      | Omitted, Some ms => Some ms
      | Printed t, Some ms => Some ((k, t) :: ms)
      end
  end.

(** SerializeJSONProperty: [undefined] and symbols are dropped from
    objects and printed as [null] in arrays, negative
    zero prints as [0], non-finite numbers print as [null], a cyclic
    structure is rejected. *)
Fixpoint serialize (v : Value) : Serialized :=
  match v with
  | JUndefined => Omitted
  | JNull => Printed TNull
  | JBool b => Printed (TBool b)
  | JNum (Integer z) => Printed (TNum (Integer z))
  | JNum NegativeZero => Printed (TNum (Integer 0))
  | JNum (Fraction text) => Printed (TNum (Fraction text))
  | JNum NotANumber | JNum (Infinity _) => Printed TNull
  | JStr s => Printed (TStr s)
  | JArr items =>
      match arrayTexts (map serialize items) with
      | Some ts => Printed (TArr ts)
      | None => Rejected
      end
  | JObj props =>
      match memberTexts (map (fun kx => (fst kx, serialize (snd kx))) props) with
      | Some ms => Printed (TObj ms)
      | None => Rejected
      end
  | JCyclic => Rejected
  | JSymbol => Omitted
  end.

(** The properties an object ends with when the members of a JSON
    text are defined one after the other: a repeated name overwrites
    the earlier value. *)
Definition assemble (members : list (string * Value)) : list (string * Value) :=
  fold_left (fun acc kv => Js.set (fst kv) (snd kv) acc) members [].

(** The value a JSON text denotes. *)
Fixpoint denote (t : Text) : Value :=
  match t with
  | TNull => JNull
  | TBool b => JBool b
  | TNum n => JNum n
  | TStr s => JStr s
  | TArr items => JArr (map denote items)
  | TObj members =>
      JObj (assemble (map (fun kx => (fst kx, denote (snd kx))) members))
  end.

(** Quoting of a string: the two-character escapes, [\u00XX] for the
    other control characters. *)
Definition hexDigit (n : nat) : ascii :=
  match n with
  | 0%nat => "0" | 1%nat => "1" | 2%nat => "2" | 3%nat => "3"
  | 4%nat => "4" | 5%nat => "5" | 6%nat => "6" | 7%nat => "7"
  | 8%nat => "8" | 9%nat => "9" | 10%nat => "a" | 11%nat => "b"
  | 12%nat => "c" | 13%nat => "d" | 14%nat => "e" | _ => "f"
  end%char.

Definition escapeChar (c : ascii) : string :=
  let n := nat_of_ascii c in
  if (n =? 34)%nat then String "\" (String (ascii_of_nat 34) "")
  else if (n =? 92)%nat then "\\"
  else if (n =? 8)%nat then "\b"
  else if (n =? 12)%nat then "\f"
  else if (n =? 10)%nat then "\n"
  else if (n =? 13)%nat then "\r"
  else if (n =? 9)%nat then "\t"
  else if (n <? 32)%nat then
    "\u00" ++ String (hexDigit (n / 16)) (String (hexDigit (n mod 16)) "")
  else String c "".

Fixpoint escape (s : string) : string :=
  match s with
  | EmptyString => ""
  | String c rest => escapeChar c ++ escape rest
  end.

Definition quote (s : string) : string :=
  String (ascii_of_nat 34) (escape s) ++ String (ascii_of_nat 34) "".

(** The compact rendering, [JSON.stringify(v)] with no indent. *)
Fixpoint render (t : Text) : string :=
  match t with
  | TNull => "null"
  | TBool true => "true"
  | TBool false => "false"
  | TNum n => numToString n
  | TStr s => quote s
  | TArr items => "[" ++ Str.join "," (map render items) ++ "]"
  | TObj members =>
      "{" ++
      Str.join "," (map (fun kx => quote (fst kx) ++ ":" ++ render (snd kx)) members)
      ++ "}"
  end.

End JSON.

(* ================================================================== *)
(** ** ErrorConstants.ts *)

Inductive ErrorCategory : Type :=
| DATA | ELEMENT | NAVIGATION | ASSERTION | NETWORK | AUTH
| PERFORMANCE | VISUAL | API | FRAMEWORK | UNKNOWN.

(** The string value of each member of the enumeration. *)
Definition categoryName (c : ErrorCategory) : string :=
  match c with
  | DATA => "DATA"
  | ELEMENT => "ELEMENT"
  | NAVIGATION => "NAVIGATION"
  | ASSERTION => "ASSERTION"
  | NETWORK => "NETWORK"
  | AUTH => "AUTH"
  | PERFORMANCE => "PERFORMANCE"
  | VISUAL => "VISUAL"
  | API => "API"
  | FRAMEWORK => "FRAMEWORK"
  | UNKNOWN => "UNKNOWN"
  end.

(** [Object.values(ErrorCategory)], in declaration order. *)
Definition ErrorCategory_values : list ErrorCategory :=
  [DATA; ELEMENT; NAVIGATION; ASSERTION; NETWORK; AUTH;
   PERFORMANCE; VISUAL; API; FRAMEWORK; UNKNOWN].

Definition ErrorCategory_eqb (a b : ErrorCategory) : bool :=
  String.eqb (categoryName a) (categoryName b).

(** The type of one catalog entry,
    [typeof ErrorCode[keyof typeof ErrorCode]]. *)
Record ErrorCodeEntry : Type := mkEntry {
  code : Z;
  category : ErrorCategory;
  message : string;
  title : string
}.

Definition ERROR_INVALID_DATA := mkEntry 1001 DATA "Invalid test data provided" "Invalid Data".
Definition ERROR_MISSING_DATA := mkEntry 1002 DATA "Required test data is missing" "Missing Data".
Definition ERROR_DATA_FORMAT := mkEntry 1003 DATA "Test data format is incorrect" "Data Format Error".
Definition ERROR_ENV_DATA_NOT_FOUND := mkEntry 1004 DATA "Environment-specific data not found" "Environment Data Not Found".
Definition ERROR_LOCATOR_NOT_FOUND := mkEntry 2001 ELEMENT "Element locator not found" "Element Not Found".
Definition ERROR_ELEMENT_NOT_VISIBLE := mkEntry 2002 ELEMENT "Element is not visible" "Element Not Visible".
Definition ERROR_ELEMENT_NOT_CLICKABLE := mkEntry 2003 ELEMENT "Element is not clickable" "Element Not Clickable".
Definition ERROR_ELEMENT_WRONG_STATE := mkEntry 2004 ELEMENT "Element is in wrong state" "Element Wrong State".
Definition ERROR_ELEMENT_TIMEOUT := mkEntry 2007 ELEMENT "Element interaction timed out" "Element Timeout".
Definition ERROR_ELEMENT_ATTRIBUTE_MISSING := mkEntry 2005 ELEMENT "Element attribute is missing" "Missing Element Attribute".
Definition ERROR_STALE_ELEMENT := mkEntry 2006 ELEMENT "Element is stale or no longer attached to DOM" "Stale Element".
Definition ERROR_PAGE_NOT_LOADED := mkEntry 3001 NAVIGATION "Page failed to load" "Page Load Failed".
Definition ERROR_NAVIGATION_FAILED := mkEntry 3002 NAVIGATION "Navigation to page failed" "Navigation Failed".
Definition ERROR_REDIRECT_UNEXPECTED := mkEntry 3003 NAVIGATION "Unexpected redirect occurred" "Unexpected Redirect".
Definition ERROR_URL_MISMATCH := mkEntry 3004 NAVIGATION "Current URL does not match expected URL" "URL Mismatch".
Definition ERROR_ASSERTION_TEXT := mkEntry 4001 ASSERTION "Text assertion failed" "Text Assertion Failed".
Definition ERROR_ASSERTION_VISIBILITY := mkEntry 4002 ASSERTION "Visibility assertion failed" "Visibility Assertion Failed".
Definition ERROR_ASSERTION_COUNT := mkEntry 4003 ASSERTION "Count assertion failed" "Count Assertion Failed".
Definition ERROR_ASSERTION_STATE := mkEntry 4004 ASSERTION "State assertion failed" "State Assertion Failed".
Definition ERROR_ASSERTION_PROPERTY := mkEntry 4005 ASSERTION "Property assertion failed" "Property Assertion Failed".
Definition ERROR_NETWORK_REQUEST_FAILED := mkEntry 5001 NETWORK "Network request failed" "Network Request Failed".
Definition ERROR_NETWORK_TIMEOUT := mkEntry 5002 NETWORK "Network request timed out" "Network Timeout".
Definition ERROR_STATUS_CODE_UNEXPECTED := mkEntry 5003 NETWORK "Unexpected HTTP status code" "Unexpected Status Code".
Definition ERROR_AUTH_FAILED := mkEntry 6001 AUTH "Authentication failed" "Authentication Failed".
Definition ERROR_SESSION_EXPIRED := mkEntry 6002 AUTH "Session expired" "Session Expired".
Definition ERROR_UNAUTHORIZED := mkEntry 6003 AUTH "Unauthorized access" "Unauthorized Access".
Definition ERROR_PERFORMANCE_TIMEOUT := mkEntry 7001 PERFORMANCE "Operation timed out due to performance issues" "Performance Timeout".
Definition ERROR_PERFORMANCE_THRESHOLD := mkEntry 7002 PERFORMANCE "Performance threshold exceeded" "Performance Threshold Exceeded".
Definition ERROR_VISUAL_MISMATCH := mkEntry 8001 VISUAL "Visual comparison failed" "Visual Comparison Failed".
Definition ERROR_VISUAL_BASELINE_MISSING := mkEntry 8002 VISUAL "Visual baseline image missing" "Missing Visual Baseline".
Definition ERROR_API_RESPONSE_INVALID := mkEntry 9001 API "Invalid API response" "Invalid API Response".
Definition ERROR_API_SCHEMA_VALIDATION := mkEntry 9002 API "API schema validation failed" "API Schema Validation Failed".
Definition ERROR_CONFIG_INVALID := mkEntry 10001 FRAMEWORK "Invalid framework configuration" "Invalid Configuration".
Definition ERROR_DEPENDENCY_MISSING := mkEntry 10002 FRAMEWORK "Required dependency is missing" "Missing Dependency".
Definition ERROR_UNKNOWN := mkEntry 99999 UNKNOWN "Unknown error occurred" "Unknown Error".

(** The catalog object, its keys in source order. *)
Definition ErrorCode : list (string * ErrorCodeEntry) :=
  [ ("ERROR_INVALID_DATA", ERROR_INVALID_DATA);
    ("ERROR_MISSING_DATA", ERROR_MISSING_DATA);
    ("ERROR_DATA_FORMAT", ERROR_DATA_FORMAT);
    ("ERROR_ENV_DATA_NOT_FOUND", ERROR_ENV_DATA_NOT_FOUND);
    ("ERROR_LOCATOR_NOT_FOUND", ERROR_LOCATOR_NOT_FOUND);
    ("ERROR_ELEMENT_NOT_VISIBLE", ERROR_ELEMENT_NOT_VISIBLE);
    ("ERROR_ELEMENT_NOT_CLICKABLE", ERROR_ELEMENT_NOT_CLICKABLE);
    ("ERROR_ELEMENT_WRONG_STATE", ERROR_ELEMENT_WRONG_STATE);
    ("ERROR_ELEMENT_TIMEOUT", ERROR_ELEMENT_TIMEOUT);
    ("ERROR_ELEMENT_ATTRIBUTE_MISSING", ERROR_ELEMENT_ATTRIBUTE_MISSING);
    ("ERROR_STALE_ELEMENT", ERROR_STALE_ELEMENT);
    ("ERROR_PAGE_NOT_LOADED", ERROR_PAGE_NOT_LOADED);
    ("ERROR_NAVIGATION_FAILED", ERROR_NAVIGATION_FAILED);
    ("ERROR_REDIRECT_UNEXPECTED", ERROR_REDIRECT_UNEXPECTED);
    ("ERROR_URL_MISMATCH", ERROR_URL_MISMATCH);
    ("ERROR_ASSERTION_TEXT", ERROR_ASSERTION_TEXT);
    ("ERROR_ASSERTION_VISIBILITY", ERROR_ASSERTION_VISIBILITY);
    ("ERROR_ASSERTION_COUNT", ERROR_ASSERTION_COUNT);
    ("ERROR_ASSERTION_STATE", ERROR_ASSERTION_STATE);
    ("ERROR_ASSERTION_PROPERTY", ERROR_ASSERTION_PROPERTY);
    ("ERROR_NETWORK_REQUEST_FAILED", ERROR_NETWORK_REQUEST_FAILED);
    ("ERROR_NETWORK_TIMEOUT", ERROR_NETWORK_TIMEOUT);
    ("ERROR_STATUS_CODE_UNEXPECTED", ERROR_STATUS_CODE_UNEXPECTED);
    ("ERROR_AUTH_FAILED", ERROR_AUTH_FAILED);
    ("ERROR_SESSION_EXPIRED", ERROR_SESSION_EXPIRED);
    ("ERROR_UNAUTHORIZED", ERROR_UNAUTHORIZED);
    ("ERROR_PERFORMANCE_TIMEOUT", ERROR_PERFORMANCE_TIMEOUT);
    ("ERROR_PERFORMANCE_THRESHOLD", ERROR_PERFORMANCE_THRESHOLD);
    ("ERROR_VISUAL_MISMATCH", ERROR_VISUAL_MISMATCH);
    ("ERROR_VISUAL_BASELINE_MISSING", ERROR_VISUAL_BASELINE_MISSING);
    ("ERROR_API_RESPONSE_INVALID", ERROR_API_RESPONSE_INVALID);
    ("ERROR_API_SCHEMA_VALIDATION", ERROR_API_SCHEMA_VALIDATION);
    ("ERROR_CONFIG_INVALID", ERROR_CONFIG_INVALID);
    ("ERROR_DEPENDENCY_MISSING", ERROR_DEPENDENCY_MISSING);
    ("ERROR_UNKNOWN", ERROR_UNKNOWN) ].

(** The [ErrorDetails] interface.  The four optional fields are always
    assigned by [reportError]; [details] and [screenshot] may hold
    [undefined]. *)
Record ErrorDetails : Type := mkDetails {
  ed_code : Z;
  ed_category : ErrorCategory;
  ed_message : string;
  ed_title : string;
  ed_details : Js.Value;
  ed_location : string;
  ed_screenshot : option string;
  ed_timestamp : string
}.

(** The record as the JavaScript object it is: the object literal of
    [reportError], keys in the order written there. *)
Definition ErrorDetails_object (r : ErrorDetails) : Js.Value :=
  Js.JObj
    [ ("code", Js.JNum (Js.Integer (ed_code r)));
      ("category", Js.JStr (categoryName (ed_category r)));
      ("message", Js.JStr (ed_message r));
      ("title", Js.JStr (ed_title r));
      ("details", ed_details r);
      ("location", Js.JStr (ed_location r));
      ("screenshot", match ed_screenshot r with
                     | Some p => Js.JStr p
                     | None => Js.JUndefined
                     end);
      ("timestamp", Js.JStr (ed_timestamp r)) ].

(* ================================================================== *)
(** ** Exceptions, the page, the log directory and the console *)

(** An [Error] object.  The three extra properties are the ones
    [createError] attaches; a low-level error carries none of them. *)
Record JsError : Type := mkError {
  err_message : string;
  err_code : option Z;
  err_category : option ErrorCategory;
  err_title : option string
}.

Definition plainError (msg : string) : JsError := mkError msg None None None.

(** How a call ends: it returns, or it throws (an [async] call: its
    promise resolves, or rejects). *)
Inductive Outcome (A : Type) : Type :=
| Returns (a : A)
| Throws (e : JsError).
Arguments Returns {A} a.
Arguments Throws {A} e.

(** The Playwright page, by what each call on it answers.  A closed
    page rejects [title], [screenshot] and the locator calls; a
    screenshot directory that cannot be written rejects [screenshot].
    The image a successful screenshot writes is not tracked: nothing in
    this code reads the screenshot directory. *)
Record Page : Type := mkPage {
  page_url : string;
  page_title : Outcome string;
  page_screenshot : string -> Outcome unit;
  page_goto : string -> Outcome unit;
  locator_isVisible : string -> Outcome bool;
  locator_innerText : string -> Outcome string
}.

(** What the code takes from Node and from [CONFIG] (the config module
    is not part of the sources at hand): the two [path] functions, the
    [URL] constructor followed by [toString], and two configured
    strings. *)
Record Platform : Type := mkPlatform {
  path_join : string -> string -> string;
  path_relative : string -> string -> string;
  URL_toString : string -> string -> Outcome string;
  testResultsDir : string;
  baseUrl : string
}.

(** The fields of an [ErrorReportingUtils] (and [BasePage]) instance.
    [page] is [None] when the object was built without one. *)
Record Instance : Type := mkInstance {
  page : option Page;
  platform : Platform
}.

(** [this.errorLogPath] and [this.screenshotPath], as the constructor
    computes them. *)
Definition errorLogPath (this : Instance) : string :=
  path_join (platform this) (testResultsDir (platform this)) "error-logs".
Definition screenshotPath (this : Instance) : string :=
  path_join (platform this) (testResultsDir (platform this)) "error-screenshots".

(** What a file holds: a JSON text, or something [JSON.parse] rejects. *)
Inductive FileContent : Type :=
| JsonText (t : JSON.Text)
| Garbage (raw : string).

(** One entry of the error-log directory, by what each [fs] call on it
    answers: [readFileSync] gives its content or throws, [statSync]
    gives its modification time in milliseconds or throws, [unlinkSync]
    removes it or throws. *)
Record Entry : Type := mkFile {
  file_name : string;
  file_read : option FileContent;
  file_mtime : option Z;
  file_unlink : bool
}.

(** The directory [this.errorLogPath]: whether [readdirSync] succeeds,
    which names [writeFileSync] can write, where the file system lists
    a new name among the names present (the listing order is the file
    system's own, not the order of creation), and the entries in the
    order [readdirSync] lists them.  Names are unique in a directory
    ([wfDir] below). *)
Record LogDir : Type := mkDir {
  dir_listable : bool;
  dir_writable : string -> bool;
  dir_place : string -> list string -> nat;
  dir_entries : list Entry
}.

(** One [console.error(text, arg)] call. *)
Inductive ConsoleArg : Type :=
| ArgError (e : JsError)
| ArgText (s : string).

Definition ConsoleLine : Type := (string * ConsoleArg)%type.

(** The mutable state: the directory and the console output so far
    (oldest line first). *)
Record World : Type := mkWorld {
  logDir : LogDir;
  console : list ConsoleLine
}.

(** *** The monad of effectful code *)

Definition M (A : Type) : Type := World -> Outcome A * World.

Definition ret {A : Type} (a : A) : M A := fun w => (Returns a, w).

Definition throw {A : Type} (e : JsError) : M A := fun w => (Throws e, w).

Definition bind {A B : Type} (m : M A) (k : A -> M B) : M B :=
  fun w =>
    match m w with
    | (Returns a, w') => k a w'
    | (Throws e, w') => (Throws e, w')
    end.

(** [try { body } catch (e) { handler }] *)
Definition try_catch {A : Type} (body : M A) (handler : JsError -> M A) : M A :=
  fun w =>
    match body w with
    | (Returns a, w') => (Returns a, w')
    | (Throws e, w') => handler e w'
    end.

Definition lift {A : Type} (o : Outcome A) : M A := fun w => (o, w).

Declare Scope js_scope.
Delimit Scope js_scope with js.
Notation "x <- m ;; k" := (bind m (fun x => k))
  (at level 61, m at next level, right associativity) : js_scope.
Notation "m ;;; k" := (bind m (fun _ => k))
  (at level 61, right associativity) : js_scope.
Open Scope js_scope.

Definition console_error (text : string) (arg : ConsoleArg) : M unit :=
  fun w => (Returns tt, mkWorld (logDir w) (console w ++ [(text, arg)])).

(** *** [fs] on the error-log directory *)

Definition hasName (n : string) (e : Entry) : bool := String.eqb (file_name e) n.

Definition withEntries (d : LogDir) (es : list Entry) : LogDir :=
  mkDir (dir_listable d) (dir_writable d) (dir_place d) es.

Definition setDir (w : World) (d : LogDir) : World := mkWorld d (console w).

(** [fs.readdirSync(this.errorLogPath)] *)
Definition readdirSync : M (list string) :=
  fun w =>
    if dir_listable (logDir w)
    then (Returns (map file_name (dir_entries (logDir w))), w)
    else (Throws (plainError "ENOENT: no such file or directory, scandir"), w).

(** [fs.readFileSync(path.join(this.errorLogPath, file), 'utf8')] *)
Definition readFileSync (file : string) : M FileContent :=
  fun w =>
    match find (hasName file) (dir_entries (logDir w)) with
    | Some e =>
        match file_read e with
        | Some c => (Returns c, w)
        | None => (Throws (plainError "EACCES: permission denied, open"), w)
        end
    | None => (Throws (plainError "ENOENT: no such file or directory, open"), w)
    end.

(** [fs.statSync(filePath).mtime.getTime()] *)
Definition statSync_mtime (file : string) : M Z :=
  fun w =>
    match find (hasName file) (dir_entries (logDir w)) with
    | Some e =>
        match file_mtime e with
        | Some t => (Returns t, w)
        | None => (Throws (plainError "EACCES: permission denied, stat"), w)
        end
    | None => (Throws (plainError "ENOENT: no such file or directory, stat"), w)
    end.

(** [fs.unlinkSync(filePath)] *)
Definition unlinkSync (file : string) : M unit :=
  fun w =>
    match find (hasName file) (dir_entries (logDir w)) with
    | Some e =>
        if file_unlink e
        then (Returns tt,
              setDir w (withEntries (logDir w)
                          (filter (fun x => negb (hasName file x))
                                  (dir_entries (logDir w)))))
        else (Throws (plainError "EPERM: operation not permitted, unlink"), w)
    | None => (Throws (plainError "ENOENT: no such file or directory, unlink"), w)
    end.

(** The entry of name [file] overwritten where it stands. *)
Fixpoint overwrite (file : string) (content : FileContent) (now : Z)
  (es : list Entry) : list Entry :=
  match es with
  | [] => []
  | e :: rest =>
      if hasName file e
      then mkFile file (Some content) (Some now) (file_unlink e) :: rest
      else e :: overwrite file content now rest
  end.

Definition insertAt {A : Type} (n : nat) (x : A) (l : list A) : list A :=
  (firstn n l ++ x :: skipn n l)%list.

(** Writing [content] under [file] at time [now]: the entry of that
    name is overwritten where it stands, a new name is listed where
    the file system places it. *)
Definition store (place : string -> list string -> nat) (file : string)
  (content : FileContent) (now : Z) (es : list Entry) : list Entry :=
  if existsb (hasName file) es then overwrite file content now es
  else insertAt (place file (map file_name es))
                (mkFile file (Some content) (Some now) true) es.

(** [fs.writeFileSync(filePath, text)] *)
Definition writeFileSync (file : string) (content : FileContent) (now : Z) : M unit :=
  fun w =>
    if dir_writable (logDir w) file
    then (Returns tt,
          setDir w (withEntries (logDir w)
                      (store (dir_place (logDir w)) file content now
                             (dir_entries (logDir w)))))
    else (Throws (plainError "EACCES: permission denied, open"), w).

(** [JSON.parse(content)] *)
Definition JSON_parse (content : FileContent) : Outcome Js.Value :=
  match content with
  | JsonText t => Returns (JSON.denote t)
  | Garbage _ => Throws (plainError "Unexpected token in JSON")
  end.

(** [JSON.stringify(value)]: a text, [undefined], or a TypeError. *)
Definition JSON_stringify (v : Js.Value) : Outcome (option JSON.Text) :=
  match JSON.serialize v with
  | JSON.Printed t => Returns (Some t)
  | JSON.Omitted => Returns None
  | JSON.Rejected =>
      Throws (plainError "Converting circular structure to JSON")
  end.

(* ================================================================== *)
(** ** ErrorReportingUtils *)

(** The two clock readings of one [reportError] call:
    [new Date().toISOString()] on entry and [Date.now()] when the log
    file is named. *)
Record Clock : Type := mkClock {
  isoNow : string;
  msNow : Z
}.

Definition newline : string := String (ascii_of_nat 10) "".

(** [private async getCurrentPageInfo()] *)
Definition getCurrentPageInfo (this : Instance) : M string :=
  try_catch
    (match page this with
     | None =>
         throw (plainError "Cannot read properties of undefined (reading 'url')")
     | Some p =>
         let url := page_url p in
         title <- try_catch (lift (page_title p)) (fun _ => ret "Unknown") ;;
         ret ("URL: " ++ url ++ ", Title: " ++ title)
     end)
    (fun _ => ret "Unable to get page info").

(** The name [logErrorToFile] gives the record file. *)
Definition logFileName (errorCode : Z) (now : Z) : string :=
  "error_" ++ Str.ofZ errorCode ++ "_" ++ Str.ofZ now ++ ".json".

(** [private async logErrorToFile(errorDetails)] *)
Definition logErrorToFile (now : Z) (errorDetails : ErrorDetails) : M unit :=
  try_catch
    (let fileName := logFileName (ed_code errorDetails) now in
     text <- lift (JSON_stringify (ErrorDetails_object errorDetails)) ;;
     match text with
     | Some t => writeFileSync fileName (JsonText t) now
     | None => throw (plainError "The data argument must be of type string")
     end)
    (fun e => console_error "Failed to write error log to file:" (ArgError e)).

(** The default screenshot file name of [reportError]. *)
Definition defaultScreenshotName (errorCode : ErrorCodeEntry) (timestamp : string) : string :=
  categoryName (category errorCode) ++ "_" ++ Str.ofZ (code errorCode) ++ "_"
  ++ Str.replaceColonDot timestamp ++ ".png".

(** The first argument of the [console.error] call of [reportError]. *)
Definition reportHeadline (errorCode : ErrorCodeEntry) : string :=
  "[ERROR " ++ Str.ofZ (code errorCode) ++ "] " ++ title errorCode
  ++ " (" ++ categoryName (category errorCode) ++ "): " ++ message errorCode.

(** [JSON.stringify(v)] inside a template literal. *)
Definition stringifyToString (v : Js.Value) : M string :=
  text <- lift (JSON_stringify v) ;;
  ret (match text with
       | Some t => JSON.render t
       | None => "undefined"
       end).

(** [async reportError(errorCode, additionalDetails?, screenshotName?)] *)
Definition reportError (this : Instance) (errorCode : ErrorCodeEntry)
  (additionalDetails : Js.Value) (screenshotName : option string)
  (clock : Clock) : M ErrorDetails :=
  let timestamp := isoNow clock in
  location <- getCurrentPageInfo this ;;
  let screenshotFileName :=
    match screenshotName with
    | Some n => if String.eqb n "" then defaultScreenshotName errorCode timestamp else n
    | None => defaultScreenshotName errorCode timestamp
    end in
  let screenshotPath := path_join (platform this) (screenshotPath this) screenshotFileName in
  screenshotRelativePath <-
    try_catch
      (match page this with
       | Some p =>
           lift (page_screenshot p screenshotPath) ;;;
           ret (Some (path_relative (platform this)
                        (testResultsDir (platform this)) screenshotPath))
       | None => ret None
       end)
      (fun e =>
         console_error "Failed to capture error screenshot:" (ArgError e) ;;;
         ret None) ;;
  let errorDetails :=
    mkDetails (code errorCode) (category errorCode) (message errorCode)
              (title errorCode) additionalDetails location
              screenshotRelativePath timestamp in
  detailsLine <-
    (if Js.truthy additionalDetails
     then (s <- stringifyToString additionalDetails ;;
           ret (newline ++ "Details: " ++ s))
     else ret "") ;;
  console_error (reportHeadline errorCode) (ArgText detailsLine) ;;;
  logErrorToFile (msNow clock) errorDetails ;;;
  ret errorDetails.

(** The error object [createError] builds around a message. *)
Definition classified (errorCode : ErrorCodeEntry) (msg : string) : JsError :=
  mkError msg (Some (code errorCode)) (Some (category errorCode))
          (Some (title errorCode)).

(** [createError(errorCode, additionalMessage?)].  The parameter is
    declared a string, but [handleError] passes whatever
    [additionalDetails?.message] holds; the template literal converts
    it, and the TypeError of a value that cannot be converted leaves
    [createError] in place of its result. *)
Definition createError (errorCode : ErrorCodeEntry) (additionalMessage : Js.Value)
  : Outcome JsError :=
  if Js.truthy additionalMessage
  then match Js.toString additionalMessage with
       | Js.Text text =>
           Returns (classified errorCode
                      ("[ERROR " ++ Str.ofZ (code errorCode) ++ "] " ++ title errorCode
                       ++ ": " ++ message errorCode ++ ": " ++ text))
       | Js.Unconvertible why => Throws (plainError why)
       end
  else Returns (classified errorCode
                  ("[ERROR " ++ Str.ofZ (code errorCode) ++ "] " ++ title errorCode
                   ++ ": " ++ message errorCode)).

(** [additionalDetails?.message || JSON.stringify(additionalDetails)] *)
Definition derivedMessage (additionalDetails : Js.Value) : M Js.Value :=
  let m := Js.optGet additionalDetails "message" in
  if Js.truthy m then ret m
  else (text <- lift (JSON_stringify additionalDetails) ;;
        ret (match text with
             | Some t => Js.JStr (JSON.render t)
             | None => Js.JUndefined
             end)).

(** [async handleError(errorCode, additionalDetails?, throwError = true)] *)
Definition handleError (this : Instance) (errorCode : ErrorCodeEntry)
  (additionalDetails : Js.Value) (throwError : bool) (clock : Clock)
  : M ErrorDetails :=
  errorDetails <- reportError this errorCode additionalDetails None clock ;;
  if throwError
  then (m <- derivedMessage additionalDetails ;;
        error <- lift (createError errorCode m) ;;
        throw error)
  else ret errorDetails.

(** The statistics object, [Record<ErrorCategory, number>]: its
    properties in enumeration order. *)
Definition Stats : Type := list (string * Js.Count).

(** The [forEach] that sets every category to zero. *)
Definition initialStats : Stats :=
  fold_left (fun stats c => Js.set (categoryName c) (Js.Finite 0) stats)
            ErrorCategory_values [].

(** [stats[key]++].  A key the object does not own reads [undefined]
    or an inherited member, either way not a number, so the new value
    is [NaN]; the inherited [__proto__] setter ignores it. *)
Definition increment (stats : Stats) (key : string) : Stats :=
  match Js.lookup key stats with
  | Some n => Js.set key (Js.add n (Js.Finite 1)) stats
  | None => if String.eqb key "__proto__" then stats else Js.set key Js.NaN stats
  end.

Definition isLogFile (file : string) : bool := Str.endsWith file ".json".

(** [readFileSync] then [JSON.parse] of one listed file. *)
Definition readLog (file : string) : M Js.Value :=
  content <- readFileSync file ;;
  lift (JSON_parse content).

Definition categoryOf (errorLog : Js.Value) : M Js.Value :=
  match Js.get errorLog "category" with
  | Some c => ret c
  | None => throw (plainError "Cannot read properties of null (reading 'category')")
  end.

(** The [for] loop of [getErrorStatistics].  The loop updates [stats]
    in place, so what it counted before an exception stays counted: the
    result pairs the object with the exception, if any.  The category
    read from a file becomes a property key, and a category that
    cannot be converted to one throws like an unreadable file. *)
Fixpoint countLoop (logFiles : list string) (stats : Stats) (w : World)
  : Stats * option JsError :=
  match logFiles with
  | [] => (stats, None)
  | file :: rest =>
      match (errorLog <- readLog file ;; categoryOf errorLog) w with
      | (Returns c, _) =>
          match Js.toString c with
          | Js.Text key => countLoop rest (increment stats key) w
          | Js.Unconvertible why => (stats, Some (plainError why))
          end
      | (Throws e, _) => (stats, Some e)
      end
  end.

(** [async getErrorStatistics()] *)
Definition getErrorStatistics : M Stats :=
  fun w =>
    let stats := initialStats in
    match readdirSync w with
    | (Returns names, _) =>
        let logFiles := filter isLogFile names in
        match countLoop logFiles stats w with
        | (stats', None) => (Returns stats', w)
        | (stats', Some e) =>
            (console_error "Failed to read error logs:" (ArgError e) ;;; ret stats') w
        end
    | (Throws e, _) =>
        (console_error "Failed to read error logs:" (ArgError e) ;;; ret stats) w
    end.

(** The [for] loop of [getErrorsByCategory], pushing onto [errors]. *)
Fixpoint collectLoop (categoryArg : string) (logFiles : list string)
  (errors : list Js.Value) (w : World) : list Js.Value * option JsError :=
  match logFiles with
  | [] => (errors, None)
  | file :: rest =>
      match (errorLog <- readLog file ;;
             c <- categoryOf errorLog ;;
             ret (errorLog, c)) w with
      | (Returns (errorLog, c), _) =>
          collectLoop categoryArg rest
            (if Js.strictEqStr c categoryArg then errors ++ [errorLog] else errors) w
      | (Throws e, _) => (errors, Some e)
      end
  end.

(** [async getErrorsByCategory(category)] *)
Definition getErrorsByCategory (categoryArg : string) : M (list Js.Value) :=
  fun w =>
    match readdirSync w with
    | (Returns names, _) =>
        let logFiles := filter isLogFile names in
        match collectLoop categoryArg logFiles [] w with
        | (errors, None) => (Returns errors, w)
        | (errors, Some e) =>
            (console_error "Failed to read error logs:" (ArgError e) ;;; ret errors) w
        end
    | (Throws e, _) =>
        (console_error "Failed to read error logs:" (ArgError e) ;;; ret []) w
    end.

(** The comparator [([, a], [, b]) => b - a]. *)
Definition compareFn (x y : string * Js.Count) : Js.Count :=
  Js.sub (snd y) (snd x).

(** [comparefn(x, y) > 0]; a [NaN] result counts as zero. *)
Definition positive (n : Js.Count) : bool :=
  match n with
  | Js.Finite z => 0 <? z
  | Js.NaN => false
  end.

(** [Array.prototype.sort(comparefn)], which is stable: an element
    moves behind a later one only when the comparator says so.  (With
    [NaN] counts the comparator is inconsistent and the language leaves
    the order to the engine; the theorems below use the sort on finite
    counts only.) *)
Fixpoint insertSorted (x : string * Js.Count) (sorted : list (string * Js.Count))
  : list (string * Js.Count) :=
  match sorted with
  | [] => [x]
  | y :: rest =>
      if positive (compareFn x y) then y :: insertSorted x rest
      else x :: y :: rest
  end.

Fixpoint sort (entries : list (string * Js.Count)) : list (string * Js.Count) :=
  match entries with
  | [] => []
  | x :: rest => insertSorted x (sort rest)
  end.

Record MaintenanceReport : Type := mkReport {
  statistics : Stats;
  mostFrequentCategory : string;
  topErrors : list Js.Value;
  totalErrors : Js.Count;
  generatedAt : string
}.

(** [Object.values(stats).reduce((sum, count) => sum + count, 0)] *)
Definition sumCounts (stats : Stats) : Js.Count :=
  fold_left (fun sum count => Js.add sum count) (map snd stats) (Js.Finite 0).

(** [async generateAIMaintenanceReport()]; [now] is the
    [new Date().toISOString()] of the result. *)
Definition generateAIMaintenanceReport (now : string) : M MaintenanceReport :=
  stats <- getErrorStatistics ;;
  match sort stats with
  | [] => throw (plainError "Cannot read properties of undefined (reading '0')")
  | (mostFrequent, _) :: _ =>
      errors <- getErrorsByCategory mostFrequent ;;
      ret (mkReport stats mostFrequent (firstn 10 errors) (sumCounts stats) now)
  end.

(** The [for] loop of [clearOldErrorLogs]. *)
Fixpoint clearLoop (cutoffTime : Z) (logFiles : list string) : M unit :=
  match logFiles with
  | [] => ret tt
  | file :: rest =>
      mtime <- statSync_mtime file ;;
      (if mtime <? cutoffTime then unlinkSync file else ret tt) ;;;
      clearLoop cutoffTime rest
  end.

(** [async clearOldErrorLogs(olderThanDays = 30)]; [now] is [Date.now()]. *)
Definition clearOldErrorLogs (olderThanDays : Z) (now : Z) : M unit :=
  try_catch
    (names <- readdirSync ;;
     let logFiles := filter isLogFile names in
     let cutoffTime := now - olderThanDays * 24 * 60 * 60 * 1000 in
     clearLoop cutoffTime logFiles)
    (fun e => console_error "Failed to clear old error logs:" (ArgError e)).

(* ================================================================== *)
(** ** BasePage *)

Module BasePage.

Definition noPage (member : string) : JsError :=
  plainError ("Cannot read properties of undefined (reading '"
              ++ member ++ "')").

(** The [try] block of [navigate]. *)
Definition navigateAttempt (this : Instance) (path : string) : M unit :=
  url <- lift (URL_toString (platform this) path (baseUrl (platform this))) ;;
  match page this with
  | Some p => lift (page_goto p url)
  | None => throw (noPage "goto")
  end.

(** The details object [navigate] hands to [handleError]. *)
Definition navigateDetails (this : Instance) (path : string) (error : JsError)
  : Js.Value :=
  Js.JObj [ ("path", Js.JStr path);
            ("baseUrl", Js.JStr (baseUrl (platform this)));
            ("error", Js.JStr (err_message error)) ].

(** [async navigate(path = '/')] *)
Definition navigate (this : Instance) (path : string) (clock : Clock) : M unit :=
  try_catch
    (navigateAttempt this path)
    (fun error =>
       handleError this ERROR_NAVIGATION_FAILED
         (navigateDetails this path error) true clock ;;;
       ret tt).

(** The [try] block of [isVisible]. *)
Definition isVisibleAttempt (this : Instance) (selector : string) : M bool :=
  match page this with
  | Some p => lift (locator_isVisible p selector)
  | None => throw (noPage "locator")
  end.

(** The details object of the two report-only actions. *)
Definition locatorDetails (selector : string) (error : JsError) (action : string)
  : Js.Value :=
  Js.JObj [ ("selector", Js.JStr selector);
            ("error", Js.JStr (err_message error));
            ("action", Js.JStr action) ].

(** [async isVisible(selector)]; [nameMs] is the [Date.now()] of the
    screenshot name. *)
Definition isVisible (this : Instance) (selector : string) (nameMs : Z)
  (clock : Clock) : M bool :=
  try_catch
    (isVisibleAttempt this selector)
    (fun error =>
       reportError this ERROR_LOCATOR_NOT_FOUND
         (locatorDetails selector error "isVisible")
         (Some ("element-not-found-" ++ Str.ofZ nameMs ++ ".png")) clock ;;;
       ret false).

(** The [try] block of [getText]. *)
Definition getTextAttempt (this : Instance) (selector : string) : M string :=
  match page this with
  | Some p => lift (locator_innerText p selector)
  | None => throw (noPage "locator")
  end.

(** [async getText(selector)] *)
Definition getText (this : Instance) (selector : string) (clock : Clock)
  : M string :=
  try_catch
    (getTextAttempt this selector)
    (fun error =>
       reportError this ERROR_LOCATOR_NOT_FOUND
         (locatorDetails selector error "getText")
         None clock ;;;
       ret "").

End BasePage.

(* ================================================================== *)
(** ** Notions the properties are stated with *)

(** The numeric codes of the catalog, in source order. *)
Definition catalogCodes : list Z := map (fun ke => code (snd ke)) ErrorCode.

(** No number occurs twice in a list. *)
Fixpoint distinct (l : list Z) : bool :=
  match l with
  | [] => true
  | x :: rest => negb (existsb (Z.eqb x) rest) && distinct rest
  end.

(** [JSON.stringify] accepts the value. *)
Definition serializable (v : Js.Value) : Prop := JSON.serialize v <> JSON.Rejected.

(** The degraded page information: a placeholder title when the page
    does not answer, a placeholder line when there is no page. *)
Definition expectedLocation (this : Instance) : string :=
  match page this with
  | None => "Unable to get page info"
  | Some p =>
      "URL: " ++ page_url p ++ ", Title: "
      ++ match page_title p with
         | Returns t => t
         | Throws _ => "Unknown"
         end
  end.

(** The path the screenshot of a report is written to. *)
Definition screenshotTarget (this : Instance) (errorCode : ErrorCodeEntry)
  (screenshotName : option string) (clock : Clock) : string :=
  path_join (platform this) (screenshotPath this)
    match screenshotName with
    | Some n => if String.eqb n "" then defaultScreenshotName errorCode (isoNow clock) else n
    | None => defaultScreenshotName errorCode (isoNow clock)
    end.

(** The screenshot field: the relative path when the capture worked,
    absent when there is no page or the capture failed. *)
Definition expectedScreenshot (this : Instance) (errorCode : ErrorCodeEntry)
  (screenshotName : option string) (clock : Clock) : option string :=
  match page this with
  | Some p =>
      match page_screenshot p (screenshotTarget this errorCode screenshotName clock) with
      | Returns _ =>
          Some (path_relative (platform this) (testResultsDir (platform this))
                  (screenshotTarget this errorCode screenshotName clock))
      | Throws _ => None
      end
  | None => None
  end.

(** The record a report is expected to return. *)
Definition expectedRecord (this : Instance) (errorCode : ErrorCodeEntry)
  (details : Js.Value) (screenshotName : option string) (clock : Clock)
  : ErrorDetails :=
  mkDetails (code errorCode) (category errorCode) (message errorCode)
            (title errorCode) details (expectedLocation this)
            (expectedScreenshot this errorCode screenshotName clock)
            (isoNow clock).

(** The JSON text of a record, given the text of its details (none
    when the details are [undefined]): absent fields are left out. *)
Definition recordText (r : ErrorDetails) (detailsText : option JSON.Text) : JSON.Text :=
  JSON.TObj
    ([ ("code", JSON.TNum (Js.Integer (ed_code r)));
       ("category", JSON.TStr (categoryName (ed_category r)));
       ("message", JSON.TStr (ed_message r));
       ("title", JSON.TStr (ed_title r)) ]
     ++ match detailsText with
        | Some t => [("details", t)]
        | None => []
        end
     ++ [ ("location", JSON.TStr (ed_location r)) ]
     ++ match ed_screenshot r with
        | Some p => [("screenshot", JSON.TStr p)]
        | None => []
        end
     ++ [ ("timestamp", JSON.TStr (ed_timestamp r)) ]).

(** Best-effort persistence of one record at time [now]: the file is
    written when the record serialises and the directory takes the
    write, and nothing changes otherwise. *)
Definition persist (r : ErrorDetails) (now : Z) (d : LogDir) : LogDir :=
  match JSON.serialize (ErrorDetails_object r) with
  | JSON.Printed t =>
      if dir_writable d (logFileName (ed_code r) now)
      then withEntries d (store (dir_place d) (logFileName (ed_code r) now)
                            (JsonText t) now (dir_entries d))
      else d
  | _ => d
  end.

(** Exactly one record file was written between [d] and [d']: the file
    [file] holds the JSON text of [r], every other name is as before,
    and when the name is new the listing grew by one entry. *)
Definition oneRecordWritten (r : ErrorDetails) (file : string) (d d' : LogDir) : Prop :=
  (exists e t,
      find (hasName file) (dir_entries d') = Some e
      /\ file_read e = Some (JsonText t)
      /\ JSON.serialize (ErrorDetails_object r) = JSON.Printed t)
  /\ (forall other, other <> file ->
        find (hasName other) (dir_entries d') = find (hasName other) (dir_entries d))
  /\ (find (hasName file) (dir_entries d) = None ->
        length (dir_entries d') = S (length (dir_entries d))).

(** The message [handleError] derives from the details: the caller's
    [message] property when it is truthy, the JSON text of the details
    otherwise. *)
Definition messageFromDetails (details : Js.Value) : Js.Value :=
  if Js.truthy (Js.optGet details "message")
  then Js.optGet details "message"
  else match JSON.serialize details with
       | JSON.Printed t => Js.JStr (JSON.render t)
       | _ => Js.JUndefined
       end.

(** The error [handleError] ends with when it throws: the classified
    error [createError] builds, or the TypeError that leaves
    [createError] when the message cannot be converted to a string. *)
Definition thrownBy (errorCode : ErrorCodeEntry) (details : Js.Value) : JsError :=
  match createError errorCode (messageFromDetails details) with
  | Returns e => e
  | Throws e => e
  end.

(** Names are unique in a directory. *)
Definition wfDir (d : LogDir) : Prop := NoDup (map file_name (dir_entries d)).

(** A record file (a name ending in [.json]) whose modification time
    is strictly older than the cutoff. *)
Definition expired (cutoff : Z) (e : Entry) : bool :=
  isLogFile (file_name e)
  && match file_mtime e with
     | Some t => t <? cutoff
     | None => false
     end.

(** A record file on which the pruning fails: it cannot be examined,
    or it is old enough and cannot be deleted. *)
Definition blocks (cutoff : Z) (e : Entry) : bool :=
  isLogFile (file_name e)
  && match file_mtime e with
     | Some t => (t <? cutoff) && negb (file_unlink e)
     | None => true
     end.

(** Every record file can be examined and deleted. *)
Definition healthy (d : LogDir) : Prop :=
  dir_listable d = true
  /\ forall e, In e (dir_entries d) -> isLogFile (file_name e) = true ->
               file_mtime e <> None /\ file_unlink e = true.

(** One pass over the listing that drops the expired record files and
    stops at the first file that blocks. *)
Fixpoint sweep (cutoff : Z) (es : list Entry) : list Entry :=
  match es with
  | [] => []
  | e :: rest =>
      if blocks cutoff e then e :: rest
      else if expired cutoff e then sweep cutoff rest
      else e :: sweep cutoff rest
  end.

(** The cutoff of [clearOldErrorLogs]. *)
Definition cutoffTime (olderThanDays now : Z) : Z :=
  now - olderThanDays * 24 * 60 * 60 * 1000.

(** What the scans read from an entry: the value of its [category]
    property, or nothing when the file cannot be read, is not JSON, or
    holds [null]. *)
Definition categoryValue (e : Entry) : option Js.Value :=
  match file_read e with
  | Some c =>
      match JSON_parse c with
      | Returns v => Js.get v "category"
      | Throws _ => None
      end
  | None => None
  end.

(** The property key that value names, when it can be converted to
    one. *)
Definition categoryKey (e : Entry) : option string :=
  match categoryValue e with
  | Some c =>
      match Js.toString c with
      | Js.Text k => Some k
      | Js.Unconvertible _ => None
      end
  | None => None
  end.

Definition isCategoryName (k : string) : bool :=
  existsb (fun c => String.eqb k (categoryName c)) ErrorCategory_values.

(** A record file filed under the key [k]. *)
Definition filedUnder (k : string) (e : Entry) : bool :=
  isLogFile (file_name e)
  && match categoryKey e with
     | Some k' => String.eqb k' k
     | None => false
     end.


(** A record file that is unreadable or malformed: it cannot be read,
    is not JSON, holds [null], or holds a category that cannot be made
    a property key. *)
Definition malformed (e : Entry) : bool :=
  isLogFile (file_name e)
  && match categoryKey e with
     | Some _ => false
     | None => true
     end.

(** A record file no category can be read from: it cannot be read, is
    not JSON, or holds [null]. *)
Definition unreadable (e : Entry) : bool :=
  isLogFile (file_name e)
  && match categoryValue e with
     | Some _ => false
     | None => true
     end.

(** [l.takeWhile(p)] *)
Fixpoint takeWhile {A : Type} (p : A -> bool) (l : list A) : list A :=
  match l with
  | [] => []
  | x :: rest => if p x then x :: takeWhile p rest else []
  end.

(** The entries the counting scan gets through: those listed before
    the first unreadable or malformed record file; none when the
    directory cannot be listed. *)
Definition scannedEntries (d : LogDir) : list Entry :=
  if dir_listable d
  then takeWhile (fun e => negb (malformed e)) (dir_entries d)
  else [].

(** The entries the collecting scan gets through: those listed before
    the first record file no category can be read from. *)
Definition readEntries (d : LogDir) : list Entry :=
  if dir_listable d
  then takeWhile (fun e => negb (unreadable e)) (dir_entries d)
  else [].

(** The keys the counting loop increments, in order. *)
Fixpoint scanKeys (es : list Entry) : list string :=
  match es with
  | [] => []
  | e :: rest =>
      if isLogFile (file_name e)
      then match categoryKey e with
           | Some k => k :: scanKeys rest
           | None => []
           end
      else scanKeys rest
  end.

(** The count the statistics hold for a category (zero when it is not
    a finite number). *)
Definition countOf (stats : Stats) (c : ErrorCategory) : Z :=
  match Js.lookup (categoryName c) stats with
  | Some (Js.Finite n) => n
  | _ => 0
  end.


(** How many entries satisfy a test. *)
Definition howMany {A : Type} (p : A -> bool) (l : list A) : Z :=
  Z.of_nat (length (filter p l)).

(** The value [JSON.parse] gives for an entry, when it can be read and
    holds JSON. *)
Definition parsedRecord (e : Entry) : option Js.Value :=
  match file_read e with
  | Some c =>
      match JSON_parse c with
      | Returns v => Some v
      | Throws _ => None
      end
  | None => None
  end.

Definition indicator (b : bool) : Z := if b then 1 else 0.

(** A statistics object with the eleven categories and the counts [f]. *)
Definition statsFrom (f : ErrorCategory -> Z) : Stats :=
  map (fun c => (categoryName c, Js.Finite (f c))) ErrorCategory_values.

(** The records a scan for the category [cat] collects from [es]. *)
Definition collected (cat : string) (es : list Entry) : list Js.Value :=
  flat_map
    (fun e =>
       if isLogFile (file_name e)
       then match parsedRecord e, categoryValue e with
            | Some v, Some c => if Js.strictEqStr c cat then [v] else []
            | _, _ => []
            end
       else [])
    es.

(** A directory that can be listed and whose record files all hold a
    record of one of the eleven categories. *)
Definition cleanStore (d : LogDir) : Prop :=
  dir_listable d = true
  /\ wfDir d
  /\ forall e, In e (dir_entries d) -> isLogFile (file_name e) = true ->
               exists c, categoryValue e = Some (Js.JStr (categoryName c)).

(** *** Reporting a sequence of failures *)

(** One call of [reportError]: the instance it runs on, its three
    arguments and the clock readings it takes. *)
Record ReportCall : Type := mkCall {
  call_this : Instance;
  call_errorCode : ErrorCodeEntry;
  call_details : Js.Value;
  call_screenshotName : option string;
  call_clock : Clock
}.


(** The log file a call writes. *)
Definition callFile (c : ReportCall) : string :=
  logFileName (code (call_errorCode c)) (msNow (call_clock c)).


(** The text of the details of a record, when they print. *)
Definition detailsText (r : ErrorDetails) : option JSON.Text :=
  match JSON.serialize (ed_details r) with
  | JSON.Printed t => Some t
  | _ => None
  end.

(** The entry a record written at [now] under a new name becomes. *)
Definition recordFile (r : ErrorDetails) (now : Z) : Entry :=
  mkFile (logFileName (ed_code r) now)
         (Some (JsonText (recordText r (detailsText r)))) (Some now) true.

(** The entry a call leaves in the log directory. *)
Definition callRecord (c : ReportCall) : Entry :=
  recordFile (expectedRecord (call_this c) (call_errorCode c) (call_details c)
                (call_screenshotName c) (call_clock c))
             (msNow (call_clock c)).

(** *** Deep equality and JSON-representable values *)

Definition isUndefined (v : Js.Value) : bool :=
  match v with
  | Js.JUndefined => true
  | _ => false
  end.

(** A value with the properties that hold [undefined] removed, at every
    depth. *)
Fixpoint dropUndefined (v : Js.Value) : Js.Value :=
  match v with
  | Js.JArr items => Js.JArr (map dropUndefined items)
  | Js.JObj props =>
      Js.JObj (filter (fun kx => negb (isUndefined (snd kx)))
                      (map (fun kx => (fst kx, dropUndefined (snd kx))) props))
  | _ => v
  end.

(** Deep equality as the test runner's [toEqual] takes it: properties
    that hold [undefined] are ignored. *)
Definition deepEqual (a b : Js.Value) : Prop := dropUndefined a = dropUndefined b.

(** No name occurs twice. *)
Fixpoint distinctKeys (keys : list string) : bool :=
  match keys with
  | [] => true
  | k :: rest => negb (existsb (String.eqb k) rest) && distinctKeys rest
  end.

(** The names stand in enumeration order: none is listed before a
    name that precedes it. *)
Fixpoint enumerationOrder (keys : list string) : bool :=
  match keys with
  | [] => true
  | k :: rest =>
      forallb (fun k' => negb (Js.listedBefore k' k)) rest && enumerationOrder rest
  end.

(** A finite number other than negative zero. *)
Definition exactNumber (n : Js.Number) : bool :=
  match n with
  | Js.Integer _ | Js.Fraction _ => true
  | Js.NegativeZero | Js.NotANumber | Js.Infinity _ => false
  end.

(** A value JSON represents exactly: [null], booleans, finite numbers
    other than negative zero, strings, arrays of such values, and
    objects (their keys distinct and in enumeration order, as those of
    every object are) whose properties hold such values or
    [undefined]. *)
Fixpoint representable (v : Js.Value) : bool :=
  match v with
  | Js.JUndefined => false
  | Js.JNull => true
  | Js.JBool _ => true
  | Js.JNum n => exactNumber n
  | Js.JStr _ => true
  | Js.JArr items => forallb representable items
  | Js.JObj props =>
      distinctKeys (map fst props)
      && enumerationOrder (map fst props)
      && forallb (fun kx => isUndefined (snd kx) || representable (snd kx)) props
  | Js.JCyclic => false
  | Js.JSymbol => false
  end.

(** Details a record can hold and get back from its file: none, or a
    representable value. *)
Definition representableDetails (d : Js.Value) : bool :=
  isUndefined d || representable d.

(** *** Induction on values *)

Section ValueInduction.
Variable P : Js.Value -> Prop.
Hypothesis Hundefined : P Js.JUndefined.
Hypothesis Hnull : P Js.JNull.
Hypothesis Hbool : forall b, P (Js.JBool b).
Hypothesis Hnum : forall n, P (Js.JNum n).
Hypothesis Hstr : forall s, P (Js.JStr s).
Hypothesis Harr : forall items, Forall P items -> P (Js.JArr items).
Hypothesis Hobj : forall props, Forall (fun kx => P (snd kx)) props -> P (Js.JObj props).
Hypothesis Hcyclic : P Js.JCyclic.
Hypothesis Hsymbol : P Js.JSymbol.

(** Induction on values, with the hypothesis on every element and on
    every property value. *)
Fixpoint Value_nested_ind (v : Js.Value) : P v :=
  match v with
  | Js.JUndefined => Hundefined
  | Js.JNull => Hnull
  | Js.JBool b => Hbool b
  | Js.JNum n => Hnum n
  | Js.JStr s => Hstr s
  | Js.JArr items =>
      Harr items
        ((fix all (l : list Js.Value) : Forall P l :=
            match l with
            | [] => Forall_nil P
            | x :: rest => Forall_cons x (Value_nested_ind x) (all rest)
            end) items)
  | Js.JObj props =>
      Hobj props
        ((fix all (l : list (string * Js.Value)) : Forall (fun kx => P (snd kx)) l :=
            match l with
            | [] => Forall_nil _
            | kx :: rest => Forall_cons kx (Value_nested_ind (snd kx)) (all rest)
            end) props)
  | Js.JCyclic => Hcyclic
  | Js.JSymbol => Hsymbol
  end.
End ValueInduction.

(* ================================================================== *)
(** ** Sample inputs *)

Module Sample.

(** A POSIX-like platform for concrete runs. *)
Definition platform : Platform :=
  mkPlatform
    (fun dir name => dir ++ "/" ++ name)
    (fun from to =>
       substring (S (String.length from))
                 (String.length to - S (String.length from)) to)
    (fun path base => Returns (base ++ path))
    "test-results"
    "https://www.saucedemo.com".

Definition closed : JsError :=
  plainError "Target page, context or browser has been closed".

(** A page that answers every call. *)
Definition openPage : Page :=
  mkPage "https://www.saucedemo.com/inventory.html" (Returns "Swag Labs")
         (fun _ => Returns tt) (fun _ => Returns tt)
         (fun _ => Returns true) (fun _ => Returns "Products").

(** A page closed before the call. *)
Definition closedPage : Page :=
  mkPage "about:blank" (Throws closed)
         (fun _ => Throws closed) (fun _ => Throws closed)
         (fun _ => Throws closed) (fun _ => Throws closed).

Definition withPage : Instance := mkInstance (Some openPage) platform.
Definition withClosedPage : Instance := mkInstance (Some closedPage) platform.
Definition withoutPage : Instance := mkInstance None platform.

Definition clock : Clock := mkClock "2024-01-02T03:04:05.678Z" 1704164645678.

(** A file system that lists a new name after the names present. *)
Definition listedLast (file : string) (names : list string) : nat := length names.

Definition emptyDir : LogDir := mkDir true (fun _ => true) listedLast [].
Definition readOnlyDir : LogDir := mkDir true (fun _ => false) listedLast [].

Definition fresh : World := mkWorld emptyDir [].
Definition readOnly : World := mkWorld readOnlyDir [].

(** A payload with a number that is not finite. *)
Definition ratioDetails : Js.Value :=
  Js.JObj [ ("selector", Js.JStr "#total"); ("ratio", Js.JNum Js.NotANumber) ].

(** The details of the network-timeout scenario. *)
Definition timeoutDetails : Js.Value :=
  Js.JObj [ ("url", Js.JStr "https://x");
            ("timeoutMs", Js.JNum (Js.Integer 5000)) ].

End Sample.

Module SampleLogs.

(** Two record files: the first cannot be examined, the second is old
    and could be deleted. *)
Definition lockedThenOld : World :=
  mkWorld
    (mkDir true (fun _ => true) Sample.listedLast
       [ mkFile "error_2001_100.json" None None true;
         mkFile "error_2002_200.json" (Some (Garbage "")) (Some 200) true ])
    [].

(** One old record file that cannot be deleted. *)
Definition oldReadOnly : World :=
  mkWorld
    (mkDir true (fun _ => true) Sample.listedLast
       [ mkFile "error_2001_100.json" (Some (Garbage "")) (Some 100) false ])
    [].

(** Three record files of different ages, and a file that is no record. *)
Definition threeAges : World :=
  mkWorld
    (mkDir true (fun _ => true) Sample.listedLast
       [ mkFile "error_2001_100.json" (Some (Garbage "")) (Some 100) true;
         mkFile "notes.txt" (Some (Garbage "")) (Some 50) true;
         mkFile "error_3002_5000.json" (Some (Garbage "")) (Some 86400000) true;
         mkFile "error_6001_9000.json" (Some (Garbage "")) (Some 86400001) true ])
    [].

(** The JSON text of a minimal record of a category. *)
Definition recordOf (c : ErrorCategory) : FileContent :=
  JsonText (JSON.TObj [ ("code", JSON.TNum (Js.Integer 0));
                        ("category", JSON.TStr (categoryName c)) ]).


(** A record whose category is an object with an own [toString]
    property, as [JSON.parse] gives for [{"toString":1}], listed before
    a valid record. *)
Definition unconvertibleThenRecord : World :=
  mkWorld
    (mkDir true (fun _ => true) Sample.listedLast
       [ mkFile "error_1001_1.json"
           (Some (JsonText
                    (JSON.TObj [ ("code", JSON.TNum (Js.Integer 1001));
                                 ("category",
                                  JSON.TObj [("toString", JSON.TNum (Js.Integer 1))]) ])))
           (Some 1) true;
         mkFile "error_1002_2.json" (Some (recordOf DATA)) (Some 2) true ])
    [].


End SampleLogs.

Module SampleRun.

Definition call (e : ErrorCodeEntry) (ms : Z) : ReportCall :=
  mkCall Sample.withPage e Sample.timeoutDetails None
         (mkClock "2024-01-02T03:04:05.678Z" ms).

(** Four element failures, two navigation failures and one
    authentication failure, a millisecond apart. *)
Definition sevenCalls : list ReportCall :=
  [ call ERROR_LOCATOR_NOT_FOUND 1; call ERROR_NAVIGATION_FAILED 2;
    call ERROR_ELEMENT_NOT_VISIBLE 3; call ERROR_AUTH_FAILED 4;
    call ERROR_LOCATOR_NOT_FOUND 5; call ERROR_PAGE_NOT_LOADED 6;
    call ERROR_ELEMENT_TIMEOUT 7 ].

End SampleRun.

From Stdlib Require DecimalZ DecimalPos.

(* ================================================================== *)
(** ** BasePage, the other actions *)

(** [string | RegExp], the argument of [expectUrl] and [expectTitle]. *)
Inductive Pattern : Type :=
| PString (s : string)
| PRegExp (source flags : string).

(** [pattern.toString()] *)
Definition Pattern_toString (p : Pattern) : string :=
  match p with
  | PString s => s
  | PRegExp source flags => "/" ++ source ++ "/" ++ flags
  end.

(** The Playwright calls of the other actions, by what each answers:
    the locator calls by selector, the [expect] matchers on a locator
    by selector and on the page by the page they are given, and the
    three waits of the page. *)
Record Browser : Type := mkBrowser {
  locator_click : string -> Outcome unit;
  locator_fill : string -> string -> Outcome unit;
  locator_waitFor : string -> option Js.Number -> Outcome unit;
  locator_selectOption : string -> string -> Outcome unit;
  expect_toContainText : string -> string -> Outcome unit;
  expect_toBeVisible : string -> Outcome unit;
  expect_toHaveURL : option Page -> Pattern -> Outcome unit;
  expect_toHaveTitle : option Page -> Pattern -> Outcome unit;
  page_waitForLoadState : string -> Outcome unit;
  page_waitForSelector : string -> string -> Outcome unit;
  page_waitForTimeout : Z -> Outcome unit
}.

Module BasePageActions.

(** A call on [this.getLocator(selector)]: [this.page.locator] is read
    first. *)
Definition onLocator {A : Type} (this : Instance) (call : Outcome A) : M A :=
  match page this with
  | Some _ => lift call
  | None => throw (BasePage.noPage "locator")
  end.

(** [async waitForNavigation()] *)
Definition waitForNavigation (this : Instance) (browser : Browser) : M unit :=
  match page this with
  | Some _ => lift (page_waitForLoadState browser "networkidle")
  | None => throw (BasePage.noPage "waitForLoadState")
  end.

(** [async click(selector)] *)
Definition click (this : Instance) (browser : Browser) (selector : string)
  (clock : Clock) : M unit :=
  try_catch
    (onLocator this (locator_click browser selector))
    (fun error =>
       handleError this ERROR_ELEMENT_NOT_CLICKABLE
         (Js.JObj [ ("selector", Js.JStr selector);
                    ("error", Js.JStr (err_message error));
                    ("action", Js.JStr "click") ])
         true clock ;;;
       ret tt).

(** [async fill(selector, value)] *)
Definition fill (this : Instance) (browser : Browser) (selector value : string)
  (clock : Clock) : M unit :=
  try_catch
    (onLocator this (locator_fill browser selector value))
    (fun error =>
       handleError this ERROR_ELEMENT_NOT_VISIBLE
         (Js.JObj [ ("selector", Js.JStr selector);
                    ("value", Js.JStr value);
                    ("error", Js.JStr (err_message error));
                    ("action", Js.JStr "fill") ])
         true clock ;;;
       ret tt).

(** An optional number as a property value. *)
Definition optionalNumber (n : option Js.Number) : Js.Value :=
  match n with
  | Some x => Js.JNum x
  | None => Js.JUndefined
  end.

(** [async waitForElement(selector, timeout?)] *)
Definition waitForElement (this : Instance) (browser : Browser) (selector : string)
  (timeout : option Js.Number) (clock : Clock) : M unit :=
  try_catch
    (onLocator this (locator_waitFor browser selector timeout))
    (fun error =>
       handleError this ERROR_ELEMENT_NOT_VISIBLE
         (Js.JObj [ ("selector", Js.JStr selector);
                    ("timeout", optionalNumber timeout);
                    ("error", Js.JStr (err_message error));
                    ("action", Js.JStr "waitForElement") ])
         true clock ;;;
       ret tt).

(** [async takeScreenshot(name)] *)
Definition takeScreenshot (this : Instance) (name : string) : M unit :=
  match page this with
  | Some p =>
      lift (page_screenshot p
              (testResultsDir (platform this) ++ "/screenshots/" ++ name ++ ".png"))
  | None => throw (BasePage.noPage "screenshot")
  end.

(** [async expectTextToContain(selector, text)] *)
Definition expectTextToContain (this : Instance) (browser : Browser)
  (selector text : string) (clock : Clock) : M unit :=
  try_catch
    (onLocator this (expect_toContainText browser selector text))
    (fun error =>
       handleError this ERROR_ASSERTION_TEXT
         (Js.JObj [ ("selector", Js.JStr selector);
                    ("expectedText", Js.JStr text);
                    ("error", Js.JStr (err_message error));
                    ("action", Js.JStr "expectTextToContain") ])
         true clock ;;;
       ret tt).

(** [async expectToBeVisible(selector)] *)
Definition expectToBeVisible (this : Instance) (browser : Browser)
  (selector : string) (clock : Clock) : M unit :=
  try_catch
    (onLocator this (expect_toBeVisible browser selector))
    (fun error =>
       handleError this ERROR_ASSERTION_VISIBILITY
         (Js.JObj [ ("selector", Js.JStr selector);
                    ("error", Js.JStr (err_message error));
                    ("action", Js.JStr "expectToBeVisible") ])
         true clock ;;;
       ret tt).

(** [async expectUrl(urlPattern)] *)
Definition expectUrl (this : Instance) (browser : Browser) (urlPattern : Pattern)
  (clock : Clock) : M unit :=
  try_catch
    (lift (expect_toHaveURL browser (page this) urlPattern))
    (fun error =>
       currentUrl <- match page this with
                     | Some p => ret (page_url p)
                     | None => throw (BasePage.noPage "url")
                     end ;;
       handleError this ERROR_URL_MISMATCH
         (Js.JObj [ ("expectedUrl", Js.JStr (Pattern_toString urlPattern));
                    ("actualUrl", Js.JStr currentUrl);
                    ("error", Js.JStr (err_message error)) ])
         true clock ;;;
       ret tt).

(** [async expectTitle(title)] *)
Definition expectTitle (this : Instance) (browser : Browser) (title : Pattern)
  (clock : Clock) : M unit :=
  try_catch
    (lift (expect_toHaveTitle browser (page this) title))
    (fun error =>
       currentTitle <- match page this with
                       | Some p => lift (page_title p)
                       | None => throw (BasePage.noPage "title")
                       end ;;
       handleError this ERROR_ASSERTION_PROPERTY
         (Js.JObj [ ("expectedTitle", Js.JStr (Pattern_toString title));
                    ("actualTitle", Js.JStr currentTitle);
                    ("error", Js.JStr (err_message error)) ])
         true clock ;;;
       ret tt).

(** The code [selectOption] files a failure under. *)
Definition selectOptionCode (error : JsError) : ErrorCodeEntry :=
  if Str.includes (err_message error) "timeout"
  then ERROR_ELEMENT_TIMEOUT
  else ERROR_ELEMENT_WRONG_STATE.

(** [async selectOption(selector, value)] *)
Definition selectOption (this : Instance) (browser : Browser) (selector value : string)
  (clock : Clock) : M unit :=
  try_catch
    (onLocator this (locator_selectOption browser selector value))
    (fun error =>
       let errorCode := selectOptionCode error in
       handleError this errorCode
         (Js.JObj [ ("selector", Js.JStr selector);
                    ("value", Js.JStr value);
                    ("error", Js.JStr (err_message error));
                    ("action", Js.JStr "selectOption") ])
         true clock ;;;
       ret tt).

(** [async reportError(errorCode, details?, screenshotName?)] of the
    page object: the record is dropped. *)
Definition reportError (this : Instance) (errorCode : ErrorCodeEntry)
  (details : Js.Value) (screenshotName : option string) (clock : Clock) : M unit :=
  reportError this errorCode details screenshotName clock ;;;
  ret tt.

(** [async handleError(errorCode, details?, throwError = true)] of the
    page object. *)
Definition handleError (this : Instance) (errorCode : ErrorCodeEntry)
  (details : Js.Value) (throwError : bool) (clock : Clock) : M unit :=
  handleError this errorCode details throwError clock ;;;
  ret tt.

End BasePageActions.

(* ================================================================== *)
(** ** parseInt *)

(** White space and line terminators among the code units below 256. *)
Definition isWhiteSpace (c : ascii) : bool :=
  let n := nat_of_ascii c in
  ((n =? 9) || (n =? 10) || (n =? 11) || (n =? 12) || (n =? 13)
   || (n =? 32) || (n =? 160))%nat.

Fixpoint trimStart (s : string) : string :=
  match s with
  | EmptyString => EmptyString
  | String c rest => if isWhiteSpace c then trimStart rest else s
  end.

(** The value of a digit or letter as a digit of some radix. *)
Definition digitValue (c : ascii) : option Z :=
  let n := nat_of_ascii c in
  if ((48 <=? n) && (n <=? 57))%nat then Some (Z.of_nat n - 48)
  else if ((97 <=? n) && (n <=? 122))%nat then Some (Z.of_nat n - 87)
  else if ((65 <=? n) && (n <=? 90))%nat then Some (Z.of_nat n - 55)
  else None.

(** The longest prefix of digits of the radix, as a number; [acc] is
    the value read so far, none when no digit was read. *)
Fixpoint digitsPrefix (radix : Z) (s : string) (acc : option Z) : option Z :=
  match s with
  | EmptyString => acc
  | String c rest =>
      match digitValue c with
      | Some d =>
          if d <? radix
          then digitsPrefix radix rest
                 (Some (radix * match acc with Some a => a | None => 0 end + d))
          else acc
      | None => acc
      end
  end.

(** [parseInt(s)] with no radix: leading white space, a sign, the
    prefix [0x] or [0X] for radix 16, then the longest prefix of digits;
    [NaN] when there is none.  A zero keeps the sign, and any other
    integer read is rounded to the nearest double, an infinity beyond
    the largest one.  (Past twenty significant decimal digits the
    language lets an engine read the further digits as zeros; the
    exact integer is rounded here.) *)
Definition parseInt (s : string) : Js.Number :=
  let trimmed := trimStart s in
  let signed :=
    match trimmed with
    | String "-" rest => (-1, rest)
    | String "+" rest => (1, rest)
    | _ => (1, trimmed)
    end in
  let prefixed :=
    match snd signed with
    | String "0" (String "x" rest) => (16, rest)
    | String "0" (String "X" rest) => (16, rest)
    | other => (10, other)
    end in
  match digitsPrefix (fst prefixed) (snd prefixed) None with
  | Some n =>
      if n =? 0
      then (if fst signed <? 0 then Js.NegativeZero else Js.Integer 0)
      else Js.ofInteger (fst signed * n)
  | None => Js.NotANumber
  end.

(* ================================================================== *)
(** ** SauceInventoryPage *)

Module SauceInventoryPage.

Definition quoted (s : string) : string :=
  String (ascii_of_nat 34) s ++ String (ascii_of_nat 34) "".

Definition productList : string := ".inventory_list".
Definition shoppingCartBadge : string := ".shopping_cart_badge".
Definition shoppingCartLink : string := ".shopping_cart_link".
Definition sortDropdown : string :=
  "[data-test=" ++ quoted "product_sort_container" ++ "]".
Definition burgerMenu : string := "#react-burger-menu-btn".
Definition logoutLink : string := "#logout_sidebar_link".

(** [async isLoaded()] *)
Definition isLoaded (this : Instance) (nameMs : Z) (clock : Clock) : M bool :=
  BasePage.isVisible this productList nameMs clock.

(** [async getCartCount()] *)
Definition getCartCount (this : Instance) (clock : Clock) : M Js.Number :=
  try_catch
    (text <- BasePage.getText this shoppingCartBadge clock ;;
     ret (parseInt text))
    (fun _ => ret (Js.Integer 0)).

(** [async goToCart()] *)
Definition goToCart (this : Instance) (browser : Browser) (clock : Clock) : M unit :=
  BasePageActions.click this browser shoppingCartLink clock.

(** ['az' | 'za' | 'lohi' | 'hilo'] *)
Inductive SortOption : Type := az | za | lohi | hilo.

Definition SortOption_text (o : SortOption) : string :=
  match o with
  | az => "az"
  | za => "za"
  | lohi => "lohi"
  | hilo => "hilo"
  end.

(** The [try] block of [sortProducts]; the two clocks are those of the
    reports [waitForElement] and [selectOption] make when they fail. *)
Definition sortAttempt (this : Instance) (browser : Browser) (sortOption : SortOption)
  (waitClock selectClock : Clock) : M unit :=
  BasePageActions.waitForElement this browser sortDropdown None waitClock ;;;
  match page this with
  | Some _ => lift (page_waitForSelector browser sortDropdown "attached")
  | None => throw (BasePage.noPage "waitForSelector")
  end ;;;
  BasePageActions.selectOption this browser sortDropdown
    (SortOption_text sortOption) selectClock ;;;
  match page this with
  | Some _ => lift (page_waitForTimeout browser 300)
  | None => throw (BasePage.noPage "waitForTimeout")
  end.

(** The details object of the report [sortProducts] makes. *)
Definition sortDetails (sortOption : SortOption) (error : JsError) : Js.Value :=
  Js.JObj [ ("action", Js.JStr "sortProducts");
            ("sortOption", Js.JStr (SortOption_text sortOption));
            ("error", Js.JStr (err_message error)) ].

(** [async sortProducts(sortOption)]; [nameMs] is the [Date.now()] of
    the screenshot name and [clock] the clock of its own report. *)
Definition sortProducts (this : Instance) (browser : Browser) (sortOption : SortOption)
  (waitClock selectClock : Clock) (nameMs : Z) (clock : Clock) : M unit :=
  try_catch
    (sortAttempt this browser sortOption waitClock selectClock)
    (fun error =>
       let errorCode :=
         if Str.includes (err_message error) "timeout"
         then ERROR_ELEMENT_TIMEOUT
         else ERROR_ELEMENT_WRONG_STATE in
       BasePageActions.reportError this errorCode (sortDetails sortOption error)
         (Some ("sort-products-error-" ++ Str.ofZ nameMs ++ ".png")) clock ;;;
       throw error).

(** [async logout()]; the two clocks are those of the two clicks. *)
Definition logout (this : Instance) (browser : Browser) (clock1 clock2 : Clock)
  : M unit :=
  BasePageActions.click this browser burgerMenu clock1 ;;;
  match page this with
  | Some _ => lift (page_waitForTimeout browser 500)
  | None => throw (BasePage.noPage "waitForTimeout")
  end ;;;
  BasePageActions.click this browser logoutLink clock2.

End SauceInventoryPage.

(** ** Notions for the page actions *)

(** What the browser call of an action on a locator gives: the answer
    of the call, or the TypeError of [this.page.locator] when there is
    no page. *)
Definition locatorOutcome {A : Type} (this : Instance) (call : Outcome A) : Outcome A :=
  match page this with
  | Some _ => call
  | None => Throws (BasePage.noPage "locator")
  end.

(** An action that reports and throws, started in [w], given the
    outcome of its browser call: when the call succeeds the action
    returns and the state is as before; when it fails with [low], the
    action makes one report of [errorCode] with the details
    [details low] at [clock], and throws the synthetic error of that
    code. *)
Definition reportsAndThrows (run : M unit) (outcome : Outcome unit) (this : Instance)
  (errorCode : ErrorCodeEntry) (details : JsError -> Js.Value) (clock : Clock)
  (w : World) : Prop :=
  match outcome with
  | Returns _ => run w = (Returns tt, w)
  | Throws low =>
      exists thrown w',
        createError errorCode (messageFromDetails (details low)) = Returns thrown
        /\ run w = (Throws thrown, w')
        /\ logDir w' = persist (expectedRecord this errorCode (details low) None clock)
                               (msNow clock) (logDir w)
  end.

(* ================================================================== *)
(** ** The test files, the console and the OpenAI endpoint

    [AITestMaintainer] and [OpenAIHelper] work on test files anywhere
    on disk, print with [console.log], [console.warn] and
    [console.error], and post to the OpenAI endpoint through [axios]. *)

From Stdlib Require QArith.

Module Lab.

(** A path on disk: a regular file with its content (none when it
    cannot be read), or a directory. *)
Inductive DiskNode : Type :=
| DFile (content : option string)
| DDir.

(** The disk: the paths that exist, and the paths that can be written. *)
Record Disk : Type := mkDisk {
  disk_nodes : list (string * DiskNode);
  disk_writable : string -> bool
}.

(** The body and the [Authorization] header of one [axios.post]. *)
Record Request : Type := mkRequest {
  req_url : string;
  req_model : string;
  req_content : string;
  req_temperature : QArith_base.Q;
  req_max_tokens : Z;
  req_authorization : string
}.

(** The endpoint, by what a post answers: the [content] of the
    messages of [response.data.choices], in order, or a rejection. *)
Definition Axios : Type := Request -> Outcome (list string).

(** One console call: the method and its arguments. *)
Definition Printed : Type := (string * list string)%type.

(** The mutable state: the disk, the console output so far and the
    requests posted so far (oldest first). *)
Record State : Type := mkState {
  disk : Disk;
  printed : list Printed;
  sent : list Request
}.

Definition L (A : Type) : Type := State -> Outcome A * State.

Definition ret {A : Type} (a : A) : L A := fun s => (Returns a, s).

Definition throw {A : Type} (e : JsError) : L A := fun s => (Throws e, s).

Definition bind {A B : Type} (m : L A) (k : A -> L B) : L B :=
  fun s =>
    match m s with
    | (Returns a, s') => k a s'
    | (Throws e, s') => (Throws e, s')
    end.

(** [try { body } catch (e) { handler }] *)
Definition try_catch {A : Type} (body : L A) (handler : JsError -> L A) : L A :=
  fun s =>
    match body s with
    | (Returns a, s') => (Returns a, s')
    | (Throws e, s') => handler e s'
    end.

Declare Scope lab_scope.
Delimit Scope lab_scope with lab.
Notation "x <- m ;; k" := (bind m (fun x => k))
  (at level 61, m at next level, right associativity) : lab_scope.
Notation "m ;;; k" := (bind m (fun _ => k))
  (at level 61, right associativity) : lab_scope.
Local Open Scope lab_scope.

(** [console.log(text)], [console.warn(text)], [console.error(...)] *)
Definition console_call (method : string) (args : list string) : L unit :=
  fun s => (Returns tt, mkState (disk s) (printed s ++ [(method, args)]) (sent s)).

Definition setNodes (s : State) (nodes : list (string * DiskNode)) : State :=
  mkState (mkDisk nodes (disk_writable (disk s))) (printed s) (sent s).

(** [fs.existsSync(path)] *)
Definition existsSync (path : string) : L bool :=
  fun s =>
    (Returns match Js.lookup path (disk_nodes (disk s)) with
             | Some _ => true
             | None => false
             end, s).

(** [fs.readFileSync(path, 'utf8')] *)
Definition readFileSync (path : string) : L string :=
  fun s =>
    match Js.lookup path (disk_nodes (disk s)) with
    | Some (DFile (Some content)) => (Returns content, s)
    | Some (DFile None) => (Throws (plainError "EACCES: permission denied, open"), s)
    | Some DDir =>
        (Throws (plainError "EISDIR: illegal operation on a directory, read"), s)
    | None => (Throws (plainError "ENOENT: no such file or directory, open"), s)
    end.

(** Writing [content] to [path]: refused on a path that cannot be
    written and on a directory. *)
Definition writeTo (path content : string) (s : State) : option State :=
  if disk_writable (disk s) path
  then match Js.lookup path (disk_nodes (disk s)) with
       | Some DDir => None
       | _ => Some (setNodes s (Js.set path (DFile (Some content))
                                  (disk_nodes (disk s))))
       end
  else None.

(** [fs.writeFileSync(path, data)] *)
Definition writeFileSync (path data : string) : L unit :=
  fun s =>
    match writeTo path data s with
    | Some s' => (Returns tt, s')
    | None => (Throws (plainError "EACCES: permission denied, open"), s)
    end.

(** [fs.copyFileSync(src, dest)] *)
Definition copyFileSync (src dest : string) : L unit :=
  fun s =>
    match Js.lookup src (disk_nodes (disk s)) with
    | Some (DFile (Some content)) =>
        match writeTo dest content s with
        | Some s' => (Returns tt, s')
        | None => (Throws (plainError "EACCES: permission denied, copyfile"), s)
        end
    | Some (DFile None) => (Throws (plainError "EACCES: permission denied, copyfile"), s)
    | Some DDir =>
        (Throws (plainError "EISDIR: illegal operation on a directory, copyfile"), s)
    | None => (Throws (plainError "ENOENT: no such file or directory, copyfile"), s)
    end.

(** [await axios.post(url, body, config)]: the request is recorded as
    sent, whatever the answer. *)
Definition post (axios : Axios) (request : Request) : L (list string) :=
  fun s => (axios request, mkState (disk s) (printed s) (sent s ++ [request])).

End Lab.

(** [s.trim()] on code units below 256. *)
Fixpoint trimEnd (s : string) : string :=
  match s with
  | EmptyString => EmptyString
  | String c rest =>
      match trimEnd rest with
      | EmptyString => if isWhiteSpace c then EmptyString else String c EmptyString
      | kept => String c kept
      end
  end.

Definition trim (s : string) : string := trimEnd (trimStart s).

(** [s.replace(/\n/g, replacement)] *)
Fixpoint replaceNewlines (s replacement : string) : string :=
  match s with
  | EmptyString => EmptyString
  | String c rest =>
      if (nat_of_ascii c =? 10)%nat then replacement ++ replaceNewlines rest replacement
      else String c (replaceNewlines rest replacement)
  end.

(* ================================================================== *)
(** ** OpenAIHelper *)

Module OpenAIHelper.
Import Lab.
Local Open Scope lab_scope.

(** The fields of an instance. *)
Record Instance : Type := mkHelper {
  apiKey : string;
  model : string;
  baseUrl : string
}.

(** [a || b] on an optional string: [undefined] and the empty string
    are falsy. *)
Definition orElse (a : option string) (b : string) : string :=
  match a with
  | Some s => if String.eqb s "" then b else s
  | None => b
  end.

(** The same when [b] is a call, made only when [a] is falsy. *)
Definition orElseCall (a : option string) (b : L string) : L string :=
  match a with
  | Some s => if String.eqb s "" then b else ret s
  | None => b
  end.

(** The longest run of characters that are not white space, at the
    start of a text. *)
Fixpoint nonSpaceRun (s : string) : string :=
  match s with
  | EmptyString => EmptyString
  | String c rest =>
      if isWhiteSpace c then EmptyString else String c (nonSpaceRun rest)
  end.

(** The capture of [content.match(/OPENAI_API_KEY=([^\s]+)/)]: the
    leftmost place where the name and the equals sign are followed by
    a character that is not white space, and the run of such characters
    from there. *)
Fixpoint matchApiKey (content : string) : option string :=
  let here :=
    if prefix "OPENAI_API_KEY=" content
    then nonSpaceRun (substring 15 (String.length content - 15) content)
    else "" in
  if negb (String.eqb here "") then Some here
  else match content with
       | EmptyString => None
       | String _ rest => matchApiKey rest
       end.

(** [function readApiKeyFromEnvFile()]; [envPath] is
    [path.resolve(process.cwd(), '.env')]. *)
Definition readApiKeyFromEnvFile (envPath : string) : L (option string) :=
  try_catch
    (found <- existsSync envPath ;;
     if found
     then (envContent <- readFileSync envPath ;;
           ret (matchApiKey envContent))
     else ret None)
    (fun error =>
       console_call "error" ["Error reading .env file:"; err_message error] ;;;
       ret None).

(** [constructor(apiKey?, model = 'gpt-4o-mini')]; [envKey] is
    [process.env.OPENAI_API_KEY]. *)
Definition new (apiKeyArg : option string) (modelArg : option string)
  (envKey : option string) (envPath : string) : L Instance :=
  key <- orElseCall apiKeyArg
           (orElseCall envKey
              (fileKey <- readApiKeyFromEnvFile envPath ;;
               ret (orElse fileKey ""))) ;;
  let this :=
    mkHelper key
             (match modelArg with Some m => m | None => "gpt-4o-mini" end)
             "https://api.openai.com/v1" in
  (if String.eqb (apiKey this) ""
   then console_call "warn"
          ["OpenAI API key not provided. Set OPENAI_API_KEY environment variable or pass it to the constructor."]
   else console_call "log" ["OpenAI API key loaded successfully"]) ;;;
  ret this.

(** The [options] of [generateText]. *)
Record Options : Type := mkOptions {
  temperature : option QArith_base.Q;
  maxTokens : option Z
}.

(** [options?.temperature || 0.7] *)
Definition temperatureOr (options : option Options) : QArith_base.Q :=
  match options with
  | Some o =>
      match temperature o with
      | Some t => if QArith_base.Qnum t =? 0 then QArith_base.Qmake 7 10 else t
      | None => QArith_base.Qmake 7 10
      end
  | None => QArith_base.Qmake 7 10
  end.

(** [options?.maxTokens || 1000] *)
Definition maxTokensOr (options : option Options) : Z :=
  match options with
  | Some o =>
      match maxTokens o with
      | Some n => if n =? 0 then 1000 else n
      | None => 1000
      end
  | None => 1000
  end.

(** The request [generateText] posts. *)
Definition requestFor (this : Instance) (prompt : string) (options : option Options)
  : Request :=
  mkRequest (baseUrl this ++ "/chat/completions") (model this) prompt
            (temperatureOr options) (maxTokensOr options)
            ("Bearer " ++ apiKey this).

(** [response.data.choices[0].message.content.trim()] *)
Definition firstChoice (choices : list string) : L string :=
  match choices with
  | content :: _ => ret (trim content)
  | [] => throw (plainError
                   "Cannot read properties of undefined (reading 'message')")
  end.

(** [async generateText(prompt, options?)] *)
Definition generateText (this : Instance) (axios : Axios) (prompt : string)
  (options : option Options) : L string :=
  if String.eqb (apiKey this) ""
  then throw (plainError "OpenAI API key not provided")
  else
    try_catch
      (choices <- post axios (requestFor this prompt options) ;;
       firstChoice choices)
      (fun error =>
         console_call "error" ["Error generating text with OpenAI:"; err_message error] ;;;
         throw error).

(** The prompt of [analyzeTestFailure]. *)
Definition analyzeTestFailurePrompt (testCode errorMessage : string) : string :=
  Str.join newline
    [ "";
      "      Analyze this failed test and suggest fixes:";
      "      ";
      "      Test code:";
      "      ```";
      "      " ++ testCode;
      "      ```";
      "      ";
      "      Error message:";
      "      ```";
      "      " ++ errorMessage;
      "      ```";
      "      ";
      "      Provide a detailed analysis of what might be causing the failure and suggest specific code changes to fix it.";
      "    " ].

(** The prompt of [optimizeTestSuite]. *)
Definition optimizeTestSuitePrompt (testResults testCode : string) : string :=
  Str.join newline
    [ "";
      "      Optimize this test suite based on the test results:";
      "      ";
      "      Test results:";
      "      ```";
      "      " ++ testResults;
      "      ```";
      "      ";
      "      Current test code:";
      "      ```";
      "      " ++ testCode;
      "      ```";
      "      ";
      "      Suggest optimizations to improve:";
      "      1. Test reliability";
      "      2. Test performance";
      "      3. Code maintainability";
      "      4. Test coverage";
      "      ";
      "      Provide specific code changes and explanations.";
      "    " ].

(** The prompt of [generateDocumentation]. *)
Definition generateDocumentationPrompt (testCode : string) : string :=
  Str.join newline
    [ "";
      "      Generate comprehensive documentation for this test suite:";
      "      ";
      "      ```";
      "      " ++ testCode;
      "      ```";
      "      ";
      "      Include:";
      "      1. Overview of what the tests cover";
      "      2. Prerequisites for running the tests";
      "      3. Test setup and configuration";
      "      4. Description of each test case";
      "      5. Expected outcomes";
      "      ";
      "      Format the documentation in Markdown.";
      "    " ].

(** [async analyzeTestFailure(testCode, errorMessage)] *)
Definition analyzeTestFailure (this : Instance) (axios : Axios)
  (testCode errorMessage : string) : L string :=
  generateText this axios (analyzeTestFailurePrompt testCode errorMessage)
    (Some (mkOptions (Some (QArith_base.Qmake 3 10)) None)).

(** [async optimizeTestSuite(testResults, testCode)] *)
Definition optimizeTestSuite (this : Instance) (axios : Axios)
  (testResults testCode : string) : L string :=
  generateText this axios (optimizeTestSuitePrompt testResults testCode)
    (Some (mkOptions (Some (QArith_base.Qmake 3 10)) None)).

(** [async generateDocumentation(testCode)] *)
Definition generateDocumentation (this : Instance) (axios : Axios)
  (testCode : string) : L string :=
  generateText this axios (generateDocumentationPrompt testCode)
    (Some (mkOptions (Some (QArith_base.Qmake 3 10)) None)).

End OpenAIHelper.

(* ================================================================== *)
(** ** AITestMaintainer *)

Module AITestMaintainer.
Import Lab.
Local Open Scope lab_scope.

(** ['fix' | 'optimize' | 'document' | 'refactor'] *)
Inductive Action : Type := fix_ | optimize | document | refactor.

(** [TestMaintenanceOptions] *)
Record TestMaintenanceOptions : Type := mkMaintenance {
  testFilePath : string;
  errorMessage : option string;
  testResults : option string;
  action : Action
}.

(** The field of an instance. *)
Record Instance : Type := mkMaintainer {
  openAIHelper : OpenAIHelper.Instance
}.

(** [constructor(apiKey?)] *)
Definition new (apiKeyArg : option string) (envKey : option string) (envPath : string)
  : L Instance :=
  helper <- OpenAIHelper.new apiKeyArg None envKey envPath ;;
  ret (mkMaintainer helper).

(** [!s] on an optional string. *)
Definition missing (s : option string) : bool :=
  match s with
  | Some text => String.eqb text ""
  | None => true
  end.

(** [private async fixTest(testCode, errorMessage?)] *)
Definition fixTest (this : Instance) (axios : Axios) (testCode : string)
  (errorMessage : option string) : L string :=
  match errorMessage with
  | Some text =>
      if String.eqb text ""
      then throw (plainError "Error message is required to fix a test")
      else OpenAIHelper.analyzeTestFailure (openAIHelper this) axios testCode text
  | None => throw (plainError "Error message is required to fix a test")
  end.

(** [private async optimizeTest(testCode, testResults?)] *)
Definition optimizeTest (this : Instance) (axios : Axios) (testCode : string)
  (testResults : option string) : L string :=
  let testResults :=
    OpenAIHelper.orElse testResults
      "No specific test results provided. Focus on general optimization." in
  OpenAIHelper.optimizeTestSuite (openAIHelper this) axios testResults testCode.

(** The file [documentTest] returns: the documentation as a comment
    above the code. *)
Definition documented (documentation testCode : string) : string :=
  Str.join newline
    [ "/**";
      " * " ++ replaceNewlines documentation (newline ++ " * ");
      " */";
      testCode ].

(** [private async documentTest(testCode)] *)
Definition documentTest (this : Instance) (axios : Axios) (testCode : string)
  : L string :=
  documentation <- OpenAIHelper.generateDocumentation (openAIHelper this) axios testCode ;;
  ret (documented documentation testCode).

(** The prompt of [refactorTest]. *)
Definition refactorTestPrompt (testCode : string) : string :=
  Str.join newline
    [ "";
      "      Refactor this test code to improve:";
      "      1. Code readability";
      "      2. Maintainability";
      "      3. Reusability";
      "      4. Performance";
      "      ";
      "      Apply best practices for Playwright tests and TypeScript.";
      "      Do not change the functionality of the test.";
      "      ";
      "      Original test code:";
      "      ```";
      "      " ++ testCode;
      "      ```";
      "      ";
      "      Return only the refactored code without any explanations or markdown formatting.";
      "    " ].

(** [private async refactorTest(testCode)] *)
Definition refactorTest (this : Instance) (axios : Axios) (testCode : string)
  : L string :=
  OpenAIHelper.generateText (openAIHelper this) axios (refactorTestPrompt testCode)
    (Some (OpenAIHelper.mkOptions (Some (QArith_base.Qmake 2 10)) None)).

(** The [switch] of [maintainTest]. *)
Definition perform (this : Instance) (axios : Axios) (options : TestMaintenanceOptions)
  (testCode : string) : L string :=
  match action options with
  | fix_ => fixTest this axios testCode (errorMessage options)
  | optimize => optimizeTest this axios testCode (testResults options)
  | document => documentTest this axios testCode
  | refactor => refactorTest this axios testCode
  end.

(** [async maintainTest(options)] *)
Definition maintainTest (this : Instance) (axios : Axios)
  (options : TestMaintenanceOptions) : L string :=
  console_call "log" ["Maintaining test file: " ++ testFilePath options] ;;;
  found <- existsSync (testFilePath options) ;;
  if negb found
  then throw (plainError ("Test file not found: " ++ testFilePath options))
  else
    testCode <- readFileSync (testFilePath options) ;;
    updatedCode <- perform this axios options testCode ;;
    let backupPath := testFilePath options ++ ".bak" in
    copyFileSync (testFilePath options) backupPath ;;;
    writeFileSync (testFilePath options) updatedCode ;;;
    console_call "log" ["Test maintained successfully: " ++ testFilePath options] ;;;
    console_call "log" ["Original file backed up to: " ++ backupPath] ;;;
    ret (testFilePath options).

End AITestMaintainer.

(** ** Notions for the maintainer *)

(** A request as the helper [helper] posts it for the test code
    [testCode]: to the chat-completions endpoint of its base URL, for
    its model, with its key as bearer token, with the default 1000
    tokens, and with the whole test code inside the prompt. *)
Definition postedFor (helper : OpenAIHelper.Instance) (testCode : string)
  (r : Lab.Request) : Prop :=
  Lab.req_url r = OpenAIHelper.baseUrl helper ++ "/chat/completions"
  /\ Lab.req_model r = OpenAIHelper.model helper
  /\ Lab.req_authorization r = "Bearer " ++ OpenAIHelper.apiKey helper
  /\ Lab.req_max_tokens r = 1000
  /\ Str.includes (Lab.req_content r) testCode = true.

(** The node a path holds. *)
Definition nodeAt (path : string) (s : Lab.State) : option Lab.DiskNode :=
  Js.lookup path (Lab.disk_nodes (Lab.disk s)).

(** The text begins with a character that is not white space: a key
    can start there. *)
Definition startsKey (s : string) : bool :=
  match s with
  | EmptyString => false
  | String c _ => negb (isWhiteSpace c)
  end.

(** What [content.match(/OPENAI_API_KEY=([^\s]+)/)] captures: [key]
    stands in [content] right after the name and the equals sign, is
    not empty, holds no white space, runs up to the next white space
    or the end of the text, and no key can start after an earlier
    occurrence of the name and the equals sign. *)
Definition captures (content key : string) : Prop :=
  exists before after,
    content = before ++ "OPENAI_API_KEY=" ++ key ++ after
    /\ key <> ""
    /\ (forall c, In c (list_ascii_of_string key) -> isWhiteSpace c = false)
    /\ startsKey after = false
    /\ forall pre suf,
         content = pre ++ "OPENAI_API_KEY=" ++ suf ->
         (String.length pre < String.length before)%nat ->
         startsKey suf = false.

(** The regular expression matches nowhere in [content]. *)
Definition capturesNothing (content : string) : Prop :=
  forall pre suf, content = pre ++ "OPENAI_API_KEY=" ++ suf -> startsKey suf = false.

(** A test file on a disk that takes every write, a helper with a key,
    and an endpoint that answers every request with one choice. *)
Module SampleLab.

Definition helper : OpenAIHelper.Instance :=
  OpenAIHelper.mkHelper "sk-test" "gpt-4o-mini" "https://api.openai.com/v1".

Definition maintainer : AITestMaintainer.Instance := AITestMaintainer.mkMaintainer helper.

Definition keyless : AITestMaintainer.Instance :=
  AITestMaintainer.mkMaintainer
    (OpenAIHelper.mkHelper "" "gpt-4o-mini" "https://api.openai.com/v1").

Definition answering (answer : string) : Lab.Axios := fun _ => Returns [answer].

(** A [.env] file whose first line names the key but gives none. *)
Definition envFile : string :=
  "OPENAI_API_KEY=" ++ String (ascii_of_nat 10) ""
  ++ "OPENAI_API_KEY=sk-live-42 # rotate monthly" ++ String (ascii_of_nat 10) "".


Definition start : Lab.State :=
  Lab.mkState
    (Lab.mkDisk [("tests/login.spec.ts", Lab.DFile (Some "test('login')"))]
                (fun _ => true))
    [] [].

Definition refactorLogin : AITestMaintainer.TestMaintenanceOptions :=
  AITestMaintainer.mkMaintenance "tests/login.spec.ts" None None
    AITestMaintainer.refactor.

Definition fixLogin : AITestMaintainer.TestMaintenanceOptions :=
  AITestMaintainer.mkMaintenance "tests/login.spec.ts" None None
    AITestMaintainer.fix_.

End SampleLab.

(* ================================================================== *)
(** * Properties *)

(** ** The catalog *)

Lemma distinct_NoDup (l : list Z) : distinct l = true -> NoDup l.
Proof.
  induction l as [|x rest IH]; simpl; intros H.
  - constructor.
  - apply andb_true_iff in H as [Hx Hrest].
    constructor; [|now apply IH].
    intros Hin. apply negb_true_iff in Hx.
    assert (existsb (Z.eqb x) rest = true) as Hex.
    { apply existsb_exists. exists x. split; [assumption | apply Z.eqb_refl]. }
    congruence.
Qed.

Lemma NoDup_map_injective {A B : Type} (f : A -> B) (l : list A) (x y : A) :
  NoDup (map f l) -> In x l -> In y l -> f x = f y -> x = y.
Proof.
  induction l as [|a rest IH]; simpl; intros Hnd Hx Hy Hxy; [contradiction|].
  inversion Hnd as [|? ? Hnotin Hnd']; subst.
  destruct Hx as [-> | Hx], Hy as [-> | Hy]; auto.
  - exfalso. apply Hnotin. rewrite Hxy. now apply in_map.
  - exfalso. apply Hnotin. rewrite <- Hxy. now apply in_map.
Qed.

Lemma catalogCodes_NoDup : NoDup catalogCodes.
Proof. apply distinct_NoDup. vm_compute. reflexivity. Qed.

(** C9. Codes are globally unique in the [ErrorCode] catalog: two
    entries registered under different keys never carry the same
    numeric code. *)
Theorem ErrorCode_codes_unique :
  forall (k1 k2 : string) (e1 e2 : ErrorCodeEntry),
    In (k1, e1) ErrorCode -> In (k2, e2) ErrorCode ->
    k1 <> k2 -> code e1 <> code e2.
Proof.
  intros k1 k2 e1 e2 H1 H2 Hk Hcode.
  apply Hk.
  assert ((k1, e1) = (k2, e2)) as Heq.
  { apply (NoDup_map_injective (fun ke => code (snd ke)) ErrorCode);
      [exact catalogCodes_NoDup | assumption | assumption | exact Hcode]. }
  congruence.
Qed.

Lemma ErrorCode_codes_unique_witness :
  code ERROR_ELEMENT_TIMEOUT <> code ERROR_ELEMENT_ATTRIBUTE_MISSING.
Proof.
  apply (ErrorCode_codes_unique "ERROR_ELEMENT_TIMEOUT" "ERROR_ELEMENT_ATTRIBUTE_MISSING").
  - simpl. do 8 right. left. reflexivity.
  - simpl. do 9 right. left. reflexivity.
  - intros H. discriminate H.
Defined.

(** ** The reporter *)

Lemma serialize_record (r : ErrorDetails) :
  JSON.serialize (ErrorDetails_object r) =
  match JSON.serialize (ed_details r) with
  | JSON.Rejected => JSON.Rejected
  | JSON.Omitted => JSON.Printed (recordText r None)
  | JSON.Printed t => JSON.Printed (recordText r (Some t))
  end.
Proof.
  destruct r as [c cat m t d loc shot ts]; simpl.
  destruct (JSON.serialize d), shot; reflexivity.
Qed.

Lemma serializable_record (r : ErrorDetails) :
  serializable (ed_details r) -> serializable (ErrorDetails_object r).
Proof.
  unfold serializable. rewrite serialize_record.
  destruct (JSON.serialize (ed_details r)); congruence.
Qed.

(** [logErrorToFile] never throws; it leaves the directory as [persist]
    describes and logs one line when the write did not happen. *)
Lemma logErrorToFile_run (now : Z) (r : ErrorDetails) (w : World) :
  exists lines,
    logErrorToFile now r w =
    (Returns tt, mkWorld (persist r now (logDir w)) (console w ++ lines)).
Proof.
  unfold logErrorToFile, persist, try_catch, bind, lift, JSON_stringify.
  destruct (JSON.serialize (ErrorDetails_object r)) as [| |t] eqn:Hs.
  - eexists. unfold console_error. simpl. reflexivity.
  - rewrite serialize_record in Hs.
    destruct (JSON.serialize (ed_details r)); discriminate.
  - unfold writeFileSync.
    destruct (dir_writable (logDir w) (logFileName (ed_code r) now)).
    + exists []. unfold setDir. simpl. rewrite app_nil_r. reflexivity.
    + eexists. unfold console_error. simpl. reflexivity.
Qed.

(** What one report does, for details that serialise. *)
Lemma reportError_run (this : Instance) (errorCode : ErrorCodeEntry)
  (details : Js.Value) (screenshotName : option string) (clock : Clock)
  (w : World) :
  serializable details ->
  exists lines,
    reportError this errorCode details screenshotName clock w =
    (Returns (expectedRecord this errorCode details screenshotName clock),
     mkWorld (persist (expectedRecord this errorCode details screenshotName clock)
                (msNow clock) (logDir w))
             (console w ++ lines)).
Proof.
  intros Hser.
  assert (forall (r : ErrorDetails) (w1 : World) (pre : list ConsoleLine),
             logDir w1 = logDir w -> console w1 = (console w ++ pre)%list ->
             exists lines,
               (detailsLine <-
                  (if Js.truthy details
                   then (s <- stringifyToString details ;;
                         ret (newline ++ "Details: " ++ s))
                   else ret "") ;;
                console_error (reportHeadline errorCode) (ArgText detailsLine) ;;;
                logErrorToFile (msNow clock) r ;;;
                ret r) w1
               = (Returns r, mkWorld (persist r (msNow clock) (logDir w))
                               (console w ++ lines))) as Htail.
  { intros r w1 pre Hdir Hcon.
    assert (exists line,
               (if Js.truthy details
                then (s <- stringifyToString details ;;
                      ret (newline ++ "Details: " ++ s))
                else ret "") w1 = (Returns line, w1)) as [line Hline].
    { destruct (Js.truthy details); [|eexists; reflexivity].
      unfold stringifyToString, bind, lift, ret, JSON_stringify.
      unfold serializable in Hser.
      destruct (JSON.serialize details); [congruence| |]; eexists; reflexivity. }
    unfold bind at 1. rewrite Hline.
    unfold bind at 1. unfold console_error at 1.
    unfold bind at 1.
    match goal with
    | |- context [logErrorToFile ?n ?rr ?ww] =>
        destruct (logErrorToFile_run n rr ww) as [lines Hlog]; rewrite Hlog
    end.
    simpl. rewrite Hdir, Hcon. rewrite <- !app_assoc.
    eexists. unfold ret. reflexivity. }
  unfold reportError, expectedRecord, expectedLocation, expectedScreenshot,
    screenshotTarget.
  unfold getCurrentPageInfo.
  destruct (page this) as [p|] eqn:Hpage.
  - unfold bind at 1. unfold try_catch at 1. unfold bind at 1.
    unfold try_catch at 1. unfold lift at 1.
    destruct (page_title p) as [t|e] eqn:Htitle; simpl ret.
    + unfold ret at 1. unfold bind at 1. unfold try_catch at 1.
      unfold bind at 1. unfold lift at 1.
      match goal with
      | |- context [page_screenshot p ?path] =>
          destruct (page_screenshot p path) as [[]|e] eqn:Hshot
      end.
      * unfold ret at 1. eapply (Htail _ w []); [reflexivity | now rewrite app_nil_r].
      * unfold bind at 1. unfold console_error at 1. unfold ret at 1.
        eapply Htail; simpl; reflexivity.
    + unfold ret at 1. unfold ret at 1. unfold bind at 1. unfold try_catch at 1.
      unfold bind at 1. unfold lift at 1.
      match goal with
      | |- context [page_screenshot p ?path] =>
          destruct (page_screenshot p path) as [[]|e'] eqn:Hshot
      end.
      * unfold ret at 1. eapply (Htail _ w []); [reflexivity | now rewrite app_nil_r].
      * unfold bind at 1. unfold console_error at 1. unfold ret at 1.
        eapply Htail; simpl; reflexivity.
  - unfold bind at 1. unfold try_catch at 1. unfold throw at 1. unfold ret at 1.
    unfold bind at 1. unfold try_catch at 1. unfold ret at 1.
    eapply (Htail _ w []); [reflexivity | now rewrite app_nil_r].
Qed.

(** C1, as stated, fails: a details object that refers to itself is
    handed to [JSON.stringify] for the console line, outside any [try],
    and the TypeError leaves [reportError]. *)
Lemma reportError_rejects_on_circular_details :
  ~ (forall (this : Instance) (errorCode : ErrorCodeEntry) (details : Js.Value)
            (screenshotName : option string) (clock : Clock) (w : World),
        exists (r : ErrorDetails) (w' : World),
          reportError this errorCode details screenshotName clock w = (Returns r, w')).
Proof.
  intros H.
  destruct (H Sample.withPage ERROR_UNKNOWN Js.JCyclic None Sample.clock Sample.fresh)
    as (r & w' & Hrun).
  vm_compute in Hrun. discriminate Hrun.
Qed.

(** C1, amended. For every details payload that [JSON.stringify]
    accepts, and for every page (present, absent, closed), screenshot
    directory and log directory (writable or not), [reportError]
    returns an [ErrorDetails] record and does not throw. The record
    copies the catalog entry, the details and the timestamp; the
    location and the screenshot degrade to a placeholder and to absent;
    the log directory holds the record when the write went through and
    is unchanged otherwise. *)
Theorem reportError_never_throws_on_serializable_details :
  forall (this : Instance) (errorCode : ErrorCodeEntry) (details : Js.Value)
         (screenshotName : option string) (clock : Clock) (w : World),
    serializable details ->
    exists (r : ErrorDetails) (w' : World),
      reportError this errorCode details screenshotName clock w = (Returns r, w')
      /\ ed_code r = code errorCode
      /\ ed_category r = category errorCode
      /\ ed_message r = message errorCode
      /\ ed_title r = title errorCode
      /\ ed_details r = details
      /\ ed_timestamp r = isoNow clock
      /\ ed_location r = expectedLocation this
      /\ ed_screenshot r = expectedScreenshot this errorCode screenshotName clock
      /\ logDir w' = persist r (msNow clock) (logDir w).
Proof.
  intros this errorCode details screenshotName clock w Hser.
  destruct (reportError_run this errorCode details screenshotName clock w Hser)
    as [lines Hrun].
  eexists. eexists. split; [exact Hrun|].
  repeat split; reflexivity.
Qed.

Lemma reportError_never_throws_witness :
  serializable Sample.timeoutDetails
  /\ exists (r : ErrorDetails) (w' : World),
       reportError Sample.withClosedPage ERROR_NETWORK_TIMEOUT Sample.timeoutDetails
                   None Sample.clock Sample.readOnly = (Returns r, w')
       /\ ed_category r = NETWORK
       /\ ed_location r = "URL: about:blank, Title: Unknown"
       /\ ed_screenshot r = None
       /\ logDir w' = Sample.readOnlyDir.
Proof.
  assert (serializable Sample.timeoutDetails) as Hser.
  { unfold serializable. vm_compute. discriminate. }
  split; [exact Hser|].
  destruct (reportError_never_throws_on_serializable_details
              Sample.withClosedPage ERROR_NETWORK_TIMEOUT Sample.timeoutDetails
              None Sample.clock Sample.readOnly Hser)
    as (r & w' & Hrun & Hcode & Hcat & Hmsg & Htitle & Hdet & Hts & Hloc & Hshot & Hdir).
  exists r, w'. repeat split; try assumption.
  rewrite Hdir. destruct r; simpl in *; subst. vm_compute. reflexivity.
Defined.

(** ** The handler *)

Lemma prefix_app (s t : string) : prefix s (s ++ t) = true.
Proof.
  induction s as [|c s IH]; simpl.
  - destruct t; reflexivity.
  - destruct (ascii_dec c c); [exact IH | congruence].
Qed.

Lemma includes_here (s t : string) : Str.includes (s ++ t) s = true.
Proof.
  pose proof (prefix_app s t) as H.
  destruct (s ++ t); unfold Str.includes; fold Str.includes; rewrite H; reflexivity.
Qed.

Lemma prefix_refl (s : string) : prefix s s = true.
Proof.
  induction s as [|c s IH]; simpl; [reflexivity|].
  destruct (ascii_dec c c); [exact IH | congruence].
Qed.

Lemma includes_self (s : string) : Str.includes s s = true.
Proof.
  destruct s; unfold Str.includes; fold Str.includes;
    rewrite prefix_refl; reflexivity.
Qed.

Lemma includes_app_r (a t s : string) :
  Str.includes t s = true -> Str.includes (a ++ t) s = true.
Proof.
  intros H. induction a as [|c a IH]; [exact H|].
  change (String c a ++ t) with (String c (a ++ t)).
  unfold Str.includes; fold Str.includes.
  rewrite IH. destruct (prefix s (String c (a ++ t))); reflexivity.
Qed.

Lemma existsb_find {A : Type} (p : A -> bool) (l : list A) :
  existsb p l = match find p l with Some _ => true | None => false end.
Proof.
  induction l as [|x rest IH]; simpl; [reflexivity|].
  destruct (p x); [reflexivity | exact IH].
Qed.

Lemma find_app_miss {A : Type} (p : A -> bool) (l1 l2 : list A) :
  find p l1 = None -> find p (l1 ++ l2)%list = find p l2.
Proof.
  induction l1 as [|x rest IH]; simpl; [reflexivity|].
  destruct (p x); [discriminate | exact IH].
Qed.

Lemma find_firstn_none {A : Type} (p : A -> bool) (n : nat) (l : list A) :
  find p l = None -> find p (firstn n l) = None.
Proof.
  revert n. induction l as [|x rest IH]; intros [|n]; simpl; try reflexivity.
  destruct (p x); [discriminate | auto].
Qed.

Lemma find_app_skip {A : Type} (p : A -> bool) (x : A) (l1 l2 : list A) :
  p x = false -> find p (l1 ++ x :: l2)%list = find p (l1 ++ l2)%list.
Proof.
  intros Hx. induction l1 as [|y rest IH]; simpl.
  - now rewrite Hx.
  - destruct (p y); [reflexivity | exact IH].
Qed.

Lemma find_insertAt_skip {A : Type} (p : A -> bool) (n : nat) (x : A) (l : list A) :
  p x = false -> find p (insertAt n x l) = find p l.
Proof.
  intros Hx. unfold insertAt. rewrite find_app_skip by exact Hx.
  now rewrite firstn_skipn.
Qed.

Lemma length_insertAt {A : Type} (n : nat) (x : A) (l : list A) :
  length (insertAt n x l) = S (length l).
Proof.
  unfold insertAt. rewrite length_app. simpl.
  rewrite Nat.add_succ_r, <- length_app, firstn_skipn. reflexivity.
Qed.

(** Writing under a name that is not listed adds one entry, where the
    file system places it. *)
Lemma store_fresh (place : string -> list string -> nat) (file : string)
  (c : FileContent) (now : Z) (es : list Entry) :
  find (hasName file) es = None ->
  store place file c now es
  = insertAt (place file (map file_name es))
             (mkFile file (Some c) (Some now) true) es.
Proof.
  intros H. unfold store. rewrite existsb_find, H. reflexivity.
Qed.

(** Writing under a listed name overwrites that entry where it stands. *)
Lemma store_listed (place : string -> list string -> nat) (file : string)
  (c : FileContent) (now : Z) (es : list Entry) (e : Entry) :
  find (hasName file) es = Some e ->
  store place file c now es = overwrite file c now es.
Proof.
  intros H. unfold store. rewrite existsb_find, H. reflexivity.
Qed.

Lemma find_store_same (place : string -> list string -> nat) (file : string)
  (c : FileContent) (now : Z) (es : list Entry) :
  exists e, find (hasName file) (store place file c now es) = Some e
            /\ file_read e = Some c /\ file_mtime e = Some now.
Proof.
  destruct (find (hasName file) es) as [e0|] eqn:Hfind.
  - rewrite (store_listed place file c now es e0 Hfind). clear place.
    revert Hfind. induction es as [|x rest IH]; simpl; [discriminate|].
    destruct (hasName file x) eqn:Hx; simpl.
    + intros _. unfold hasName at 1. simpl. rewrite String.eqb_refl. eexists; eauto.
    + rewrite Hx. exact IH.
  - rewrite store_fresh by exact Hfind. unfold insertAt.
    rewrite find_app_miss by (apply find_firstn_none; exact Hfind).
    simpl. unfold hasName at 1. simpl. rewrite String.eqb_refl. eexists; eauto.
Qed.

Lemma find_overwrite_other (file other : string) (c : FileContent) (now : Z)
  (es : list Entry) :
  other <> file ->
  find (hasName other) (overwrite file c now es) = find (hasName other) es.
Proof.
  intros Hne.
  assert (String.eqb file other = false) as Hfo
      by (apply String.eqb_neq; congruence).
  induction es as [|x rest IH]; simpl; [reflexivity|].
  destruct (hasName file x) eqn:Hx; simpl.
  - unfold hasName in *. simpl. rewrite Hfo.
    apply String.eqb_eq in Hx. rewrite Hx, Hfo. reflexivity.
  - now rewrite IH.
Qed.

Lemma find_store_other (place : string -> list string -> nat) (file other : string)
  (c : FileContent) (now : Z) (es : list Entry) :
  other <> file ->
  find (hasName other) (store place file c now es) = find (hasName other) es.
Proof.
  intros Hne. unfold store. destruct (existsb (hasName file) es).
  - now apply find_overwrite_other.
  - apply find_insertAt_skip. unfold hasName. simpl.
    apply String.eqb_neq. congruence.
Qed.

(** With a payload that serialises and a directory that takes the
    write, [persist] writes exactly one record. *)
Lemma persist_writes_once (r : ErrorDetails) (now : Z) (d : LogDir) :
  serializable (ed_details r) ->
  dir_writable d (logFileName (ed_code r) now) = true ->
  oneRecordWritten r (logFileName (ed_code r) now) d (persist r now d).
Proof.
  intros Hser Hw. apply serializable_record in Hser. unfold serializable in Hser.
  unfold oneRecordWritten, persist. rewrite Hw.
  destruct (JSON.serialize (ErrorDetails_object r)) as [| |t] eqn:E; try congruence.
  - exfalso. rewrite serialize_record in E.
    destruct (JSON.serialize (ed_details r)); congruence.
  - simpl. repeat split.
    + destruct (find_store_same (dir_place d) (logFileName (ed_code r) now)
                  (JsonText t) now (dir_entries d)) as (e & Hfind & Hread & _).
      exists e, t. auto.
    + intros other Hne. now apply find_store_other.
    + intros Hfresh. rewrite store_fresh by assumption.
      apply length_insertAt.
Qed.

(** A directory that refuses the write is left as it was. *)
Lemma persist_refused (r : ErrorDetails) (now : Z) (d : LogDir) :
  dir_writable d (logFileName (ed_code r) now) = false -> persist r now d = d.
Proof.
  intros Hw. unfold persist. rewrite Hw.
  destruct (JSON.serialize (ErrorDetails_object r)); reflexivity.
Qed.

(** The value [handleError] passes to [createError]. *)
Lemma derivedMessage_run (details : Js.Value) (w : World) :
  serializable details ->
  derivedMessage details w = (Returns (messageFromDetails details), w).
Proof.
  intros Hser. unfold derivedMessage, messageFromDetails, serializable in *.
  destruct (Js.truthy (Js.optGet details "message")); [reflexivity|].
  unfold bind, lift, ret, JSON_stringify.
  destruct (JSON.serialize details); [congruence | reflexivity | reflexivity].
Qed.

(** Only objects, arrays and symbols fail to convert, and those are
    truthy. *)
Lemma unconvertible_truthy (v : Js.Value) (why : string) :
  Js.toString v = Js.Unconvertible why -> Js.truthy v = true.
Proof.
  destruct v as [| |[|]|n|s|items|props| |]; simpl; try discriminate; reflexivity.
Qed.

(** What [createError] gives for a message that converts to
    [text]: the classified error, its message ending in the text when
    the message is truthy. *)
Lemma createError_converted (errorCode : ErrorCodeEntry) (m : Js.Value) (text : string) :
  Js.toString m = Js.Text text ->
  exists thrown,
    createError errorCode m = Returns thrown
    /\ err_code thrown = Some (code errorCode)
    /\ err_category thrown = Some (category errorCode)
    /\ err_title thrown = Some (title errorCode)
    /\ Str.includes (err_message thrown) (Str.ofZ (code errorCode)) = true
    /\ Str.includes (err_message thrown) (title errorCode) = true
    /\ Str.includes (err_message thrown) (message errorCode) = true
    /\ (Js.truthy m = true -> Str.includes (err_message thrown) text = true).
Proof.
  intros Htext. unfold createError. rewrite Htext.
  destruct (Js.truthy m); eexists; (split; [reflexivity|]);
    cbn [classified err_message err_code err_category err_title];
    repeat split; try discriminate; intros;
    repeat first [ apply includes_here | apply includes_self | apply includes_app_r ].
Qed.

(** A string always converts. *)
Lemma createError_string (errorCode : ErrorCodeEntry) (s : string) :
  exists thrown, createError errorCode (Js.JStr s) = Returns thrown
                 /\ err_code thrown = Some (code errorCode)
                 /\ err_category thrown = Some (category errorCode)
                 /\ err_title thrown = Some (title errorCode).
Proof.
  destruct (createError_converted errorCode (Js.JStr s) s eq_refl)
    as (thrown & H & Hc & Hcat & Ht & _).
  exists thrown. auto.
Qed.

(** What [handleError] does in its two modes, for details that
    serialise: the report, then the error [createError] ends with or
    the record. *)
Lemma handleError_run (this : Instance) (errorCode : ErrorCodeEntry)
  (details : Js.Value) (clock : Clock) (w : World) :
  serializable details ->
  (exists w',
      handleError this errorCode details true clock w
      = (Throws (thrownBy errorCode details), w')
      /\ logDir w' = persist (expectedRecord this errorCode details None clock)
                              (msNow clock) (logDir w))
  /\ (exists w',
         handleError this errorCode details false clock w
         = (Returns (expectedRecord this errorCode details None clock), w')
         /\ logDir w' = persist (expectedRecord this errorCode details None clock)
                                 (msNow clock) (logDir w)).
Proof.
  intros Hser.
  destruct (reportError_run this errorCode details None clock w Hser)
    as [lines Hrun].
  split.
  - eexists. unfold handleError, bind. rewrite Hrun.
    rewrite derivedMessage_run by assumption. unfold throw, lift, thrownBy.
    destruct (createError errorCode (messageFromDetails details));
      split; reflexivity.
  - eexists. unfold handleError, bind. rewrite Hrun. unfold ret.
    split; reflexivity.
Qed.

(** C3, as stated, fails: the message [createError] builds names the
    code, the title and the default message, never the category. *)
Lemma handleError_message_omits_category :
  ~ (forall (this : Instance) (errorCode : ErrorCodeEntry) (details : Js.Value)
            (clock : Clock) (w : World) (thrown : JsError) (w' : World),
        handleError this errorCode details true clock w = (Throws thrown, w') ->
        Str.includes (err_message thrown) (categoryName (category errorCode)) = true).
Proof.
  intros H.
  specialize (H Sample.withPage ERROR_NAVIGATION_FAILED
                (Js.JObj [("path", Js.JStr "/cart")]) Sample.clock Sample.fresh).
  vm_compute in H.
  specialize (H _ _ eq_refl). discriminate H.
Qed.

(** C3, amended. For every catalog entry and every details payload
    that [JSON.stringify] accepts, [handleError] makes one report, which
    writes exactly one record file when the log directory takes the
    write and none when it refuses it. Without [throwError] it returns
    the record and does not throw. With [throwError] it then throws:
    when the caller-supplied or details-derived message converts to a
    string, a synthetic error whose message embeds the code, the
    title, the default message and that string (not the category), and
    which carries the code, the category and the title as properties;
    when the [message] property of the details is truthy and cannot be
    converted to a string (an object with an own [toString] that is not
    callable, a symbol), the TypeError of the conversion, which carries
    no code, category or title. *)
Theorem handleError_reports_once_then_throws_or_returns :
  forall (this : Instance) (errorCode : ErrorCodeEntry) (details : Js.Value)
         (clock : Clock) (w : World),
    serializable details ->
    let r := expectedRecord this errorCode details None clock in
    let file := logFileName (code errorCode) (msNow clock) in
    let m := messageFromDetails details in
    (exists w', handleError this errorCode details true clock w
                = (Throws (thrownBy errorCode details), w')
                /\ logDir w' = persist r (msNow clock) (logDir w))
    /\ (exists w', handleError this errorCode details false clock w = (Returns r, w')
                   /\ logDir w' = persist r (msNow clock) (logDir w))
    /\ (dir_writable (logDir w) file = true ->
        oneRecordWritten r file (logDir w) (persist r (msNow clock) (logDir w)))
    /\ (dir_writable (logDir w) file = false ->
        persist r (msNow clock) (logDir w) = logDir w)
    /\ (forall text, Js.toString m = Js.Text text ->
        exists thrown,
          createError errorCode m = Returns thrown
          /\ thrownBy errorCode details = thrown
          /\ err_code thrown = Some (code errorCode)
          /\ err_category thrown = Some (category errorCode)
          /\ err_title thrown = Some (title errorCode)
          /\ Str.includes (err_message thrown) (Str.ofZ (code errorCode)) = true
          /\ Str.includes (err_message thrown) (title errorCode) = true
          /\ Str.includes (err_message thrown) (message errorCode) = true
          /\ (Js.truthy m = true -> Str.includes (err_message thrown) text = true))
    /\ (forall why, Js.toString m = Js.Unconvertible why ->
        Js.truthy m = true
        /\ createError errorCode m = Throws (plainError why)
        /\ thrownBy errorCode details = plainError why).
Proof.
  intros this errorCode details clock w Hser r file m.
  destruct (handleError_run this errorCode details clock w Hser) as [Hthrow Hreturn].
  split; [exact Hthrow|]. split; [exact Hreturn|]. split; [|split; [|split]].
  - intros Hw. apply (persist_writes_once r (msNow clock) (logDir w)); assumption.
  - intros Hw. apply (persist_refused r (msNow clock) (logDir w)). exact Hw.
  - intros text Htext.
    destruct (createError_converted errorCode m text Htext)
      as (thrown & Hcreate & Hrest).
    exists thrown. split; [exact Hcreate|]. split; [|exact Hrest].
    unfold thrownBy. fold m. now rewrite Hcreate.
  - intros why Hwhy.
    assert (Js.truthy m = true) as Htruthy
        by (apply unconvertible_truthy with (why := why); exact Hwhy).
    split; [exact Htruthy|].
    assert (createError errorCode m = Throws (plainError why)) as Hcreate
        by (unfold createError; now rewrite Htruthy, Hwhy).
    split; [exact Hcreate|].
    unfold thrownBy. fold m. now rewrite Hcreate.
Qed.

Lemma handleError_reports_once_witness :
  serializable (Js.JObj [("message", Js.JStr "bad password")])
  /\ exists w',
       handleError Sample.withPage ERROR_AUTH_FAILED
                   (Js.JObj [("message", Js.JStr "bad password")])
                   true Sample.clock Sample.fresh
       = (Throws (mkError "[ERROR 6001] Authentication Failed: Authentication failed: bad password"
                          (Some 6001) (Some AUTH) (Some "Authentication Failed")), w').
Proof.
  assert (serializable (Js.JObj [("message", Js.JStr "bad password")])) as Hser.
  { unfold serializable. vm_compute. discriminate. }
  split; [exact Hser|].
  destruct (handleError_reports_once_then_throws_or_returns
              Sample.withPage ERROR_AUTH_FAILED
              (Js.JObj [("message", Js.JStr "bad password")])
              Sample.clock Sample.fresh Hser) as [[w' [Hrun _]] _].
  exists w'. exact Hrun.
Defined.

(** A [message] property that is an object with an own [toString]
    that is not callable, as [JSON.parse] gives for
    [{"message":{"toString":1}}]: the report is made and the record
    written, and the TypeError of the template literal is thrown in
    place of the classified error. *)
Example handleError_unconvertible_message :
  exists w',
    handleError Sample.withPage ERROR_AUTH_FAILED
                (Js.JObj [("message", Js.JObj [("toString", Js.JNum (Js.Integer 1))])])
                true Sample.clock Sample.fresh
    = (Throws (plainError "Cannot convert object to primitive value"), w')
    /\ map file_name (dir_entries (logDir w')) = ["error_6001_1704164645678.json"].
Proof. eexists. split; vm_compute; reflexivity. Qed.

(** ** The page-action wrappers *)

Lemma length_append (s t : string) :
  String.length (s ++ t) = (String.length s + String.length t)%nat.
Proof. induction s as [|c s IH]; simpl; [reflexivity | now rewrite IH]. Qed.

Lemma length_escape (s : string) : (String.length s <= String.length (JSON.escape s))%nat.
Proof.
  induction s as [|c s IH]; simpl; [lia|].
  rewrite length_append.
  assert (1 <= String.length (JSON.escapeChar c))%nat as Hc.
  { unfold JSON.escapeChar.
    repeat match goal with
           | |- context [if ?b then _ else _] => destruct b
           end; simpl; lia. }
  lia.
Qed.

Lemma length_quote (s : string) : (String.length s < String.length (JSON.quote s))%nat.
Proof.
  unfold JSON.quote. simpl. rewrite length_append. simpl.
  pose proof (length_escape s). lia.
Qed.

Lemma navigateDetails_serializable (this : Instance) (path : string) (low : JsError) :
  serializable (BasePage.navigateDetails this path low).
Proof. unfold serializable. simpl. discriminate. Qed.

Lemma locatorDetails_serializable (selector : string) (low : JsError) (action : string) :
  serializable (BasePage.locatorDetails selector low action).
Proof. unfold serializable. simpl. discriminate. Qed.

(** The error [createError] builds for a failed navigation: it is
    classified, and its message is longer than the message of the
    low-level error it quotes. *)
Lemma navigate_thrown (this : Instance) (path : string) (low : JsError) :
  exists thrown,
    createError ERROR_NAVIGATION_FAILED
                (messageFromDetails (BasePage.navigateDetails this path low))
    = Returns thrown
    /\ err_code thrown = Some 3002
    /\ err_category thrown = Some NAVIGATION
    /\ err_title thrown = Some "Navigation Failed"
    /\ (String.length (err_message low) < String.length (err_message thrown))%nat.
Proof.
  unfold messageFromDetails, BasePage.navigateDetails.
  cbn [Js.optGet Js.lookup String.eqb Ascii.eqb Bool.eqb Js.truthy].
  cbn [JSON.serialize JSON.memberTexts JSON.render map fst snd].
  unfold createError. cbn [Js.truthy].
  match goal with
  | |- context [negb ?b] => change (negb b) with true
  end.
  cbn [Js.toString].
  eexists. split; [reflexivity|].
  cbn [classified err_message err_code err_category err_title Str.join].
  repeat split.
  repeat rewrite length_append.
  pose proof (length_quote (err_message low)). lia.
Qed.

(** The [try] blocks of the wrappers only ask the page: the state is
    as before. *)
Lemma navigateAttempt_state (this : Instance) (path : string) (w : World) :
  snd (BasePage.navigateAttempt this path w) = w.
Proof.
  unfold BasePage.navigateAttempt, bind, lift, throw.
  destruct (URL_toString _ _ _); [|reflexivity].
  destruct (page this); reflexivity.
Qed.

Lemma isVisibleAttempt_state (this : Instance) (selector : string) (w : World) :
  snd (BasePage.isVisibleAttempt this selector w) = w.
Proof. unfold BasePage.isVisibleAttempt, lift, throw. destruct (page this); reflexivity. Qed.

Lemma getTextAttempt_state (this : Instance) (selector : string) (w : World) :
  snd (BasePage.getTextAttempt this selector w) = w.
Proof. unfold BasePage.getTextAttempt, lift, throw. destruct (page this); reflexivity. Qed.

(** C10. Whatever the path, [navigate] returns when the URL could be
    built and the page reached it, and in every other case (the URL
    constructor throws before any browser call, there is no page, the
    browser call fails) it reports [ERROR_NAVIGATION_FAILED] and throws
    the synthetic error of [handleError], carrying code 3002 and
    category NAVIGATION: never the low-level error itself. *)
Theorem navigate_surfaces_only_the_classified_error :
  forall (this : Instance) (path : string) (clock : Clock) (w : World),
    match fst (BasePage.navigateAttempt this path w) with
    | Returns _ => BasePage.navigate this path clock w = (Returns tt, w)
    | Throws low =>
        let details := BasePage.navigateDetails this path low in
        exists thrown,
          createError ERROR_NAVIGATION_FAILED (messageFromDetails details)
          = Returns thrown
          /\ (exists w',
                 BasePage.navigate this path clock w = (Throws thrown, w')
                 /\ logDir w' =
                    persist (expectedRecord this ERROR_NAVIGATION_FAILED details None clock)
                            (msNow clock) (logDir w))
          /\ err_code thrown = Some 3002
          /\ err_category thrown = Some NAVIGATION
          /\ err_title thrown = Some "Navigation Failed"
          /\ thrown <> low
    end.
Proof.
  intros this path clock w.
  pose proof (navigateAttempt_state this path w) as Hstate.
  unfold BasePage.navigate, try_catch.
  destruct (BasePage.navigateAttempt this path w) as [[[]|low] w1];
    simpl in Hstate; subst w1; simpl fst; cbv iota.
  - reflexivity.
  - destruct (handleError_run
                this ERROR_NAVIGATION_FAILED (BasePage.navigateDetails this path low)
                clock w (navigateDetails_serializable this path low))
      as [[w' [Hrun Hdir]] _].
    destruct (navigate_thrown this path low)
      as (thrown & Hcreate & Hcode & Hcat & Htitle & Hlen).
    unfold thrownBy in Hrun. rewrite Hcreate in Hrun.
    exists thrown. split; [exact Hcreate|]. split; [|repeat split; try assumption].
    + exists w'. unfold bind. rewrite Hrun. split; [reflexivity | exact Hdir].
    + intros Heq. rewrite Heq in Hlen. lia.
Qed.

(** A path the [URL] constructor rejects: no browser call is made, and
    the caller sees the classified error. *)
Example navigate_unparsable_path :
  fst (BasePage.navigate
         (mkInstance (Some Sample.openPage)
            (mkPlatform (path_join Sample.platform) (path_relative Sample.platform)
               (fun _ _ => Throws (plainError "Invalid URL"))
               "test-results" "not a base"))
         "//" Sample.clock Sample.fresh)
  = Throws (mkError
              ("[ERROR 3002] Navigation Failed: Navigation to page failed: "
               ++ JSON.render
                    (JSON.TObj [ ("path", JSON.TStr "//");
                                 ("baseUrl", JSON.TStr "not a base");
                                 ("error", JSON.TStr "Invalid URL") ]))
              (Some 3002) (Some NAVIGATION) (Some "Navigation Failed")).
Proof. reflexivity. Qed.

(** C8. When the browser call of a report-only action fails, whatever
    the selector, the action hands the failure to [reportError]
    (classified [ERROR_LOCATOR_NOT_FOUND]) and returns its degraded
    default: [isVisible] returns false and [getText] the empty string.
    No error reaches the caller; the log directory holds the record
    when it takes the write. *)
Theorem report_only_actions_return_degraded_default :
  forall (this : Instance) (selector : string) (nameMs : Z) (clock : Clock)
         (w : World) (low : JsError),
    let file := logFileName (code ERROR_LOCATOR_NOT_FOUND) (msNow clock) in
    (fst (BasePage.isVisibleAttempt this selector w) = Throws low ->
     let r := expectedRecord this ERROR_LOCATOR_NOT_FOUND
                (BasePage.locatorDetails selector low "isVisible")
                (Some ("element-not-found-" ++ Str.ofZ nameMs ++ ".png")) clock in
     exists w',
       BasePage.isVisible this selector nameMs clock w = (Returns false, w')
       /\ logDir w' = persist r (msNow clock) (logDir w)
       /\ (dir_writable (logDir w) file = true ->
           oneRecordWritten r file (logDir w) (logDir w')))
    /\
    (fst (BasePage.getTextAttempt this selector w) = Throws low ->
     let r := expectedRecord this ERROR_LOCATOR_NOT_FOUND
                (BasePage.locatorDetails selector low "getText") None clock in
     exists w',
       BasePage.getText this selector clock w = (Returns "", w')
       /\ logDir w' = persist r (msNow clock) (logDir w)
       /\ (dir_writable (logDir w) file = true ->
           oneRecordWritten r file (logDir w) (logDir w'))).
Proof.
  intros this selector nameMs clock w low file. split.
  - intros Hfail r.
    pose proof (isVisibleAttempt_state this selector w) as Hstate.
    unfold BasePage.isVisible, try_catch.
    destruct (BasePage.isVisibleAttempt this selector w) as [o w1].
    simpl in Hfail, Hstate. subst o w1.
    destruct (reportError_run this ERROR_LOCATOR_NOT_FOUND
                (BasePage.locatorDetails selector low "isVisible")
                (Some ("element-not-found-" ++ Str.ofZ nameMs ++ ".png")) clock w
                (locatorDetails_serializable selector low "isVisible"))
      as [lines Hrun].
    fold r in Hrun. eexists. unfold bind. rewrite Hrun. unfold ret.
    split; [reflexivity|]. split; [reflexivity|].
    intros Hw. cbn [logDir].
    apply (persist_writes_once r (msNow clock) (logDir w));
      [apply locatorDetails_serializable | exact Hw].
  - intros Hfail r.
    pose proof (getTextAttempt_state this selector w) as Hstate.
    unfold BasePage.getText, try_catch.
    destruct (BasePage.getTextAttempt this selector w) as [o w1].
    simpl in Hfail, Hstate. subst o w1.
    destruct (reportError_run this ERROR_LOCATOR_NOT_FOUND
                (BasePage.locatorDetails selector low "getText") None clock w
                (locatorDetails_serializable selector low "getText"))
      as [lines Hrun].
    fold r in Hrun. eexists. unfold bind. rewrite Hrun. unfold ret.
    split; [reflexivity|]. split; [reflexivity|].
    intros Hw. cbn [logDir].
    apply (persist_writes_once r (msNow clock) (logDir w));
      [apply locatorDetails_serializable | exact Hw].
Qed.

Lemma report_only_actions_witness :
  fst (BasePage.isVisibleAttempt Sample.withClosedPage "#cart" Sample.fresh)
    = Throws Sample.closed
  /\ fst (BasePage.getTextAttempt Sample.withClosedPage "#cart" Sample.fresh)
    = Throws Sample.closed
  /\ fst (BasePage.isVisible Sample.withClosedPage "#cart" 1704164645000
            Sample.clock Sample.fresh) = Returns false
  /\ fst (BasePage.getText Sample.withClosedPage "#cart" Sample.clock Sample.fresh)
    = Returns "".
Proof.
  assert (fst (BasePage.isVisibleAttempt Sample.withClosedPage "#cart" Sample.fresh)
          = Throws Sample.closed) as Hv by reflexivity.
  assert (fst (BasePage.getTextAttempt Sample.withClosedPage "#cart" Sample.fresh)
          = Throws Sample.closed) as Ht by reflexivity.
  destruct (report_only_actions_return_degraded_default
              Sample.withClosedPage "#cart" 1704164645000 Sample.clock
              Sample.fresh Sample.closed) as [Hvis Htext].
  destruct (Hvis Hv) as (w1 & Hrun1 & _).
  destruct (Htext Ht) as (w2 & Hrun2 & _).
  split; [exact Hv|]. split; [exact Ht|]. split.
  - rewrite Hrun1. reflexivity.
  - rewrite Hrun2. reflexivity.
Defined.

(** ** Pruning of old record files *)

Lemma setDir_same (w : World) (es : list Entry) :
  dir_entries (logDir w) = es -> setDir w (withEntries (logDir w) es) = w.
Proof. destruct w as [[l wr es'] c]. simpl. intros ->. reflexivity. Qed.

Lemma find_unique (pre rest : list Entry) (e : Entry) :
  ~ In (file_name e) (map file_name pre) ->
  find (hasName (file_name e)) (pre ++ e :: rest) = Some e.
Proof.
  induction pre as [|x pre IH]; simpl; intros Hnot.
  - unfold hasName. now rewrite String.eqb_refl.
  - destruct (hasName (file_name e) x) eqn:Hx.
    + exfalso. apply Hnot. left. unfold hasName in Hx. now apply String.eqb_eq in Hx.
    + apply IH. intros Hin. apply Hnot. now right.
Qed.

Lemma filter_other_names (n : string) (es : list Entry) :
  ~ In n (map file_name es) ->
  filter (fun x => negb (hasName n x)) es = es.
Proof.
  induction es as [|x es IH]; simpl; intros Hnot; [reflexivity|].
  destruct (hasName n x) eqn:Hx; simpl.
  - exfalso. apply Hnot. left. unfold hasName in Hx. now apply String.eqb_eq in Hx.
  - rewrite IH; [reflexivity|]. intros Hin. apply Hnot. now right.
Qed.

Lemma unlink_unique (pre rest : list Entry) (e : Entry) :
  NoDup (map file_name (pre ++ e :: rest)) ->
  filter (fun x => negb (hasName (file_name e) x)) (pre ++ e :: rest) = (pre ++ rest)%list.
Proof.
  intros Hnd. rewrite map_app in Hnd. simpl in Hnd.
  apply NoDup_remove in Hnd as [_ Hnot].
  assert (~ In (file_name e) (map file_name pre)) as Hpre
      by (intros Hin; apply Hnot; apply in_or_app; now left).
  assert (~ In (file_name e) (map file_name rest)) as Hrest
      by (intros Hin; apply Hnot; apply in_or_app; now right).
  rewrite filter_app. simpl. unfold hasName at 2. rewrite String.eqb_refl. simpl.
  rewrite (filter_other_names _ pre Hpre), (filter_other_names _ rest Hrest).
  reflexivity.
Qed.

Lemma NoDup_names_not_in_prefix (pre rest : list Entry) (e : Entry) :
  NoDup (map file_name (pre ++ e :: rest)) -> ~ In (file_name e) (map file_name pre).
Proof.
  intros Hnd. rewrite map_app in Hnd. simpl in Hnd.
  apply NoDup_remove in Hnd as [_ Hnot].
  intros Hin. apply Hnot. apply in_or_app. now left.
Qed.

Lemma NoDup_names_drop (pre rest : list Entry) (e : Entry) :
  NoDup (map file_name (pre ++ e :: rest)) -> NoDup (map file_name (pre ++ rest)).
Proof.
  intros Hnd. rewrite map_app in *. simpl in Hnd.
  now apply NoDup_remove in Hnd as [Hnd _].
Qed.

(** The loop of [clearOldErrorLogs], run over the record files of a
    suffix [es] of the listing, leaves that suffix as [sweep] says; it
    throws exactly when some file blocks. *)
Lemma clearLoop_sweep (cutoff : Z) (es : list Entry) :
  forall (pre : list Entry) (w : World),
    dir_entries (logDir w) = (pre ++ es)%list ->
    NoDup (map file_name (pre ++ es)) ->
    exists o,
      clearLoop cutoff (filter isLogFile (map file_name es)) w =
      (o, setDir w (withEntries (logDir w) (pre ++ sweep cutoff es)))
      /\ (existsb (blocks cutoff) es = false -> o = Returns tt)
      /\ (existsb (blocks cutoff) es = true -> exists err, o = Throws err).
Proof.
  induction es as [|e rest IH]; intros pre w Hdir Hnd.
  - simpl. exists (Returns tt). unfold ret.
    rewrite setDir_same by assumption.
    split; [reflexivity|]. split; [reflexivity | discriminate].
  - simpl map. simpl filter. simpl sweep. simpl existsb.
    pose proof (find_unique pre rest e (NoDup_names_not_in_prefix _ _ _ Hnd)) as Hfind.
    destruct (isLogFile (file_name e)) eqn:Hlog.
    + (* a record file: it is examined *)
      simpl clearLoop. unfold bind at 1. unfold statSync_mtime at 1.
      rewrite Hdir, Hfind.
      destruct (file_mtime e) as [t|] eqn:Hmtime.
      * destruct (t <? cutoff) eqn:Hold.
        -- unfold bind at 1. unfold unlinkSync at 1. rewrite Hdir, Hfind.
           destruct (file_unlink e) eqn:Hunlink.
           ++ assert (blocks cutoff e = false) as Hb
                by (unfold blocks; now rewrite Hlog, Hmtime, Hold, Hunlink).
              assert (expired cutoff e = true) as He
                by (unfold expired; now rewrite Hlog, Hmtime, Hold).
              rewrite Hb, He. simpl orb.
              rewrite (unlink_unique pre rest e Hnd).
              destruct (IH pre (setDir w (withEntries (logDir w) (pre ++ rest))))
                as (o & Hrun & Hok & Hfail);
                [reflexivity | exact (NoDup_names_drop _ _ _ Hnd) |].
              exists o. rewrite Hrun. split; [reflexivity|]. split; assumption.
           ++ assert (blocks cutoff e = true) as Hb
                by (unfold blocks; now rewrite Hlog, Hmtime, Hold, Hunlink).
              rewrite Hb. simpl orb.
              eexists. rewrite setDir_same by assumption.
              split; [reflexivity|]. split; [discriminate | eauto].
        -- assert (blocks cutoff e = false) as Hb
             by (unfold blocks; now rewrite Hlog, Hmtime, Hold).
           assert (expired cutoff e = false) as He
             by (unfold expired; now rewrite Hlog, Hmtime, Hold).
           rewrite Hb, He. simpl orb.
           unfold bind at 1. unfold ret at 1.
           destruct (IH (pre ++ [e])%list w) as (o & Hrun & Hok & Hfail);
             [now rewrite <- app_assoc | now rewrite <- app_assoc |].
           rewrite <- app_assoc in Hrun. simpl in Hrun.
           exists o. split; [exact Hrun|]. split; assumption.
      * assert (blocks cutoff e = true) as Hb
          by (unfold blocks; now rewrite Hlog, Hmtime).
        rewrite Hb. simpl orb.
        eexists. rewrite setDir_same by assumption.
        split; [reflexivity|]. split; [discriminate | eauto].
    + (* not a record file: the filter skipped it *)
      assert (blocks cutoff e = false) as Hb by (unfold blocks; now rewrite Hlog).
      assert (expired cutoff e = false) as He by (unfold expired; now rewrite Hlog).
      rewrite Hb, He. simpl orb.
      destruct (IH (pre ++ [e])%list w) as (o & Hrun & Hok & Hfail);
        [now rewrite <- app_assoc | now rewrite <- app_assoc |].
      rewrite <- app_assoc in Hrun. simpl in Hrun.
      exists o. split; [exact Hrun|]. split; assumption.
Qed.

(** [clearOldErrorLogs] never throws. A listing that fails is logged;
    otherwise the directory is left as [sweep] says, with one console
    line when a file blocked. *)
Lemma clearOldErrorLogs_run (olderThanDays now : Z) (w : World) :
  wfDir (logDir w) ->
  exists lines,
    clearOldErrorLogs olderThanDays now w =
    (Returns tt,
     mkWorld (if dir_listable (logDir w)
              then withEntries (logDir w)
                     (sweep (cutoffTime olderThanDays now) (dir_entries (logDir w)))
              else logDir w)
             (console w ++ lines))
    /\ (dir_listable (logDir w) = true ->
        existsb (blocks (cutoffTime olderThanDays now)) (dir_entries (logDir w)) = false ->
        lines = [])
    /\ (dir_listable (logDir w) = true ->
        existsb (blocks (cutoffTime olderThanDays now)) (dir_entries (logDir w)) = true ->
        exists err, lines = [("Failed to clear old error logs:", ArgError err)]).
Proof.
  intros Hwf. unfold clearOldErrorLogs, try_catch, bind at 1, readdirSync.
  destruct (dir_listable (logDir w)) eqn:Hlist.
  - destruct (clearLoop_sweep (cutoffTime olderThanDays now) (dir_entries (logDir w))
                [] w eq_refl Hwf) as (o & Hrun & Hok & Hfail).
    fold (cutoffTime olderThanDays now). rewrite Hrun. simpl app.
    destruct (existsb (blocks (cutoffTime olderThanDays now)) (dir_entries (logDir w))).
    + destruct (Hfail eq_refl) as [err ->].
      eexists. unfold console_error. simpl. split; [reflexivity|].
      split; [discriminate | eauto].
    + rewrite (Hok eq_refl). exists []. rewrite app_nil_r.
      split; [reflexivity|]. split; [reflexivity | discriminate].
  - eexists. unfold console_error. simpl.
    split; [destruct w; reflexivity|]. split; discriminate.
Qed.

Lemma sweep_unblocked (cutoff : Z) (es : list Entry) :
  existsb (blocks cutoff) es = false ->
  sweep cutoff es = filter (fun e => negb (expired cutoff e)) es.
Proof.
  induction es as [|e rest IH]; simpl; intros H; [reflexivity|].
  apply orb_false_iff in H as [Hb Hrest]. rewrite Hb.
  destruct (expired cutoff e); simpl; now rewrite IH.
Qed.

Lemma sweep_blocked (cutoff : Z) (before after : list Entry) (f : Entry) :
  existsb (blocks cutoff) before = false ->
  blocks cutoff f = true ->
  sweep cutoff (before ++ f :: after) =
  (filter (fun e => negb (expired cutoff e)) before ++ f :: after)%list.
Proof.
  induction before as [|e rest IH]; simpl; intros H Hf.
  - now rewrite Hf.
  - apply orb_false_iff in H as [Hb Hrest]. rewrite Hb.
    destruct (expired cutoff e); simpl; now rewrite IH.
Qed.

Lemma healthy_unblocked (cutoff : Z) (d : LogDir) :
  healthy d -> existsb (blocks cutoff) (dir_entries d) = false.
Proof.
  intros [_ H].
  destruct (existsb (blocks cutoff) (dir_entries d)) eqn:E; [|reflexivity].
  apply existsb_exists in E as (e & Hin & Hb).
  unfold blocks in Hb. apply andb_true_iff in Hb as [Hlog Hb].
  destruct (H e Hin Hlog) as [Hm Hu].
  destruct (file_mtime e); [|congruence].
  rewrite Hu in Hb. apply andb_true_iff in Hb as [_ Hb]. discriminate.
Qed.

Lemma filter_not_expired_twice (cutoff : Z) (es : list Entry) :
  filter (fun e => negb (expired cutoff e))
         (filter (fun e => negb (expired cutoff e)) es)
  = filter (fun e => negb (expired cutoff e)) es.
Proof.
  induction es as [|e rest IH]; simpl; [reflexivity|].
  destruct (negb (expired cutoff e)) eqn:E; simpl; [rewrite E|]; now rewrite IH.
Qed.

Lemma NoDup_names_filter (f : Entry -> bool) (es : list Entry) :
  NoDup (map file_name es) -> NoDup (map file_name (filter f es)).
Proof.
  induction es as [|e rest IH]; simpl; intros Hnd; [constructor|].
  inversion Hnd as [|? ? Hnot Hnd']; subst.
  destruct (f e); simpl; [|now apply IH].
  constructor; [|now apply IH].
  intros Hin. apply Hnot. apply in_map_iff in Hin as (x & Hx & Hin).
  apply filter_In in Hin as [Hin _]. rewrite <- Hx. now apply in_map.
Qed.

Lemma world_eta (w : World) :
  mkWorld (withEntries (logDir w) (dir_entries (logDir w))) (console w) = w.
Proof. destruct w as [[l wr es] c]. reflexivity. Qed.

Lemma sweep_subset (cutoff : Z) (es : list Entry) (e : Entry) :
  In e (sweep cutoff es) -> In e es.
Proof.
  induction es as [|x rest IH]; simpl; [tauto|].
  destruct (blocks cutoff x); [tauto|].
  destruct (expired cutoff x); simpl; intuition.
Qed.

Lemma sweep_keeps (cutoff : Z) (es : list Entry) (e : Entry) :
  In e es -> expired cutoff e = false -> In e (sweep cutoff es).
Proof.
  induction es as [|x rest IH]; simpl; [tauto|].
  intros Hin Hkeep. destruct (blocks cutoff x); [exact Hin|].
  destruct Hin as [->|Hin].
  - rewrite Hkeep. now left.
  - destruct (expired cutoff x); [|right]; now apply IH.
Qed.

Lemma sweep_twice (cutoff : Z) (es : list Entry) :
  sweep cutoff (sweep cutoff es) = sweep cutoff es.
Proof.
  induction es as [|x rest IH]; simpl; [reflexivity|].
  destruct (blocks cutoff x) eqn:Hb; [simpl; now rewrite Hb|].
  destruct (expired cutoff x) eqn:He; [exact IH|].
  simpl. now rewrite Hb, He, IH.
Qed.

Lemma NoDup_names_sweep (cutoff : Z) (es : list Entry) :
  NoDup (map file_name es) -> NoDup (map file_name (sweep cutoff es)).
Proof.
  induction es as [|x rest IH]; simpl; intros Hnd; [constructor|].
  destruct (blocks cutoff x); [exact Hnd|].
  inversion Hnd as [|? ? Hnot Hnd']; subst.
  destruct (expired cutoff x); [now apply IH|].
  simpl. constructor; [|now apply IH].
  intros Hin. apply Hnot. apply in_map_iff in Hin as (y & Hy & Hin).
  apply sweep_subset in Hin. rewrite <- Hy. now apply in_map.
Qed.

(** A file that blocks the pruning still blocks it at a later cutoff. *)
Lemma blocks_later (c c' : Z) (e : Entry) :
  c <= c' -> blocks c e = true -> blocks c' e = true.
Proof.
  intros Hle. unfold blocks.
  destruct (isLogFile (file_name e)); [|discriminate]. simpl.
  destruct (file_mtime e) as [t|]; [|reflexivity].
  destruct (file_unlink e); simpl; rewrite ?andb_false_r; [discriminate|].
  rewrite !andb_true_r. intros H. apply Z.ltb_lt in H. apply Z.ltb_lt. lia.
Qed.

(** What a second pass at a later cutoff deletes was not old enough
    for the first. *)
Lemma sweep_later (c c' : Z) (es : list Entry) (e : Entry) :
  c <= c' ->
  In e (sweep c es) -> ~ In e (sweep c' (sweep c es)) -> expired c e = false.
Proof.
  intros Hle. induction es as [|x rest IH]; simpl; [tauto|].
  destruct (blocks c x) eqn:Hb.
  - intros Hin Hgone. exfalso. apply Hgone.
    simpl. rewrite (blocks_later c c' x Hle Hb). exact Hin.
  - destruct (expired c x) eqn:He; [exact IH|].
    intros Hin Hgone. cbn [sweep] in Hgone.
    destruct (blocks c' x) eqn:Hb'; [exfalso; exact (Hgone Hin)|].
    destruct (expired c' x) eqn:He'.
    + destruct Hin as [<-|Hin]; [exact He | now apply IH].
    + destruct Hin as [<-|Hin]; [exfalso; apply Hgone; now left|].
      apply IH; [exact Hin|]. intros Hstay. apply Hgone. now right.
Qed.

(** A file a pass deletes is a record file older than the cutoff. *)
Lemma sweep_deletes_old (c : Z) (es : list Entry) (e : Entry) :
  In e es -> ~ In e (sweep c es) ->
  isLogFile (file_name e) = true /\ exists t, file_mtime e = Some t /\ t < c.
Proof.
  intros Hin Hgone.
  destruct (expired c e) eqn:He; [|exfalso; apply Hgone; now apply sweep_keeps].
  unfold expired in He. apply andb_true_iff in He as [Hlog He].
  split; [exact Hlog|].
  destruct (file_mtime e) as [t|]; [|discriminate].
  exists t. split; [reflexivity | now apply Z.ltb_lt].
Qed.

(** C6, as stated, fails: an old record file that cannot be deleted
    is not deleted, and the run still returns normally. *)
Lemma clearOldErrorLogs_leaves_an_undeletable_old_file :
  ~ (forall (olderThanDays now : Z) (w w' : World) (e : Entry),
        wfDir (logDir w) ->
        clearOldErrorLogs olderThanDays now w = (Returns tt, w') ->
        In e (dir_entries (logDir w)) ->
        (In e (dir_entries (logDir w'))
         <-> expired (cutoffTime olderThanDays now) e = false)).
Proof.
  intros H.
  assert (wfDir (logDir SampleLogs.oldReadOnly)) as Hwf.
  { unfold wfDir. simpl. repeat constructor; simpl; intuition discriminate. }
  pose proof (H 30 2592000000000 SampleLogs.oldReadOnly _
                (mkFile "error_2001_100.json" (Some (Garbage "")) (Some 100) false)
                Hwf eq_refl (or_introl eq_refl)) as [Hkept _].
  specialize (Hkept (or_introl eq_refl)). discriminate Hkept.
Qed.

(** An immediate second run reads a later clock: a file that was at
    the cutoff of the first run is older than the cutoff of the
    second, and the second run deletes it. *)
Example clearOldErrorLogs_later_run_deletes_more :
  exists w' w'',
    clearOldErrorLogs 1 172800000 SampleLogs.threeAges = (Returns tt, w')
    /\ clearOldErrorLogs 1 172800001 w' = (Returns tt, w'')
    /\ map file_name (dir_entries (logDir w')) =
       ["notes.txt"; "error_3002_5000.json"; "error_6001_9000.json"]
    /\ map file_name (dir_entries (logDir w'')) =
       ["notes.txt"; "error_6001_9000.json"].
Proof. eexists. eexists. repeat split. Qed.

(** C6, amended. For every number of days and every set of record
    files, [clearOldErrorLogs] deletes only record files whose
    modification time is strictly older than now minus that many days
    and keeps every file at or newer than the cutoff. It deletes
    exactly the record files older than the cutoff when every record
    file can be examined and deleted; a file that cannot ends the run,
    and older files listed after it stay. A second run that reads the
    same clock deletes nothing, and a second run that reads a later
    clock deletes only record files whose modification time lies
    between the two cutoffs. *)
Theorem clearOldErrorLogs_deletes_exactly_the_expired :
  forall (olderThanDays now : Z) (w : World),
    wfDir (logDir w) ->
    let cutoff := now - olderThanDays * 24 * 60 * 60 * 1000 in
    exists w',
      clearOldErrorLogs olderThanDays now w = (Returns tt, w')
      /\ (forall e, In e (dir_entries (logDir w')) -> In e (dir_entries (logDir w)))
      /\ (forall e, In e (dir_entries (logDir w)) ->
                    ~ In e (dir_entries (logDir w')) ->
                    isLogFile (file_name e) = true
                    /\ exists t, file_mtime e = Some t /\ t < cutoff)
      /\ (forall e, In e (dir_entries (logDir w)) ->
                    expired cutoff e = false -> In e (dir_entries (logDir w')))
      /\ (forall now', now <= now' ->
          exists w'',
            clearOldErrorLogs olderThanDays now' w' = (Returns tt, w'')
            /\ (forall e, In e (dir_entries (logDir w')) ->
                          ~ In e (dir_entries (logDir w'')) ->
                          isLogFile (file_name e) = true
                          /\ exists t, file_mtime e = Some t
                                       /\ cutoff <= t
                                       /\ t < now' - olderThanDays * 24 * 60 * 60 * 1000)
            /\ (now' = now -> logDir w'' = logDir w'))
      /\ (healthy (logDir w) ->
          (forall e, In e (dir_entries (logDir w')) <->
                     In e (dir_entries (logDir w))
                     /\ ~ (isLogFile (file_name e) = true
                           /\ exists t, file_mtime e = Some t /\ t < cutoff))
          /\ dir_entries (logDir w') =
             filter (fun e => negb (expired cutoff e)) (dir_entries (logDir w))
          /\ clearOldErrorLogs olderThanDays now w' = (Returns tt, w')).
Proof.
  intros olderThanDays now w Hwf cutoff.
  destruct (clearOldErrorLogs_run olderThanDays now w Hwf) as (lines & Hrun & Hnone & _).
  unfold cutoffTime in Hrun, Hnone. fold cutoff in Hrun, Hnone.
  set (w1 := mkWorld _ _) in Hrun.
  assert (dir_entries (logDir w1) =
          if dir_listable (logDir w) then sweep cutoff (dir_entries (logDir w))
          else dir_entries (logDir w)) as Hentries
      by (subst w1; cbn [logDir]; destruct (dir_listable (logDir w)); reflexivity).
  assert (dir_listable (logDir w1) = dir_listable (logDir w)) as Hsame
      by (subst w1; cbn [logDir]; destruct (dir_listable (logDir w)) eqn:Hl;
          cbn [withEntries dir_listable]; congruence).
  assert (forall e, In e (dir_entries (logDir w1)) -> In e (dir_entries (logDir w)))
    as Hsub.
  { intros e. rewrite Hentries. destruct (dir_listable (logDir w)); [|tauto].
    apply sweep_subset. }
  assert (forall e, In e (dir_entries (logDir w)) -> expired cutoff e = false ->
                    In e (dir_entries (logDir w1))) as Hkeeps.
  { intros e Hin Hkeep. rewrite Hentries.
    destruct (dir_listable (logDir w)); [now apply sweep_keeps | exact Hin]. }
  assert (wfDir (logDir w1)) as Hwf1.
  { unfold wfDir. rewrite Hentries.
    destruct (dir_listable (logDir w)); [now apply NoDup_names_sweep | exact Hwf]. }
  exists w1. split; [exact Hrun|]. split; [exact Hsub|].
  split; [|split; [exact Hkeeps|split]].
  - intros e Hin Hgone.
    destruct (expired cutoff e) eqn:He; [|exfalso; apply Hgone; now apply Hkeeps].
    unfold expired in He. apply andb_true_iff in He as [Hlog He].
    split; [exact Hlog|].
    destruct (file_mtime e) as [t|]; [|discriminate].
    exists t. split; [reflexivity | now apply Z.ltb_lt].
  - intros now' Hnow.
    set (cutoff' := now' - olderThanDays * 24 * 60 * 60 * 1000).
    assert (cutoff <= cutoff') as Hle by (subst cutoff cutoff'; lia).
    destruct (clearOldErrorLogs_run olderThanDays now' w1 Hwf1) as (lines1 & Hrun1 & _).
    unfold cutoffTime in Hrun1. fold cutoff' in Hrun1.
    eexists. split; [exact Hrun1|]. cbn [logDir]. rewrite Hsame. split.
    + intros e Hin Hgone.
      destruct (dir_listable (logDir w)) eqn:Hlist;
        [|exfalso; apply Hgone; exact Hin].
      cbn [withEntries dir_entries] in Hgone.
      destruct (sweep_deletes_old cutoff' _ e Hin Hgone) as (Hlog & t & Hm & Hlt).
      split; [exact Hlog|]. exists t. split; [exact Hm|]. split; [|exact Hlt].
      rewrite Hentries in Hin, Hgone.
      pose proof (sweep_later cutoff cutoff' _ e Hle Hin Hgone) as Hfresh.
      unfold expired in Hfresh. rewrite Hlog, Hm in Hfresh. simpl in Hfresh.
      apply Z.ltb_ge in Hfresh. exact Hfresh.
    + intros ->. subst cutoff'. fold cutoff.
      destruct (dir_listable (logDir w)) eqn:Hlist; [|reflexivity].
      rewrite Hentries, sweep_twice, <- Hentries.
      destruct (logDir w1). reflexivity.
  - intros Hhealthy.
    pose proof (healthy_unblocked cutoff _ Hhealthy) as Hfree.
    destruct Hhealthy as [Hlist Hfiles].
    assert (dir_entries (logDir w1) =
            filter (fun e => negb (expired cutoff e)) (dir_entries (logDir w))) as Hfilter
        by (rewrite Hentries, Hlist; now apply sweep_unblocked).
    split; [|split; [exact Hfilter|]].
    + intros e. rewrite Hfilter, filter_In. unfold expired.
      split; intros [Hin Hkeep]; (split; [exact Hin|]).
      * intros [Hlog (t & Hm & Hlt)]. rewrite Hlog, Hm in Hkeep. simpl in Hkeep.
        apply Z.ltb_lt in Hlt. rewrite Hlt in Hkeep. discriminate.
      * destruct (isLogFile (file_name e)) eqn:Hlog; [|reflexivity].
        destruct (file_mtime e) as [t|] eqn:Hm; [|reflexivity].
        simpl. destruct (t <? cutoff) eqn:Hlt; [|reflexivity].
        exfalso. apply Hkeep. split; [reflexivity|].
        exists t. split; [reflexivity | now apply Z.ltb_lt].
    + assert (healthy (logDir w1)) as Hhealthy1.
      { split; [now rewrite Hsame|]. intros e Hin Hlog. apply Hfiles; [|exact Hlog].
        now apply Hsub. }
      pose proof (healthy_unblocked cutoff _ Hhealthy1) as Hfree1.
      destruct (clearOldErrorLogs_run olderThanDays now w1 Hwf1)
        as (lines1 & Hrun1 & Hnone1 & _).
      unfold cutoffTime in Hrun1, Hnone1. fold cutoff in Hrun1, Hnone1.
      assert (dir_listable (logDir w1) = true) as Hlist1 by congruence.
      rewrite Hlist1 in Hrun1.
      rewrite (Hnone1 Hlist1 Hfree1), app_nil_r in Hrun1.
      assert (sweep cutoff (dir_entries (logDir w1)) = dir_entries (logDir w1)) as Hfix
          by (rewrite Hentries, Hlist; apply sweep_twice).
      rewrite Hfix in Hrun1. rewrite Hrun1. f_equal. apply world_eta.
Qed.

Lemma clearOldErrorLogs_deletes_witness :
  wfDir (logDir SampleLogs.threeAges)
  /\ healthy (logDir SampleLogs.threeAges)
  /\ exists w',
       clearOldErrorLogs 1 172800000 SampleLogs.threeAges = (Returns tt, w')
       /\ map file_name (dir_entries (logDir w')) =
          ["notes.txt"; "error_3002_5000.json"; "error_6001_9000.json"].
Proof.
  assert (wfDir (logDir SampleLogs.threeAges)) as Hwf.
  { unfold wfDir. simpl. repeat constructor; simpl; intuition discriminate. }
  assert (healthy (logDir SampleLogs.threeAges)) as Hh.
  { split; [reflexivity|]. simpl.
    intros e [<-|[<-|[<-|[<-|[]]]]] _; split; simpl; congruence. }
  split; [exact Hwf|]. split; [exact Hh|].
  destruct (clearOldErrorLogs_deletes_exactly_the_expired
              1 172800000 SampleLogs.threeAges Hwf)
    as (w' & Hrun & _ & _ & _ & _ & Hexact).
  destruct (Hexact Hh) as (_ & Hkept & _).
  exists w'. split; [exact Hrun|]. rewrite Hkept. reflexivity.
Defined.

Lemma existsb_false_forall {A : Type} (f : A -> bool) (l : list A) :
  (forall x, In x l -> f x = false) -> existsb f l = false.
Proof.
  induction l as [|a l IH]; simpl; intros H; [reflexivity|].
  rewrite (H a) by now left. simpl. apply IH. intros x Hx. apply H. now right.
Qed.

(** C7, as stated, fails: the [try] block encloses the whole loop, so
    the first file that cannot be examined or deleted ends the batch,
    and an old record file listed after it stays. *)
Lemma clearOldErrorLogs_stops_at_first_failure :
  ~ (forall (olderThanDays now : Z) (w w' : World) (e : Entry),
        wfDir (logDir w) ->
        clearOldErrorLogs olderThanDays now w = (Returns tt, w') ->
        In e (dir_entries (logDir w)) ->
        expired (cutoffTime olderThanDays now) e = true ->
        file_unlink e = true ->
        ~ In e (dir_entries (logDir w'))).
Proof.
  intros H.
  refine (H 30 2592000000000 SampleLogs.lockedThenOld _
            (mkFile "error_2002_200.json" (Some (Garbage "")) (Some 200) true)
            _ eq_refl _ eq_refl eq_refl _).
  - unfold wfDir. simpl. repeat constructor; simpl; intuition discriminate.
  - simpl. right. left. reflexivity.
  - simpl. right. left. reflexivity.
Qed.

(** C7, amended. During [clearOldErrorLogs], a failure to examine or
    to delete one record file is caught and logged and never reaches
    the caller, but it ends the batch: the files listed before the
    failing one have been examined and, if old enough, deleted; the
    failing file and every file listed after it are left as they
    were. *)
Theorem clearOldErrorLogs_failure_ends_the_batch :
  forall (olderThanDays now : Z) (w : World) (before after : list Entry) (f : Entry),
    wfDir (logDir w) ->
    dir_listable (logDir w) = true ->
    dir_entries (logDir w) = (before ++ f :: after)%list ->
    let cutoff := now - olderThanDays * 24 * 60 * 60 * 1000 in
    blocks cutoff f = true ->
    (forall e, In e before -> blocks cutoff e = false) ->
    exists w' err,
      clearOldErrorLogs olderThanDays now w = (Returns tt, w')
      /\ dir_entries (logDir w') =
         (filter (fun e => negb (expired cutoff e)) before ++ f :: after)%list
      /\ console w' =
         (console w ++ [("Failed to clear old error logs:", ArgError err)])%list.
Proof.
  intros olderThanDays now w before after f Hwf Hlist Hdir cutoff Hf Hbefore.
  destruct (clearOldErrorLogs_run olderThanDays now w Hwf) as (lines & Hrun & _ & Hsome).
  unfold cutoffTime in Hrun, Hsome. fold cutoff in Hrun, Hsome.
  assert (existsb (blocks cutoff) before = false) as Hfree
      by now apply existsb_false_forall.
  assert (existsb (blocks cutoff) (dir_entries (logDir w)) = true) as Hblocked.
  { rewrite Hdir, existsb_app. simpl. rewrite Hf. now rewrite orb_true_r. }
  destruct (Hsome Hlist Hblocked) as [err ->].
  rewrite Hlist, Hdir, (sweep_blocked cutoff before after f Hfree Hf) in Hrun.
  eexists. exists err. split; [exact Hrun|]. split; reflexivity.
Qed.

Lemma clearOldErrorLogs_failure_witness :
  blocks (cutoffTime 30 2592000000000)
         (mkFile "error_2001_100.json" None None true) = true
  /\ exists w',
       clearOldErrorLogs 30 2592000000000 SampleLogs.lockedThenOld = (Returns tt, w')
       /\ dir_entries (logDir w') = dir_entries (logDir SampleLogs.lockedThenOld).
Proof.
  split; [reflexivity|].
  destruct (clearOldErrorLogs_failure_ends_the_batch
              30 2592000000000 SampleLogs.lockedThenOld []
              [mkFile "error_2002_200.json" (Some (Garbage "")) (Some 200) true]
              (mkFile "error_2001_100.json" None None true))
    as (w' & err & Hrun & Hdir & _).
  - unfold wfDir. simpl. repeat constructor; simpl; intuition discriminate.
  - reflexivity.
  - reflexivity.
  - reflexivity.
  - intros e [].
  - exists w'. split; [exact Hrun|]. rewrite Hdir. reflexivity.
Defined.

(** ** Statistics *)

Lemma lookup_replace_same {A : Type} (k : string) (v : A) (l : list (string * A)) :
  Js.hasOwn k l = true -> Js.lookup k (Js.replace k v l) = Some v.
Proof.
  unfold Js.hasOwn. induction l as [|[k' v'] l IH]; simpl; [discriminate|].
  destruct (String.eqb k k') eqn:E; simpl; rewrite E; [reflexivity | exact IH].
Qed.

Lemma lookup_place_same {A : Type} (k : string) (v : A) (l : list (string * A)) :
  Js.hasOwn k l = false -> Js.lookup k (Js.place k v l) = Some v.
Proof.
  unfold Js.hasOwn. induction l as [|[k' v'] l IH]; simpl.
  - now rewrite String.eqb_refl.
  - destruct (String.eqb k k') eqn:E; [discriminate|].
    intros H. destruct (Js.listedBefore k k'); simpl.
    + now rewrite String.eqb_refl.
    + rewrite E. now apply IH.
Qed.

Lemma lookup_replace_other {A : Type} (k k' : string) (v : A) (l : list (string * A)) :
  k <> k' -> Js.lookup k (Js.replace k' v l) = Js.lookup k l.
Proof.
  intros Hne. induction l as [|[k0 v0] l IH]; simpl; [reflexivity|].
  destruct (String.eqb k' k0) eqn:E; simpl.
  - apply String.eqb_eq in E. subst k0.
    apply String.eqb_neq in Hne. now rewrite Hne.
  - destruct (String.eqb k k0); [reflexivity | exact IH].
Qed.

Lemma lookup_place_other {A : Type} (k k' : string) (v : A) (l : list (string * A)) :
  k <> k' -> Js.lookup k (Js.place k' v l) = Js.lookup k l.
Proof.
  intros Hne. assert (String.eqb k k' = false) as E by now apply String.eqb_neq.
  induction l as [|[k0 v0] l IH]; simpl.
  - now rewrite E.
  - destruct (Js.listedBefore k' k0); simpl.
    + now rewrite E.
    + destruct (String.eqb k k0); [reflexivity | exact IH].
Qed.

Lemma lookup_set_same {A : Type} (k : string) (v : A) (l : list (string * A)) :
  Js.lookup k (Js.set k v l) = Some v.
Proof.
  unfold Js.set. destruct (Js.hasOwn k l) eqn:E.
  - now apply lookup_replace_same.
  - now apply lookup_place_same.
Qed.

Lemma lookup_set_other {A : Type} (k k' : string) (v : A) (l : list (string * A)) :
  k <> k' -> Js.lookup k (Js.set k' v l) = Js.lookup k l.
Proof.
  intros Hne. unfold Js.set. destruct (Js.hasOwn k' l).
  - now apply lookup_replace_other.
  - now apply lookup_place_other.
Qed.

Lemma lookup_increment_same (stats : Stats) (k : string) (n : Z) :
  Js.lookup k stats = Some (Js.Finite n) ->
  Js.lookup k (increment stats k) = Some (Js.Finite (n + 1)).
Proof. intros H. unfold increment. rewrite H. simpl. apply lookup_set_same. Qed.

Lemma lookup_increment_other (stats : Stats) (k k' : string) :
  k <> k' -> Js.lookup k (increment stats k') = Js.lookup k stats.
Proof.
  intros Hne. unfold increment.
  destruct (Js.lookup k' stats); [now apply lookup_set_other|].
  destruct (String.eqb k' "__proto__"); [reflexivity | now apply lookup_set_other].
Qed.

(** A key of the statistics that holds a number ends the counting loop
    with that number plus the scanned record files filed under it. *)
Lemma lookup_scanned (k : string) (es : list Entry) :
  forall (stats : Stats) (n : Z),
    Js.lookup k stats = Some (Js.Finite n) ->
    Js.lookup k (fold_left increment (scanKeys es) stats) =
    Some (Js.Finite (n + howMany (filedUnder k)
                           (takeWhile (fun e => negb (malformed e)) es))).
Proof.
  unfold howMany.
  induction es as [|e rest IH]; intros stats n Hk.
  - simpl. rewrite Hk. f_equal. f_equal. lia.
  - cbn [scanKeys takeWhile].
    destruct (isLogFile (file_name e)) eqn:Hlog.
    + destruct (categoryKey e) as [k'|] eqn:Hkey.
      * assert (malformed e = false) as Hm
            by (unfold malformed; now rewrite Hlog, Hkey).
        rewrite Hm. cbn [negb filter fold_left].
        destruct (String.eqb k' k) eqn:Hkk.
        -- assert (filedUnder k e = true) as Hf
               by (unfold filedUnder; now rewrite Hlog, Hkey, Hkk).
           rewrite Hf. apply String.eqb_eq in Hkk. subst k'.
           rewrite (IH _ (n + 1)) by now apply lookup_increment_same.
           cbn [length]. f_equal. f_equal. lia.
        -- assert (filedUnder k e = false) as Hf
               by (unfold filedUnder; now rewrite Hlog, Hkey, Hkk).
           rewrite Hf. apply IH. rewrite lookup_increment_other; [exact Hk|].
           apply String.eqb_neq in Hkk. congruence.
      * assert (malformed e = true) as Hm
            by (unfold malformed; now rewrite Hlog, Hkey).
        rewrite Hm. simpl. rewrite Hk. f_equal. f_equal. lia.
    + assert (malformed e = false) as Hm by (unfold malformed; now rewrite Hlog).
      assert (filedUnder k e = false) as Hf by (unfold filedUnder; now rewrite Hlog).
      rewrite Hm. cbn [negb filter]. rewrite Hf. now apply IH.
Qed.

Lemma initialStats_zero (c : ErrorCategory) :
  Js.lookup (categoryName c) initialStats = Some (Js.Finite 0).
Proof. destruct c; reflexivity. Qed.

Lemma In_find_unique (es : list Entry) (e : Entry) :
  NoDup (map file_name es) -> In e es ->
  find (hasName (file_name e)) es = Some e.
Proof.
  intros Hnd Hin. apply in_split in Hin as (pre & rest & ->).
  apply find_unique. exact (NoDup_names_not_in_prefix _ _ _ Hnd).
Qed.


(** Reading one listed file and taking its category: the value and
    its category, or an exception when [categoryValue] has none. *)
Lemma scan_step (w : World) (e : Entry) :
  find (hasName (file_name e)) (dir_entries (logDir w)) = Some e ->
  (exists v c,
      parsedRecord e = Some v /\ categoryValue e = Some c
      /\ (errorLog <- readLog (file_name e) ;;
          c' <- categoryOf errorLog ;;
          ret (errorLog, c')) w = (Returns (v, c), w)
      /\ (errorLog <- readLog (file_name e) ;; categoryOf errorLog) w
         = (Returns c, w))
  \/ (categoryValue e = None
      /\ (exists err,
             (errorLog <- readLog (file_name e) ;;
              c' <- categoryOf errorLog ;;
              ret (errorLog, c')) w = (Throws err, w))
      /\ (exists err,
             (errorLog <- readLog (file_name e) ;; categoryOf errorLog) w
             = (Throws err, w))).
Proof.
  intros Hfind.
  unfold parsedRecord, categoryValue, bind, readLog, bind, readFileSync, lift,
    categoryOf, ret, throw.
  rewrite Hfind.
  destruct (file_read e) as [[t|raw]|]; simpl.
  - destruct (Js.get (JSON.denote t) "category") as [c|].
    + left. exists (JSON.denote t), c. repeat split; reflexivity.
    + right. repeat split; eexists; reflexivity.
  - right. repeat split; eexists; reflexivity.
  - right. repeat split; eexists; reflexivity.
Qed.

(** The counting loop over the record files of [es]: it increments the
    keys of [scanKeys] and stops with an exception exactly when a file
    is unreadable or malformed, a category that cannot be made a
    property key included. *)
Lemma countLoop_scan (w : World) (es : list Entry) :
  forall (stats : Stats),
    (forall e, In e es ->
               find (hasName (file_name e)) (dir_entries (logDir w)) = Some e) ->
    exists o,
      countLoop (filter isLogFile (map file_name es)) stats w =
      (fold_left increment (scanKeys es) stats, o)
      /\ (existsb malformed es = false -> o = None)
      /\ (existsb malformed es = true -> exists err, o = Some err).
Proof.
  induction es as [|e rest IH]; intros stats Hfind.
  - exists None. simpl. split; [reflexivity|]. split; [reflexivity | discriminate].
  - cbn [map filter scanKeys existsb].
    assert (forall e', In e' rest ->
                       find (hasName (file_name e')) (dir_entries (logDir w)) = Some e')
      as Hrest by (intros e' He'; apply Hfind; now right).
    destruct (isLogFile (file_name e)) eqn:Hlog.
    + cbn [countLoop].
      destruct (scan_step w e (Hfind e (or_introl eq_refl)))
        as [(v & c & _ & Hc & _ & Hrun) | (Hc & _ & err & Hrun)];
        rewrite Hrun; unfold categoryKey, malformed; rewrite Hlog; unfold categoryKey;
        rewrite Hc.
      * destruct (Js.toString c) as [key|why]; simpl.
        -- destruct (IH (increment stats key) Hrest) as (o & Hloop & Hok & Hfail).
           exists o. split; [exact Hloop|]. split; assumption.
        -- eexists. split; [reflexivity|]. split; [discriminate | eauto].
      * simpl. eexists. split; [reflexivity|]. split; [discriminate | eauto].
    + assert (malformed e = false) as Hm by (unfold malformed; now rewrite Hlog).
      rewrite Hm. simpl. now apply IH.
Qed.

Lemma wfDir_find (w : World) :
  wfDir (logDir w) ->
  forall e, In e (dir_entries (logDir w)) ->
            find (hasName (file_name e)) (dir_entries (logDir w)) = Some e.
Proof. intros Hwf e Hin. now apply In_find_unique. Qed.

(** [getErrorStatistics] never throws and leaves the directory alone;
    its result is the zeroed object with the scanned keys counted. *)
Lemma getErrorStatistics_run (w : World) :
  wfDir (logDir w) ->
  exists lines,
    getErrorStatistics w =
    (Returns (if dir_listable (logDir w)
              then fold_left increment (scanKeys (dir_entries (logDir w))) initialStats
              else initialStats),
     mkWorld (logDir w) (console w ++ lines)).
Proof.
  intros Hwf. unfold getErrorStatistics, readdirSync.
  destruct (dir_listable (logDir w)).
  - destruct (countLoop_scan w (dir_entries (logDir w)) initialStats (wfDir_find w Hwf))
      as (o & Hloop & _).
    rewrite Hloop. destruct o.
    + eexists. unfold bind, console_error, ret. reflexivity.
    + exists []. rewrite app_nil_r. destruct w. reflexivity.
  - eexists. unfold bind, console_error, ret. reflexivity.
Qed.

Lemma howMany_cons {A : Type} (p : A -> bool) (x : A) (l : list A) :
  howMany p (x :: l) = indicator (p x) + howMany p l.
Proof.
  unfold howMany, indicator. simpl. destruct (p x); simpl length; lia.
Qed.




Lemma takeWhile_all {A : Type} (p : A -> bool) (l : list A) :
  (forall x, In x l -> p x = true) -> takeWhile p l = l.
Proof.
  induction l as [|x l IH]; simpl; intros H; [reflexivity|].
  rewrite (H x) by now left. f_equal. apply IH. intros y Hy. apply H. now right.
Qed.

(** The counts of the eleven categories after a scan. *)
Lemma scanned_counts (es : list Entry) (c : ErrorCategory) :
  Js.lookup (categoryName c) (fold_left increment (scanKeys es) initialStats)
  = Some (Js.Finite (howMany (filedUnder (categoryName c))
                       (takeWhile (fun e => negb (malformed e)) es))).
Proof.
  rewrite (lookup_scanned _ es initialStats 0 (initialStats_zero c)).
  f_equal.
Qed.




(** A record whose category is an object with an own [toString]
    property: the category cannot be made a property key, the
    TypeError ends the scan, and the record listed after it is not
    counted. *)
Example getErrorStatistics_stops_at_unconvertible_category :
  exists w',
    getErrorStatistics SampleLogs.unconvertibleThenRecord
    = (Returns (statsFrom (fun _ => 0)), w')
    /\ console w' =
       [("Failed to read error logs:",
         ArgError (plainError "Cannot convert object to primitive value"))].
Proof. eexists. split; reflexivity. Qed.

(** ** The maintenance report *)

(** The collecting loop over the record files of [es]: it stops at
    the first file no category can be read from. *)
Lemma collectLoop_scan (cat : string) (w : World) (es : list Entry) :
  forall (errors : list Js.Value),
    (forall e, In e es ->
               find (hasName (file_name e)) (dir_entries (logDir w)) = Some e) ->
    exists o,
      collectLoop cat (filter isLogFile (map file_name es)) errors w =
      ((errors ++ collected cat (takeWhile (fun e => negb (unreadable e)) es))%list, o)
      /\ (existsb unreadable es = false -> o = None).
Proof.
  induction es as [|e rest IH]; intros errors Hfind.
  - exists None. simpl. rewrite app_nil_r. split; reflexivity.
  - cbn [map filter existsb takeWhile].
    assert (forall e', In e' rest ->
                       find (hasName (file_name e')) (dir_entries (logDir w)) = Some e')
      as Hrest by (intros e' He'; apply Hfind; now right).
    destruct (isLogFile (file_name e)) eqn:Hlog.
    + cbn [collectLoop].
      destruct (scan_step w e (Hfind e (or_introl eq_refl)))
        as [(v & c & Hv & Hc & Hrun & _) | (Hc & (err & Hrun) & _)];
        rewrite Hrun; unfold unreadable; rewrite Hlog, Hc; simpl.
      * destruct (IH (if Js.strictEqStr c cat then (errors ++ [v])%list else errors) Hrest)
          as (o & Hloop & Hok).
        exists o. split; [|exact Hok]. rewrite Hloop. f_equal.
        unfold collected at 2. cbn [flat_map]. rewrite Hlog, Hv, Hc.
        fold (collected cat (takeWhile (fun e0 => negb (unreadable e0)) rest)).
        destruct (Js.strictEqStr c cat); [now rewrite <- app_assoc | reflexivity].
      * eexists. rewrite app_nil_r. split; [reflexivity | discriminate].
    + assert (unreadable e = false) as Hm by (unfold unreadable; now rewrite Hlog).
      rewrite Hm. simpl negb. cbv iota.
      destruct (IH errors Hrest) as (o & Hloop & Hok).
      exists o. split; [|exact Hok]. rewrite Hloop. f_equal.
      unfold collected at 2. cbn [flat_map]. rewrite Hlog. reflexivity.
Qed.

(** A record file the counting scan gets through can be read. *)
Lemma malformed_unreadable (e : Entry) : malformed e = false -> unreadable e = false.
Proof.
  unfold malformed, unreadable, categoryKey.
  destruct (isLogFile (file_name e)); [|reflexivity].
  destruct (categoryValue e); [reflexivity | discriminate].
Qed.

Lemma clean_not_malformed (d : LogDir) :
  cleanStore d -> forall e, In e (dir_entries d) -> malformed e = false.
Proof.
  intros (_ & _ & Hclean) e Hin. unfold malformed, categoryKey.
  destruct (isLogFile (file_name e)) eqn:Hlog; [|reflexivity].
  destruct (Hclean e Hin Hlog) as [c ->]. reflexivity.
Qed.

(** In a clean store the scan for a category returns all its records. *)
Lemma getErrorsByCategory_clean (cat : string) (w : World) :
  cleanStore (logDir w) ->
  getErrorsByCategory cat w = (Returns (collected cat (dir_entries (logDir w))), w).
Proof.
  intros Hclean.
  assert (forall e, In e (dir_entries (logDir w)) -> unreadable e = false) as Hgood
      by (intros e He; apply malformed_unreadable;
          now apply (clean_not_malformed _ Hclean)).
  destruct Hclean as (Hlist & Hwf & Hclean).
  unfold getErrorsByCategory, readdirSync. rewrite Hlist.
  destruct (collectLoop_scan cat w (dir_entries (logDir w)) [] (wfDir_find w Hwf))
    as (o & Hloop & Hok).
  rewrite Hloop, (Hok (existsb_false_forall _ _ Hgood)). simpl.
  rewrite takeWhile_all; [reflexivity|].
  intros e He. now rewrite (Hgood e He).
Qed.

Lemma increment_statsFrom (f : ErrorCategory -> Z) (c0 : ErrorCategory) :
  increment (statsFrom f) (categoryName c0) =
  statsFrom (fun c => if ErrorCategory_eqb c c0 then f c + 1 else f c).
Proof. destruct c0; reflexivity. Qed.

Lemma isCategoryName_inv (k : string) :
  isCategoryName k = true -> exists c, k = categoryName c.
Proof.
  unfold isCategoryName. intros H.
  apply existsb_exists in H as (c & _ & Hc).
  exists c. now apply String.eqb_eq.
Qed.

(** Counting category names keeps the shape of the statistics. *)
Lemma count_keeps_shape (keys : list string) :
  Forall (fun k => isCategoryName k = true) keys ->
  forall f, exists g, fold_left increment keys (statsFrom f) = statsFrom g.
Proof.
  induction 1 as [|k keys Hk _ IH]; intros f; simpl.
  - now exists f.
  - destruct (isCategoryName_inv k Hk) as [c ->].
    rewrite increment_statsFrom. apply IH.
Qed.

Lemma clean_scanKeys (es : list Entry) :
  (forall e, In e es -> isLogFile (file_name e) = true ->
             exists c, categoryValue e = Some (Js.JStr (categoryName c))) ->
  Forall (fun k => isCategoryName k = true) (scanKeys es).
Proof.
  induction es as [|e rest IH]; intros Hclean; simpl; [constructor|].
  assert (Forall (fun k => isCategoryName k = true) (scanKeys rest)) as Hrest
      by (apply IH; intros e' He'; apply Hclean; now right).
  destruct (isLogFile (file_name e)) eqn:Hlog; [|exact Hrest].
  destruct (Hclean e (or_introl eq_refl) Hlog) as [c Hc].
  unfold categoryKey. rewrite Hc. simpl.
  constructor; [|exact Hrest]. destruct c; reflexivity.
Qed.

Lemma lookup_statsFrom (g : ErrorCategory -> Z) (c : ErrorCategory) :
  Js.lookup (categoryName c) (statsFrom g) = Some (Js.Finite (g c)).
Proof. destruct c; reflexivity. Qed.

(** The statistics of a clean store, in full. *)
Lemma getErrorStatistics_clean (w : World) :
  cleanStore (logDir w) ->
  getErrorStatistics w =
  (Returns (statsFrom (fun c => howMany (filedUnder (categoryName c))
                                        (dir_entries (logDir w)))), w).
Proof.
  intros Hclean. pose proof (clean_not_malformed _ Hclean) as Hgood.
  destruct Hclean as (Hlist & Hwf & Hclean).
  unfold getErrorStatistics, readdirSync. rewrite Hlist.
  destruct (countLoop_scan w (dir_entries (logDir w)) initialStats (wfDir_find w Hwf))
    as (o & Hloop & Hok & _).
  rewrite Hloop, (Hok (existsb_false_forall _ _ Hgood)).
  f_equal. f_equal.
  destruct (count_keeps_shape _ (clean_scanKeys _ Hclean) (fun _ => 0)) as [g Hg].
  change (statsFrom (fun _ => 0)) with initialStats in Hg.
  rewrite Hg. unfold statsFrom. apply map_ext. intros c. f_equal. f_equal.
  pose proof (scanned_counts (dir_entries (logDir w)) c) as Hc.
  rewrite Hg, lookup_statsFrom in Hc.
  rewrite takeWhile_all in Hc by (intros e He; now rewrite (Hgood e He)).
  congruence.
Qed.


Lemma countOf_statsFrom (g : ErrorCategory -> Z) (c : ErrorCategory) :
  countOf (statsFrom g) c = g c.
Proof. unfold countOf. now rewrite lookup_statsFrom. Qed.


Lemma categoryValue_parsed (e : Entry) (c : Js.Value) :
  categoryValue e = Some c ->
  exists v, parsedRecord e = Some v /\ Js.get v "category" = Some c.
Proof.
  unfold categoryValue, parsedRecord.
  destruct (file_read e) as [content|]; [|discriminate].
  destruct (JSON_parse content) as [v|]; [|discriminate].
  intros H. now exists v.
Qed.

Lemma strictEqStr_inv (c : Js.Value) (s : string) :
  Js.strictEqStr c s = true -> c = Js.JStr s.
Proof.
  destruct c; simpl; try discriminate. intros H.
  apply String.eqb_eq in H. now subst.
Qed.

(** Every collected record belongs to the category asked for. *)
Lemma collected_category (cat : string) (es : list Entry) (v : Js.Value) :
  In v (collected cat es) -> Js.get v "category" = Some (Js.JStr cat).
Proof.
  unfold collected. intros Hin. apply in_flat_map in Hin as (e & _ & Hv).
  destruct (isLogFile (file_name e)); [|contradiction].
  destruct (categoryValue e) as [c|] eqn:Hc.
  - destruct (categoryValue_parsed e c Hc) as (v' & Hparsed & Hget).
    rewrite Hparsed in Hv.
    destruct (Js.strictEqStr c cat) eqn:Heq; [|contradiction].
    destruct Hv as [<-|[]]. apply strictEqStr_inv in Heq. congruence.
  - destruct (parsedRecord e); contradiction.
Qed.

(** In a clean store the records collected for a category are as many
    as the record files filed under it. *)
Lemma collected_length (c : ErrorCategory) (es : list Entry) :
  (forall e, In e es -> isLogFile (file_name e) = true ->
             exists c', categoryValue e = Some (Js.JStr (categoryName c'))) ->
  Z.of_nat (length (collected (categoryName c) es))
  = howMany (filedUnder (categoryName c)) es.
Proof.
  induction es as [|e rest IH]; intros Hclean; [reflexivity|].
  rewrite howMany_cons, <- IH by (intros e' He'; apply Hclean; now right).
  unfold collected. cbn [flat_map]. rewrite length_app.
  fold (collected (categoryName c) rest).
  unfold filedUnder, categoryKey.
  destruct (isLogFile (file_name e)) eqn:Hlog;
    [|cbn [andb indicator length]; lia].
  destruct (Hclean e (or_introl eq_refl) Hlog) as [c' Hc'].
  destruct (categoryValue_parsed e _ Hc') as (v & Hv & _).
  rewrite Hv, Hc'. cbn [Js.strictEqStr Js.toString andb].
  destruct (String.eqb (categoryName c') (categoryName c));
    cbn [indicator length]; lia.
Qed.


(** *** Reports after a run of [reportError] calls *)

Lemma substring_all (s : string) : substring 0 (String.length s) s = s.
Proof. induction s as [|c s IH]; simpl; [reflexivity | now rewrite IH]. Qed.

Lemma substring_skip (s t : string) (m : nat) :
  substring (String.length s) m (s ++ t) = substring 0 m t.
Proof. induction s as [|c s IH]; simpl; [reflexivity | exact IH]. Qed.

Lemma endsWith_append (s suffix : string) : Str.endsWith (s ++ suffix) suffix = true.
Proof.
  unfold Str.endsWith. rewrite length_append.
  replace (String.length suffix <=? String.length s + String.length suffix)%nat
    with true by (symmetry; apply Nat.leb_le; lia).
  replace (String.length s + String.length suffix - String.length suffix)%nat
    with (String.length s) by lia.
  rewrite substring_skip, substring_all. apply String.eqb_refl.
Qed.

Lemma append_assoc (a b c : string) : ((a ++ b) ++ c = a ++ b ++ c)%string.
Proof. induction a as [|x a IH]; simpl; [reflexivity | now rewrite IH]. Qed.

Lemma isLogFile_logFileName (c now : Z) : isLogFile (logFileName c now) = true.
Proof.
  unfold isLogFile, logFileName.
  rewrite <- !append_assoc. apply endsWith_append.
Qed.

(** A record that serialises, written under a new name in a directory
    that takes the write, is listed where the file system places it. *)
Lemma persist_fresh (r : ErrorDetails) (now : Z) (d : LogDir) :
  serializable (ed_details r) ->
  dir_writable d (logFileName (ed_code r) now) = true ->
  find (hasName (logFileName (ed_code r) now)) (dir_entries d) = None ->
  persist r now d
  = withEntries d (insertAt (dir_place d (logFileName (ed_code r) now)
                               (map file_name (dir_entries d)))
                            (recordFile r now) (dir_entries d)).
Proof.
  intros Hser Hw Hfresh. unfold persist, recordFile, detailsText, serializable in *.
  rewrite serialize_record, Hw.
  destruct (JSON.serialize (ed_details r)); [congruence | |];
    now rewrite store_fresh.
Qed.

Lemma Permutation_insertAt {A : Type} (n : nat) (x : A) (l : list A) :
  Permutation (insertAt n x l) (l ++ [x]).
Proof.
  unfold insertAt. rewrite <- (firstn_skipn n l) at 3.
  rewrite <- app_assoc. apply Permutation_app_head.
  change (x :: skipn n l) with ([x] ++ skipn n l)%list.
  apply Permutation_app_comm.
Qed.


(** A record file written by the reporter reads back with its category. *)
Lemma categoryValue_recordFile (r : ErrorDetails) (now : Z) :
  categoryValue (recordFile r now) = Some (Js.JStr (categoryName (ed_category r))).
Proof.
  unfold categoryValue, recordFile, recordText.
  destruct (detailsText r), (ed_screenshot r); reflexivity.
Qed.




Lemma howMany_perm {A : Type} (p : A -> bool) (l l' : list A) :
  Permutation l l' -> howMany p l = howMany p l'.
Proof.
  induction 1 as [|x l l' _ IH|x y l|l l' l'' _ IH1 _ IH2].
  - reflexivity.
  - now rewrite !howMany_cons, IH.
  - rewrite !howMany_cons. lia.
  - congruence.
Qed.

(** The directory a run of calls leaves, started from an empty one, is
    a clean store, in whatever order the files are listed. *)
Lemma run_leaves_clean_store (d : LogDir) (calls : list ReportCall) (es : list Entry) :
  Permutation es (map callRecord calls) ->
  dir_listable d = true ->
  NoDup (map callFile calls) ->
  cleanStore (withEntries d es).
Proof.
  intros Hperm Hlist Hnd. split; [exact Hlist|]. split.
  - unfold wfDir. cbn [dir_entries withEntries].
    apply (Permutation_NoDup (l := map file_name (map callRecord calls))).
    + apply Permutation_sym, Permutation_map, Hperm.
    + rewrite map_map. exact Hnd.
  - cbn [dir_entries withEntries]. intros e Hin _.
    apply (Permutation_in _ Hperm) in Hin.
    apply in_map_iff in Hin as (c & <- & _).
    eexists. unfold callRecord. apply categoryValue_recordFile.
Qed.






(** [getErrorsByCategory] never throws and leaves the directory alone;
    it returns the records of the category among the entries listed
    before the first file no category can be read from. *)
Lemma getErrorsByCategory_run (cat : string) (w : World) :
  wfDir (logDir w) ->
  exists lines,
    getErrorsByCategory cat w =
    (Returns (collected cat (readEntries (logDir w))),
     mkWorld (logDir w) (console w ++ lines)).
Proof.
  intros Hwf. unfold getErrorsByCategory, readdirSync, readEntries.
  destruct (dir_listable (logDir w)).
  - destruct (collectLoop_scan cat w (dir_entries (logDir w)) [] (wfDir_find w Hwf))
      as (o & Hloop & _).
    rewrite Hloop. cbn [app]. destruct o.
    + eexists. unfold bind, console_error, ret. reflexivity.
    + exists []. rewrite app_nil_r. destruct w. reflexivity.
  - eexists. unfold bind, console_error, ret. reflexivity.
Qed.

Lemma sort_nonempty (entries : list (string * Js.Count)) :
  entries <> [] -> sort entries <> [].
Proof.
  destruct entries as [|x rest]; [congruence|]. intros _. simpl.
  destruct (sort rest) as [|y sorted]; simpl; [discriminate|].
  destruct (positive (compareFn x y)); discriminate.
Qed.






(** ** Reading a record back *)

Lemma denote_defined (t : JSON.Text) : isUndefined (JSON.denote t) = false.
Proof. destruct t; reflexivity. Qed.

Lemma hasOwn_keys {A : Type} (k : string) (l : list (string * A)) :
  Js.hasOwn k l = existsb (String.eqb k) (map fst l).
Proof.
  unfold Js.hasOwn. induction l as [|[k' v'] l IH]; simpl; [reflexivity|].
  destruct (String.eqb k k'); [reflexivity | exact IH].
Qed.

(** A new key that is listed before none of the keys present is added
    last. *)
Lemma set_fresh {A : Type} (k : string) (v : A) (l : list (string * A)) :
  existsb (String.eqb k) (map fst l) = false ->
  forallb (fun k' => negb (Js.listedBefore k k')) (map fst l) = true ->
  Js.set k v l = (l ++ [(k, v)])%list.
Proof.
  intros Hnew. unfold Js.set. rewrite hasOwn_keys, Hnew. clear Hnew.
  induction l as [|[k' v'] l IH]; simpl; intros H; [reflexivity|].
  apply andb_true_iff in H as [Hk Hl]. apply negb_true_iff in Hk.
  rewrite Hk. now rewrite IH.
Qed.

Lemma existsb_app_false {A : Type} (f : A -> bool) (l1 l2 : list A) :
  existsb f l1 = false -> existsb f l2 = false -> existsb f (l1 ++ l2) = false.
Proof. intros H1 H2. rewrite existsb_app, H1, H2. reflexivity. Qed.

(** Members with distinct names that come in enumeration order are
    assembled as they come. *)
Lemma assemble_distinct (members : list (string * Js.Value)) :
  distinctKeys (map fst members) = true ->
  enumerationOrder (map fst members) = true ->
  JSON.assemble members = members.
Proof.
  unfold JSON.assemble.
  assert (forall acc,
             distinctKeys (map fst members) = true ->
             enumerationOrder (map fst members) = true ->
             (forall k, In k (map fst members) ->
                        existsb (String.eqb k) (map fst acc) = false
                        /\ forallb (fun k' => negb (Js.listedBefore k k')) (map fst acc)
                           = true) ->
             fold_left (fun a kv => Js.set (fst kv) (snd kv) a) members acc
             = (acc ++ members)%list) as H.
  { induction members as [|[k v] rest IH]; intros acc Hd Ho Hacc; simpl.
    - now rewrite app_nil_r.
    - simpl in Hd. apply andb_true_iff in Hd as [Hk Hrest].
      apply negb_true_iff in Hk.
      simpl in Ho. apply andb_true_iff in Ho as [Hafter Horest].
      destruct (Hacc k (or_introl eq_refl)) as [Hnew Hlast].
      rewrite set_fresh by assumption.
      rewrite IH; [now rewrite <- app_assoc | exact Hrest | exact Horest |].
      intros k' Hk'. destruct (Hacc k' (or_intror Hk')) as [Hnew' Hlast'].
      rewrite map_app. split.
      + apply existsb_app_false; [exact Hnew'|].
        simpl. rewrite orb_false_r.
        destruct (String.eqb k' k) eqn:E; [|reflexivity].
        apply String.eqb_eq in E. subst k'.
        assert (existsb (String.eqb k) (map fst rest) = true) as Hex.
        { apply existsb_exists. exists k. split; [exact Hk' | apply String.eqb_refl]. }
        congruence.
      + rewrite forallb_app, Hlast'. simpl. rewrite andb_true_r.
        rewrite forallb_forall in Hafter. now apply Hafter. }
  intros Hd Ho. apply (H [] Hd Ho). intros k _. split; reflexivity.
Qed.

Lemma dropUndefined_defined (v : Js.Value) :
  isUndefined (dropUndefined v) = isUndefined v.
Proof. destruct v; reflexivity. Qed.

(** The elements of a representable array print and read back. *)
Lemma roundtrip_items (items : list Js.Value) :
  Forall (fun x => representable x = true ->
                   exists t, JSON.serialize x = JSON.Printed t
                             /\ dropUndefined (JSON.denote t) = dropUndefined x) items ->
  forallb representable items = true ->
  exists ts, JSON.arrayTexts (map JSON.serialize items) = Some ts
             /\ map dropUndefined (map JSON.denote ts) = map dropUndefined items.
Proof.
  induction 1 as [|x rest Hx _ IH]; intros Hall.
  - exists []. split; reflexivity.
  - simpl in Hall. apply andb_true_iff in Hall as [Hrep Hrest].
    destruct (Hx Hrep) as (t & Ht & Hback).
    destruct (IH Hrest) as (ts & Hts & Hbacks).
    exists (t :: ts). cbn [map JSON.arrayTexts]. rewrite Ht, Hts.
    split; [reflexivity|]. now rewrite Hback, Hbacks.
Qed.

(** The properties of a representable object print and read back; the
    ones that hold [undefined] are left out on both sides. *)
Lemma roundtrip_props (props : list (string * Js.Value)) :
  Forall (fun kx => representable (snd kx) = true ->
                    exists t, JSON.serialize (snd kx) = JSON.Printed t
                              /\ dropUndefined (JSON.denote t) = dropUndefined (snd kx))
         props ->
  forallb (fun kx => isUndefined (snd kx) || representable (snd kx)) props = true ->
  exists ms,
    JSON.memberTexts (map (fun kx => (fst kx, JSON.serialize (snd kx))) props) = Some ms
    /\ (forall k, existsb (String.eqb k) (map fst props) = false ->
                  existsb (String.eqb k) (map fst ms) = false)
    /\ (distinctKeys (map fst props) = true -> distinctKeys (map fst ms) = true)
    /\ (forall p, forallb p (map fst props) = true -> forallb p (map fst ms) = true)
    /\ (enumerationOrder (map fst props) = true -> enumerationOrder (map fst ms) = true)
    /\ filter (fun kx => negb (isUndefined (snd kx)))
              (map (fun kx => (fst kx, dropUndefined (snd kx)))
                   (map (fun kx => (fst kx, JSON.denote (snd kx))) ms))
       = filter (fun kx => negb (isUndefined (snd kx)))
                (map (fun kx => (fst kx, dropUndefined (snd kx))) props).
Proof.
  induction 1 as [|[k x] rest Hx _ IH]; intros Hall.
  - exists []. repeat split; reflexivity.
  - cbn [forallb snd] in Hall. apply andb_true_iff in Hall as [Hok Hrest].
    destruct (IH Hrest) as (ms & Hms & Hkeys & Hdistinct & Hsub & Horder & Hback).
    cbn [map fst snd JSON.memberTexts].
    destruct (isUndefined x) eqn:Hundef.
    + destruct x; try discriminate. cbn [JSON.serialize]. rewrite Hms.
      exists ms. split; [reflexivity|]. split; [|split; [|split; [|split]]].
      * intros k0 Hk0. simpl in Hk0. apply orb_false_iff in Hk0 as [_ Hk0].
        now apply Hkeys.
      * intros Hd. simpl in Hd. apply andb_true_iff in Hd as [_ Hd]. now apply Hdistinct.
      * intros p Hp. simpl in Hp. apply andb_true_iff in Hp as [_ Hp]. now apply Hsub.
      * intros Ho. simpl in Ho. apply andb_true_iff in Ho as [_ Ho]. now apply Horder.
      * simpl. exact Hback.
    + simpl in Hok. cbn [snd] in Hx. destruct (Hx Hok) as (t & Ht & Hbackx).
      rewrite Ht, Hms.
      exists ((k, t) :: ms). split; [reflexivity|]. split; [|split; [|split; [|split]]].
      * intros k0 Hk0. simpl in *. apply orb_false_iff in Hk0 as [Hk Hk0].
        rewrite Hk. now apply Hkeys.
      * intros Hd. simpl in *. apply andb_true_iff in Hd as [Hk Hd].
        apply negb_true_iff in Hk. rewrite (Hkeys k Hk). now rewrite Hdistinct.
      * intros p Hp. simpl in *. apply andb_true_iff in Hp as [Hk Hp].
        rewrite Hk. now apply Hsub.
      * intros Ho. simpl in *. apply andb_true_iff in Ho as [Hk Ho].
        rewrite (Hsub _ Hk). now apply Horder.
      * cbn [map filter fst snd].
        rewrite !dropUndefined_defined, denote_defined, Hundef. cbn [negb].
        now rewrite Hbackx, Hback.
Qed.

Lemma map_fst_denote (ms : list (string * JSON.Text)) :
  map fst (map (fun kx => (fst kx, JSON.denote (snd kx))) ms) = map fst ms.
Proof. rewrite map_map. reflexivity. Qed.

(** A representable value prints, and the text read back is deep-equal
    to it. *)
Lemma roundtrip (v : Js.Value) :
  representable v = true ->
  exists t, JSON.serialize v = JSON.Printed t
            /\ dropUndefined (JSON.denote t) = dropUndefined v.
Proof.
  induction v as [| |b|n|s|items IH|props IH| |] using Value_nested_ind;
    intros Hrep; try discriminate.
  - eexists; split; reflexivity.
  - eexists; split; reflexivity.
  - destruct n; try discriminate; eexists; split; reflexivity.
  - eexists; split; reflexivity.
  - destruct (roundtrip_items items IH Hrep) as (ts & Hts & Hback).
    exists (JSON.TArr ts). cbn [JSON.serialize]. rewrite Hts.
    split; [reflexivity|]. cbn [JSON.denote dropUndefined]. now rewrite Hback.
  - cbn [representable] in Hrep. apply andb_true_iff in Hrep as [Hd Hall].
    apply andb_true_iff in Hd as [Hd Ho].
    destruct (roundtrip_props props IH Hall)
      as (ms & Hms & _ & Hdistinct & _ & Horder & Hback).
    exists (JSON.TObj ms). cbn [JSON.serialize]. rewrite Hms.
    split; [reflexivity|]. cbn [JSON.denote dropUndefined].
    rewrite assemble_distinct;
      [now rewrite Hback
      | rewrite map_fst_denote; now apply Hdistinct
      | rewrite map_fst_denote; now apply Horder].
Qed.

Lemma representable_record (r : ErrorDetails) :
  representableDetails (ed_details r) = true ->
  representable (ErrorDetails_object r) = true.
Proof.
  intros H. destruct r as [c cat m t d loc shot ts].
  unfold ErrorDetails_object. cbn [representable map fst snd forallb ed_code
    ed_category ed_message ed_title ed_details ed_location ed_screenshot
    ed_timestamp isUndefined exactNumber orb andb] in *.
  unfold representableDetails in H. rewrite H.
  destruct shot; reflexivity.
Qed.

Lemma representable_serializable (d : Js.Value) :
  representableDetails d = true -> serializable d.
Proof.
  unfold representableDetails, serializable. intros H.
  destruct (isUndefined d) eqn:Hu.
  - destruct d; discriminate.
  - simpl in H. destruct (roundtrip d H) as (t & Ht & _). rewrite Ht. discriminate.
Qed.

(** C5, as stated, fails: JSON has no text for a number that is not
    finite, so it is written as [null] and the record read back
    differs from the one returned. *)
Lemma reportError_record_not_read_back_equal :
  ~ (forall (this : Instance) (errorCode : ErrorCodeEntry) (details : Js.Value)
            (screenshotName : option string) (clock : Clock) (w w' : World)
            (r : ErrorDetails) (v : Js.Value),
        reportError this errorCode details screenshotName clock w = (Returns r, w') ->
        readLog (logFileName (ed_code r) (msNow clock)) w' = (Returns v, w') ->
        deepEqual v (ErrorDetails_object r)).
Proof.
  intros H.
  specialize (H Sample.withPage ERROR_PERFORMANCE_THRESHOLD Sample.ratioDetails
                None Sample.clock Sample.fresh _ _ _ eq_refl eq_refl).
  unfold deepEqual in H. vm_compute in H. discriminate H.
Qed.

(** C5, amended. For every record that [reportError] persisted (the
    log directory took the write) and whose details are absent or hold
    only values JSON represents exactly (null, booleans, finite
    numbers other than negative zero, strings, arrays of such values,
    objects whose properties hold such values or [undefined]), reading
    the written log file back and deserialising it yields an object
    deep-equal to the record [reportError] returned. *)
Theorem reportError_record_reads_back_deep_equal :
  forall (this : Instance) (errorCode : ErrorCodeEntry) (details : Js.Value)
         (screenshotName : option string) (clock : Clock) (w : World),
    representableDetails details = true ->
    dir_writable (logDir w) (logFileName (code errorCode) (msNow clock)) = true ->
    exists (r : ErrorDetails) (w' : World) (v : Js.Value),
      reportError this errorCode details screenshotName clock w = (Returns r, w')
      /\ readLog (logFileName (ed_code r) (msNow clock)) w' = (Returns v, w')
      /\ deepEqual v (ErrorDetails_object r).
Proof.
  intros this errorCode details screenshotName clock w Hrep Hw.
  destruct (reportError_run this errorCode details screenshotName clock w
              (representable_serializable details Hrep)) as [lines Hrun].
  set (r := expectedRecord this errorCode details screenshotName clock) in *.
  destruct (roundtrip (ErrorDetails_object r) (representable_record r Hrep))
    as (t & Ht & Hback).
  exists r. eexists. exists (JSON.denote t).
  split; [exact Hrun|]. split; [|exact Hback].
  unfold readLog, bind, readFileSync. cbn [logDir].
  unfold persist. rewrite Ht.
  change (ed_code r) with (code errorCode). rewrite Hw.
  cbn [dir_entries withEntries].
  destruct (find_store_same (dir_place (logDir w))
              (logFileName (code errorCode) (msNow clock))
              (JsonText t) (msNow clock) (dir_entries (logDir w)))
    as (e & Hfind & Hread & _).
  rewrite Hfind, Hread. reflexivity.
Qed.

Lemma reportError_record_reads_back_witness :
  representableDetails Sample.timeoutDetails = true
  /\ dir_writable (logDir Sample.fresh)
       (logFileName (code ERROR_NETWORK_TIMEOUT) (msNow Sample.clock)) = true
  /\ exists (r : ErrorDetails) (w' : World) (v : Js.Value),
       reportError Sample.withClosedPage ERROR_NETWORK_TIMEOUT Sample.timeoutDetails
                   None Sample.clock Sample.fresh = (Returns r, w')
       /\ readLog (logFileName (ed_code r) (msNow Sample.clock)) w' = (Returns v, w')
       /\ deepEqual v (ErrorDetails_object r).
Proof.
  split; [reflexivity|]. split; [reflexivity|].
  apply (reportError_record_reads_back_deep_equal
           Sample.withClosedPage ERROR_NETWORK_TIMEOUT Sample.timeoutDetails
           None Sample.clock Sample.fresh); reflexivity.
Defined.

(** Negative zero is written as [0]: the record read back holds the
    positive zero, which is another number. *)
Example reportError_negative_zero_reads_back_as_zero :
  exists (r : ErrorDetails) (w' : World) (v : Js.Value),
    reportError Sample.withPage ERROR_PERFORMANCE_THRESHOLD
                (Js.JNum Js.NegativeZero) None Sample.clock Sample.fresh
    = (Returns r, w')
    /\ readLog (logFileName (ed_code r) (msNow Sample.clock)) w' = (Returns v, w')
    /\ ed_details r = Js.JNum Js.NegativeZero
    /\ Js.optGet v "details" = Js.JNum (Js.Integer 0).
Proof.
  eexists. eexists. eexists.
  split; [vm_compute; reflexivity|].
  split; [vm_compute; reflexivity|]. split; reflexivity.
Qed.

(* ================================================================== *)
(** * Further properties *)

(** ** Record files under one name *)

Lemma store_length_existing (place : string -> list string -> nat) (file : string)
  (c : FileContent) (now : Z) (es : list Entry) (e : Entry) :
  find (hasName file) es = Some e -> length (store place file c now es) = length es.
Proof.
  intros Hfind. rewrite (store_listed place file c now es e Hfind). clear Hfind.
  induction es as [|x rest IH]; simpl; [reflexivity|].
  destruct (hasName file x); simpl; [reflexivity | now rewrite IH].
Qed.

(** What [persist] does when the record serialises and the directory
    takes the write. *)
Lemma persist_written (r : ErrorDetails) (now : Z) (d : LogDir) :
  serializable (ed_details r) ->
  dir_writable d (logFileName (ed_code r) now) = true ->
  persist r now d =
  withEntries d (store (dir_place d) (logFileName (ed_code r) now)
                   (JsonText (recordText r (detailsText r))) now (dir_entries d)).
Proof.
  intros Hser Hw. unfold persist, detailsText, serializable in *.
  rewrite serialize_record, Hw.
  destruct (JSON.serialize (ed_details r)); [congruence | reflexivity | reflexivity].
Qed.

Lemma readLog_stored (place : string -> list string -> nat) (file : string)
  (t : JSON.Text) (now : Z) (d : LogDir) (cons : list ConsoleLine) :
  readLog file
    (mkWorld (withEntries d (store place file (JsonText t) now (dir_entries d))) cons)
  = (Returns (JSON.denote t),
     mkWorld (withEntries d (store place file (JsonText t) now (dir_entries d))) cons).
Proof.
  unfold readLog, bind, readFileSync. cbn [logDir dir_entries withEntries].
  destruct (find_store_same place file (JsonText t) now (dir_entries d))
    as (e & Hfind & Hread & _).
  rewrite Hfind, Hread. reflexivity.
Qed.

(** X1. Two reports of the same code in the same millisecond share one
    log file: the second write replaces the first, the listing does not
    grow, and what is read back is the second record. *)
Theorem reportError_same_code_same_millisecond_overwrites :
  forall (this1 this2 : Instance) (e1 e2 : ErrorCodeEntry) (d1 d2 : Js.Value)
         (n1 n2 : option string) (clock1 clock2 : Clock) (w : World),
    serializable d1 -> serializable d2 ->
    code e1 = code e2 -> msNow clock1 = msNow clock2 ->
    dir_writable (logDir w) (logFileName (code e1) (msNow clock1)) = true ->
    exists (r1 r2 : ErrorDetails) (w1 w2 : World),
      reportError this1 e1 d1 n1 clock1 w = (Returns r1, w1)
      /\ reportError this2 e2 d2 n2 clock2 w1 = (Returns r2, w2)
      /\ length (dir_entries (logDir w2)) = length (dir_entries (logDir w1))
      /\ readLog (logFileName (code e1) (msNow clock1)) w2
         = (Returns (JSON.denote (recordText r2 (detailsText r2))), w2).
Proof.
  intros this1 this2 e1 e2 d1 d2 n1 n2 clock1 clock2 w Hs1 Hs2 Hcode Hms Hw.
  destruct (reportError_run this1 e1 d1 n1 clock1 w Hs1) as [lines1 Hrun1].
  set (r1 := expectedRecord this1 e1 d1 n1 clock1) in *.
  set (w1 := mkWorld _ _) in Hrun1.
  destruct (reportError_run this2 e2 d2 n2 clock2 w1 Hs2) as [lines2 Hrun2].
  set (r2 := expectedRecord this2 e2 d2 n2 clock2) in *.
  exists r1, r2, w1. eexists. split; [exact Hrun1|]. split; [exact Hrun2|].
  assert (logDir w1 = withEntries (logDir w)
                        (store (dir_place (logDir w))
                           (logFileName (code e1) (msNow clock1))
                           (JsonText (recordText r1 (detailsText r1))) (msNow clock1)
                           (dir_entries (logDir w)))) as Hdir1
      by (subst w1; cbn [logDir]; now apply persist_written).
  assert (dir_writable (logDir w1) (logFileName (ed_code r2) (msNow clock2)) = true)
    as Hw2.
  { rewrite Hdir1. cbn [dir_writable withEntries ed_code r2 expectedRecord].
    now rewrite <- Hcode, <- Hms. }
  cbn [logDir]. rewrite (persist_written r2 (msNow clock2) (logDir w1) Hs2 Hw2).
  change (ed_code r2) with (code e2). rewrite <- Hcode, <- Hms.
  split.
  - cbn [dir_entries withEntries]. rewrite Hdir1. cbn [dir_entries withEntries].
    destruct (find_store_same (dir_place (logDir w))
                (logFileName (code e1) (msNow clock1))
                (JsonText (recordText r1 (detailsText r1))) (msNow clock1)
                (dir_entries (logDir w))) as (e & Hfind & _).
    now apply (store_length_existing _ _ _ _ _ e).
  - apply readLog_stored.
Qed.

Lemma reportError_overwrites_witness :
  exists (r1 r2 : ErrorDetails) (w1 w2 : World),
    reportError Sample.withoutPage ERROR_LOCATOR_NOT_FOUND (Js.JStr "first") None
                Sample.clock Sample.fresh = (Returns r1, w1)
    /\ reportError Sample.withoutPage ERROR_LOCATOR_NOT_FOUND (Js.JStr "second") None
                   Sample.clock w1 = (Returns r2, w2)
    /\ length (dir_entries (logDir w2)) = 1%nat
    /\ ed_details r2 = Js.JStr "second".
Proof.
  destruct (reportError_same_code_same_millisecond_overwrites
              Sample.withoutPage Sample.withoutPage
              ERROR_LOCATOR_NOT_FOUND ERROR_LOCATOR_NOT_FOUND
              (Js.JStr "first") (Js.JStr "second") None None
              Sample.clock Sample.clock Sample.fresh)
    as (r1 & r2 & w1 & w2 & Hrun1 & Hrun2 & Hlen & _);
    try reflexivity; try (unfold serializable; simpl; discriminate).
  exists r1, r2, w1, w2. split; [exact Hrun1|]. split; [exact Hrun2|].
  assert (w1 = snd (reportError Sample.withoutPage ERROR_LOCATOR_NOT_FOUND
                      (Js.JStr "first") None Sample.clock Sample.fresh)) as Hw1
      by now rewrite Hrun1.
  assert (r2 = fst (match reportError Sample.withoutPage ERROR_LOCATOR_NOT_FOUND
                      (Js.JStr "second") None Sample.clock w1 with
                    | (Returns r, _) => (r, tt)
                    | (Throws _, _) => (r2, tt)
                    end)) as Hr2 by now rewrite Hrun2.
  split.
  - rewrite Hlen, Hw1. reflexivity.
  - rewrite Hr2, Hw1. reflexivity.
Defined.

(** ** A report, then the scans *)

Lemma find_none_not_in (n : string) (es : list Entry) :
  find (hasName n) es = None -> ~ In n (map file_name es).
Proof.
  induction es as [|e es IH]; simpl; [tauto|].
  destruct (hasName n e) eqn:He; [discriminate|].
  intros Hnone [Heq|Hin]; [|now apply IH].
  unfold hasName in He. rewrite Heq, String.eqb_refl in He. discriminate.
Qed.

Lemma NoDup_names_snoc (es : list Entry) (e : Entry) :
  NoDup (map file_name es) ->
  find (hasName (file_name e)) es = None ->
  NoDup (map file_name (es ++ [e])).
Proof.
  intros Hnd Hfresh. rewrite map_app. cbn [map].
  apply NoDup_app; [exact Hnd | repeat constructor; simpl; tauto |].
  intros n Hin [<-|[]]. now apply (find_none_not_in _ _ Hfresh).
Qed.

Lemma filedUnder_recordFile (c : ErrorCategory) (r : ErrorDetails) (now : Z) :
  filedUnder (categoryName c) (recordFile r now) = ErrorCategory_eqb (ed_category r) c.
Proof.
  unfold filedUnder, categoryKey. rewrite categoryValue_recordFile.
  unfold recordFile. cbn [file_name]. rewrite isLogFile_logFileName.
  destruct (ed_category r), c; reflexivity.
Qed.

Lemma howMany_app {A : Type} (p : A -> bool) (l1 l2 : list A) :
  howMany p (l1 ++ l2)%list = howMany p l1 + howMany p l2.
Proof. unfold howMany. rewrite filter_app, length_app. lia. Qed.

Lemma cleanStore_insert (d : LogDir) (r : ErrorDetails) (now : Z) (n : nat) :
  cleanStore d ->
  find (hasName (logFileName (ed_code r) now)) (dir_entries d) = None ->
  cleanStore (withEntries d (insertAt n (recordFile r now) (dir_entries d))).
Proof.
  intros (Hlist & Hwf & Hclean) Hfresh.
  pose proof (Permutation_insertAt n (recordFile r now) (dir_entries d)) as Hperm.
  split; [exact Hlist|]. split.
  - unfold wfDir. cbn [dir_entries withEntries].
    apply (Permutation_NoDup
             (l := map file_name (dir_entries d ++ [recordFile r now]))).
    + apply Permutation_sym, Permutation_map, Hperm.
    + now apply NoDup_names_snoc.
  - cbn [dir_entries withEntries]. intros e Hin Hlog.
    apply (Permutation_in _ Hperm) in Hin.
    apply in_app_iff in Hin as [Hin|[<-|[]]]; [now apply Hclean|].
    eexists. apply categoryValue_recordFile.
Qed.

Lemma ErrorCategory_eqb_refl (c : ErrorCategory) : ErrorCategory_eqb c c = true.
Proof. destruct c; reflexivity. Qed.

Lemma collected_recordFile (r : ErrorDetails) (now : Z) :
  collected (categoryName (ed_category r)) [recordFile r now]
  = [JSON.denote (recordText r (detailsText r))].
Proof.
  unfold collected. cbn [flat_map]. rewrite categoryValue_recordFile.
  unfold recordFile at 1. cbn [file_name]. rewrite isLogFile_logFileName.
  unfold parsedRecord, recordFile. cbn [file_read JSON_parse Js.strictEqStr].
  now rewrite String.eqb_refl.
Qed.

(** X2. A report whose details serialise, written under a new name into
    a store of well-formed records, is seen by both scans right after:
    the count of its category is one more, every other count is as
    before, and the records of its category are the earlier ones, in
    their order, with the parsed new record among them, at the place
    where the file system lists its file. *)
Theorem reportError_is_counted_and_collected :
  forall (this : Instance) (errorCode : ErrorCodeEntry) (details : Js.Value)
         (screenshotName : option string) (clock : Clock) (w : World),
    cleanStore (logDir w) ->
    serializable details ->
    dir_writable (logDir w) (logFileName (code errorCode) (msNow clock)) = true ->
    find (hasName (logFileName (code errorCode) (msNow clock)))
         (dir_entries (logDir w)) = None ->
    exists (before after : Stats) (front back : list Js.Value)
           (r : ErrorDetails) (w1 : World),
      getErrorStatistics w = (Returns before, w)
      /\ getErrorsByCategory (categoryName (category errorCode)) w
         = (Returns (front ++ back)%list, w)
      /\ reportError this errorCode details screenshotName clock w = (Returns r, w1)
      /\ getErrorStatistics w1 = (Returns after, w1)
      /\ (forall c, countOf after c
                    = countOf before c
                      + indicator (ErrorCategory_eqb (category errorCode) c))
      /\ getErrorsByCategory (categoryName (category errorCode)) w1
         = (Returns (front ++ JSON.denote (recordText r (detailsText r)) :: back)%list,
            w1).
Proof.
  intros this errorCode details screenshotName clock w Hclean Hser Hw Hfresh.
  destruct (reportError_run this errorCode details screenshotName clock w Hser)
    as [lines Hrun].
  set (r := expectedRecord this errorCode details screenshotName clock) in *.
  set (w1 := mkWorld _ _) in Hrun.
  set (n := dir_place (logDir w) (logFileName (code errorCode) (msNow clock))
              (map file_name (dir_entries (logDir w)))).
  assert (logDir w1 = withEntries (logDir w)
                        (insertAt n (recordFile r (msNow clock)) (dir_entries (logDir w))))
    as Hdir by (subst w1; cbn [logDir]; now apply persist_fresh).
  assert (cleanStore (logDir w1)) as Hclean1
      by (rewrite Hdir; now apply cleanStore_insert).
  set (cat := categoryName (category errorCode)).
  exists (statsFrom (fun c => howMany (filedUnder (categoryName c))
                                      (dir_entries (logDir w)))),
         (statsFrom (fun c => howMany (filedUnder (categoryName c))
                                      (dir_entries (logDir w1)))),
         (collected cat (firstn n (dir_entries (logDir w)))),
         (collected cat (skipn n (dir_entries (logDir w)))), r, w1.
  split; [now apply getErrorStatistics_clean|].
  split.
  { rewrite (getErrorsByCategory_clean _ w Hclean). f_equal. f_equal.
    unfold collected. rewrite <- flat_map_app, firstn_skipn. reflexivity. }
  split; [exact Hrun|].
  split; [now apply getErrorStatistics_clean|].
  split.
  - intros c. rewrite !countOf_statsFrom, Hdir. cbn [dir_entries withEntries].
    rewrite (howMany_perm _ _ _ (Permutation_insertAt n _ _)).
    rewrite howMany_app, howMany_cons, filedUnder_recordFile.
    subst r. cbn [ed_category expectedRecord].
    change (howMany (filedUnder (categoryName c)) []) with 0. lia.
  - rewrite (getErrorsByCategory_clean _ w1 Hclean1). f_equal. f_equal.
    rewrite Hdir. cbn [dir_entries withEntries]. unfold insertAt.
    unfold collected at 1. rewrite flat_map_app. cbn [flat_map].
    fold (collected cat (firstn n (dir_entries (logDir w)))).
    fold (collected cat (skipn n (dir_entries (logDir w)))).
    f_equal.
    change (?x :: ?l) with ([x] ++ l)%list. f_equal.
    pose proof (collected_recordFile r (msNow clock)) as Hone.
    unfold collected in Hone. cbn [flat_map] in Hone. rewrite app_nil_r in Hone.
    exact Hone.
Qed.

Lemma reportError_is_counted_witness :
  exists (after : Stats) (r : ErrorDetails) (w1 : World),
    reportError Sample.withoutPage ERROR_LOCATOR_NOT_FOUND Sample.timeoutDetails None
                Sample.clock Sample.fresh = (Returns r, w1)
    /\ getErrorStatistics w1 = (Returns after, w1)
    /\ countOf after (category ERROR_LOCATOR_NOT_FOUND) = 1
    /\ length (fst (match getErrorsByCategory
                            (categoryName (category ERROR_LOCATOR_NOT_FOUND)) w1 with
                    | (Returns l, _) => (l, tt)
                    | (Throws _, _) => ([], tt)
                    end)) = 1%nat.
Proof.
  assert (cleanStore (logDir Sample.fresh)) as Hclean.
  { split; [reflexivity|]. split; [constructor|]. intros e []. }
  destruct (reportError_is_counted_and_collected
              Sample.withoutPage ERROR_LOCATOR_NOT_FOUND Sample.timeoutDetails None
              Sample.clock Sample.fresh Hclean)
    as (before & after & front & back & r & w1 & Hb & He & Hrun & Ha & Hcount & Hcoll);
    try reflexivity; try (unfold serializable; simpl; discriminate).
  exists after, r, w1. split; [exact Hrun|]. split; [exact Ha|]. split.
  - rewrite Hcount.
    assert (before = fst (match getErrorStatistics Sample.fresh with
                          | (Returns s, _) => (s, tt)
                          | (Throws _, _) => (before, tt)
                          end)) as -> by now rewrite Hb.
    reflexivity.
  - rewrite Hcoll. cbn [fst]. rewrite length_app. cbn [length].
    assert ((front ++ back)%list
            = fst (match getErrorsByCategory
                           (categoryName (category ERROR_LOCATOR_NOT_FOUND))
                           Sample.fresh with
                   | (Returns l, _) => (l, tt)
                   | (Throws _, _) => ([], tt)
                   end)) as Hnone by now rewrite He.
    apply (f_equal (@length Js.Value)) in Hnone.
    rewrite length_app in Hnone. cbn in Hnone. lia.
Defined.

(** ** Details that do not serialise *)

Lemma rejected_truthy (v : Js.Value) :
  JSON.serialize v = JSON.Rejected -> Js.truthy v = true.
Proof.
  destruct v as [| |b|n|s|items|props| |]; simpl; try discriminate; try reflexivity.
  destruct n; discriminate.
Qed.

(** What one report does for details that [JSON.stringify] rejects: the
    TypeError of the console line leaves it, before the headline is
    printed and before the log file is written. *)
Lemma reportError_rejected_run (this : Instance) (errorCode : ErrorCodeEntry)
  (details : Js.Value) (screenshotName : option string) (clock : Clock)
  (w : World) :
  JSON.serialize details = JSON.Rejected ->
  exists lines,
    reportError this errorCode details screenshotName clock w =
    (Throws (plainError "Converting circular structure to JSON"),
     mkWorld (logDir w) (console w ++ lines))
    /\ forall line, In line lines -> fst line = "Failed to capture error screenshot:".
Proof.
  intros Hrej.
  assert (forall (r : ErrorDetails) (w1 : World),
             (detailsLine <-
                (if Js.truthy details
                 then (s <- stringifyToString details ;;
                       ret (newline ++ "Details: " ++ s))
                 else ret "") ;;
              console_error (reportHeadline errorCode) (ArgText detailsLine) ;;;
              logErrorToFile (msNow clock) r ;;;
              ret r) w1
             = (Throws (plainError "Converting circular structure to JSON"),
                w1)) as Htail.
  { intros r w1. rewrite (rejected_truthy _ Hrej).
    unfold bind at 1. unfold stringifyToString, bind, lift, JSON_stringify.
    now rewrite Hrej. }
  unfold reportError, getCurrentPageInfo.
  destruct (page this) as [p|] eqn:Hpage.
  - unfold bind at 1. unfold try_catch at 1. unfold bind at 1.
    unfold try_catch at 1. unfold lift at 1.
    destruct (page_title p) as [t|e] eqn:Htitle; simpl ret.
    + unfold ret at 1. unfold bind at 1. unfold try_catch at 1.
      unfold bind at 1. unfold lift at 1.
      match goal with
      | |- context [page_screenshot p ?path] =>
          destruct (page_screenshot p path) as [[]|e] eqn:Hshot
      end.
      * unfold ret at 1. rewrite Htail. exists []. rewrite app_nil_r.
        split; [now destruct w | intros line []].
      * unfold bind at 1. unfold console_error at 1. unfold ret at 1.
        rewrite Htail. eexists. split; [reflexivity|].
        intros line [<-|[]]. reflexivity.
    + unfold ret at 1. unfold ret at 1. unfold bind at 1. unfold try_catch at 1.
      unfold bind at 1. unfold lift at 1.
      match goal with
      | |- context [page_screenshot p ?path] =>
          destruct (page_screenshot p path) as [[]|e'] eqn:Hshot
      end.
      * unfold ret at 1. rewrite Htail. exists []. rewrite app_nil_r.
        split; [now destruct w | intros line []].
      * unfold bind at 1. unfold console_error at 1. unfold ret at 1.
        rewrite Htail. eexists. split; [reflexivity|].
        intros line [<-|[]]. reflexivity.
  - unfold bind at 1. unfold try_catch at 1. unfold throw at 1. unfold ret at 1.
    unfold bind at 1. unfold try_catch at 1. unfold ret at 1.
    rewrite Htail. exists []. rewrite app_nil_r.
    split; [now destruct w | intros line []].
Qed.

(** X3. When [JSON.stringify] rejects the details (a structure that
    refers to itself), [reportError] and [handleError], in either mode,
    throw the bare TypeError: it carries no code and no category, no
    headline is printed and the log directory is left as it was. *)
Theorem unserializable_details_escape_unclassified :
  forall (this : Instance) (errorCode : ErrorCodeEntry) (details : Js.Value)
         (screenshotName : option string) (throwError : bool) (clock : Clock)
         (w : World),
    JSON.serialize details = JSON.Rejected ->
    exists (thrown : JsError) (w1 w2 : World),
      reportError this errorCode details screenshotName clock w = (Throws thrown, w1)
      /\ handleError this errorCode details throwError clock w = (Throws thrown, w2)
      /\ err_code thrown = None /\ err_category thrown = None
      /\ logDir w1 = logDir w /\ logDir w2 = logDir w
      /\ (forall line, In line (console w1) ->
                       In line (console w)
                       \/ fst line = "Failed to capture error screenshot:").
Proof.
  intros this errorCode details screenshotName throwError clock w Hrej.
  destruct (reportError_rejected_run this errorCode details screenshotName clock w Hrej)
    as (lines1 & Hrun1 & Hlines1).
  destruct (reportError_rejected_run this errorCode details None clock w Hrej)
    as (lines2 & Hrun2 & _).
  eexists _, _, _. split; [exact Hrun1|]. split.
  - unfold handleError, bind. rewrite Hrun2. reflexivity.
  - repeat split. cbn [console]. intros line Hin.
    apply in_app_iff in Hin as [Hin|Hin]; [now left | right; now apply Hlines1].
Qed.

Lemma unserializable_details_witness :
  exists (thrown : JsError) (w1 w2 : World),
    reportError Sample.withPage ERROR_UNKNOWN Js.JCyclic None Sample.clock Sample.fresh
    = (Throws thrown, w1)
    /\ handleError Sample.withPage ERROR_UNKNOWN Js.JCyclic false Sample.clock Sample.fresh
       = (Throws thrown, w2)
    /\ err_code thrown = None
    /\ logDir w1 = Sample.emptyDir.
Proof.
  destruct (unserializable_details_escape_unclassified
              Sample.withPage ERROR_UNKNOWN Js.JCyclic None false Sample.clock
              Sample.fresh eq_refl)
    as (thrown & w1 & w2 & Hrun1 & Hrun2 & Hcode & _ & Hdir & _).
  exists thrown, w1, w2. repeat split; assumption.
Defined.

(** ** Printed numbers and file names *)

Lemma to_int_proper (z : Z) :
  Z.to_int z <> Decimal.Pos Decimal.Nil /\ Z.to_int z <> Decimal.Neg Decimal.Nil.
Proof.
  destruct z as [|p|p]; simpl; split; try discriminate;
    intros H; injection H as H; now apply DecimalPos.Unsigned.to_uint_nonnil in H.
Qed.

Lemma ofZ_injective (a b : Z) : Str.ofZ a = Str.ofZ b -> a = b.
Proof.
  unfold Str.ofZ. intros H.
  destruct (to_int_proper a) as [Ha1 Ha2], (to_int_proper b) as [Hb1 Hb2].
  pose proof (NilZero.isi _ Ha1 Ha2) as Hia.
  pose proof (NilZero.isi _ Hb1 Hb2) as Hib.
  rewrite H, Hib in Hia. injection Hia as Hab.
  rewrite <- (DecimalZ.of_to a), <- (DecimalZ.of_to b). now rewrite Hab.
Qed.

(** The characters of a printed number are digits, after an optional
    minus sign. *)
Lemma digits_only (d : Decimal.uint) (c : ascii) :
  In c (list_ascii_of_string (NilEmpty.string_of_uint d)) ->
  (48 <= nat_of_ascii c <= 57)%nat.
Proof.
  induction d; simpl; try tauto;
    (intros [<-|Hin]; [vm_compute; split; lia | now apply IHd]).
Qed.

Lemma ofZ_chars (z : Z) (c : ascii) :
  In c (list_ascii_of_string (Str.ofZ z)) ->
  (48 <= nat_of_ascii c <= 57)%nat \/ c = "-"%char.
Proof.
  assert (forall d, In c (list_ascii_of_string (NilZero.string_of_uint d)) ->
                    (48 <= nat_of_ascii c <= 57)%nat) as Hu.
  { intros d. unfold NilZero.string_of_uint.
    destruct d; try apply digits_only.
    simpl. intros [<-|[]]. vm_compute. split; lia. }
  unfold Str.ofZ, NilZero.string_of_int.
  destruct (Z.to_int z) as [d|d].
  - intros Hin. left. now apply (Hu d).
  - simpl. intros [<-|Hin]; [now right | left; now apply (Hu d)].
Qed.

Lemma ofZ_nonempty (z : Z) : Str.ofZ z <> "".
Proof.
  unfold Str.ofZ.
  destruct (to_int_proper z) as [H1 H2].
  destruct (Z.to_int z) as [d|d]; simpl; [|discriminate].
  destruct d; simpl; discriminate.
Qed.

(** A separator that occurs in neither head splits in one way only. *)
Lemma split_at_separator (sep : ascii) (a1 a2 r1 r2 : string) :
  ~ In sep (list_ascii_of_string a1) ->
  ~ In sep (list_ascii_of_string a2) ->
  a1 ++ String sep r1 = a2 ++ String sep r2 ->
  a1 = a2 /\ r1 = r2.
Proof.
  revert a2. induction a1 as [|c a1 IH]; intros [|c2 a2] H1 H2 Heq; simpl in *.
  - injection Heq as ->. now split.
  - injection Heq as <- _. exfalso. apply H2. now left.
  - injection Heq as -> _. exfalso. apply H1. now left.
  - injection Heq as -> Heq.
    destruct (IH a2) as [-> ->]; auto.
Qed.

Lemma ofZ_lacks (z : Z) (c : ascii) :
  (nat_of_ascii c < 48 \/ 57 < nat_of_ascii c)%nat -> c <> "-"%char ->
  ~ In c (list_ascii_of_string (Str.ofZ z)).
Proof.
  intros Hrange Hminus Hin. destruct (ofZ_chars z c Hin) as [H|H]; [lia | contradiction].
Qed.

Lemma logFileName_inj (code1 now1 code2 now2 : Z) :
  logFileName code1 now1 = logFileName code2 now2 -> code1 = code2 /\ now1 = now2.
Proof.
  unfold logFileName. intros H.
  change ("error_" ++ Str.ofZ code1 ++ "_" ++ Str.ofZ now1 ++ ".json")
    with ("error_" ++ (Str.ofZ code1 ++ String "_" (Str.ofZ now1 ++ String "." "json"))) in H.
  change ("error_" ++ Str.ofZ code2 ++ "_" ++ Str.ofZ now2 ++ ".json")
    with ("error_" ++ (Str.ofZ code2 ++ String "_" (Str.ofZ now2 ++ String "." "json"))) in H.
  simpl in H. injection H as H.
  apply split_at_separator in H as [Hc Hn];
    try (apply ofZ_lacks; [vm_compute; lia | discriminate]).
  apply split_at_separator in Hn as [Hn _];
    try (apply ofZ_lacks; [vm_compute; lia | discriminate]).
  split; now apply ofZ_injective.
Qed.

(** X4. Two record files have the same name only when they are written
    for the same numeric code in the same millisecond: the name of a
    record file determines both. *)
Theorem logFileName_determines_code_and_time :
  forall (code1 now1 code2 now2 : Z),
    logFileName code1 now1 = logFileName code2 now2
    <-> code1 = code2 /\ now1 = now2.
Proof.
  intros code1 now1 code2 now2. split; [apply logFileName_inj|].
  intros [-> ->]. reflexivity.
Qed.

(** ** The message of the synthetic error *)

Lemma eqb_empty_false (s : string) : s <> "" -> String.eqb s "" = false.
Proof. intros H. now apply String.eqb_neq. Qed.

(** X5. The message of the error [handleError] throws is the bracketed
    code, the title and the catalog message, followed by a colon and a
    detail part. When the details hold a truthy [message] property
    that converts to a string, the detail part is that string. When
    they hold none and print as JSON, it is their JSON text, for falsy
    payloads such as [0], [false], [null] and the empty string too.
    When [JSON.stringify] gives [undefined] for them (as it does for
    [undefined] and for a symbol), the message stops after the catalog
    message. *)
Theorem handleError_message_detail_part :
  forall (this : Instance) (errorCode : ErrorCodeEntry) (details : Js.Value)
         (clock : Clock) (w : World),
    serializable details ->
    let base := "[ERROR " ++ Str.ofZ (code errorCode) ++ "] " ++ title errorCode
                ++ ": " ++ message errorCode in
    exists (thrown : JsError) (w' : World),
      handleError this errorCode details true clock w = (Throws thrown, w')
      /\ (forall text,
             Js.truthy (Js.optGet details "message") = true ->
             Js.toString (Js.optGet details "message") = Js.Text text ->
             err_message thrown = base ++ ": " ++ text)
      /\ (forall t,
             Js.truthy (Js.optGet details "message") = false ->
             JSON.serialize details = JSON.Printed t ->
             JSON.render t <> "" ->
             err_message thrown = base ++ ": " ++ JSON.render t)
      /\ (JSON.serialize details = JSON.Omitted -> err_message thrown = base).
Proof.
  intros this errorCode details clock w Hser base.
  destruct (handleError_run this errorCode details clock w Hser)
    as [(w' & Hrun & _) _].
  eexists _, w'. split; [exact Hrun|].
  unfold thrownBy, messageFromDetails, createError.
  split; [|split].
  - intros text Htruthy Htext. rewrite Htruthy, Htruthy, Htext.
    cbn [classified err_message]. subst base. now rewrite <- !append_assoc.
  - intros t Hfalsy Ht Hsome. rewrite Hfalsy, Ht.
    cbn [Js.truthy Js.toString]. rewrite (eqb_empty_false _ Hsome).
    cbn [negb classified err_message]. subst base. now rewrite <- !append_assoc.
  - intros Hnone.
    assert (details = Js.JUndefined \/ details = Js.JSymbol) as Hwhich.
    { destruct details as [| |b|n|s|items|props| |]; cbn [JSON.serialize] in Hnone;
        try discriminate; try (now left); try (now right).
      - destruct n as [z| |text| |negative]; discriminate.
      - destruct (JSON.arrayTexts _); discriminate.
      - destruct (JSON.memberTexts _); discriminate. }
    destruct Hwhich as [-> | ->]; reflexivity.
Qed.

Lemma handleError_message_witness :
  exists (thrown : JsError) (w' : World),
    handleError Sample.withPage ERROR_NETWORK_TIMEOUT (Js.JNum (Js.Integer 0)) true
                Sample.clock Sample.fresh = (Throws thrown, w')
    /\ err_message thrown
       = "[ERROR " ++ Str.ofZ (code ERROR_NETWORK_TIMEOUT) ++ "] " ++ title ERROR_NETWORK_TIMEOUT
         ++ ": " ++ message ERROR_NETWORK_TIMEOUT ++ ": 0".
Proof.
  assert (serializable (Js.JNum (Js.Integer 0))) as Hser
      by (unfold serializable; simpl; discriminate).
  destruct (handleError_message_detail_part
              Sample.withPage ERROR_NETWORK_TIMEOUT (Js.JNum (Js.Integer 0))
              Sample.clock Sample.fresh Hser)
    as (thrown & w' & Hrun & _ & Hpart & _).
  exists thrown, w'. split; [exact Hrun|].
  rewrite (Hpart (JSON.TNum (Js.Integer 0))); [reflexivity | reflexivity | reflexivity |].
  discriminate.
Defined.

(** ** A record outside the eleven categories *)

Lemma filedUnder_inv (k : string) (e : Entry) :
  filedUnder k e = true -> isLogFile (file_name e) = true /\ categoryKey e = Some k.
Proof.
  unfold filedUnder. destruct (isLogFile (file_name e)); [|discriminate].
  destruct (categoryKey e) as [k'|]; [|discriminate].
  simpl. intros H. apply String.eqb_eq in H. now subst.
Qed.

Lemma scanned_key (k : string) (e : Entry) (es : list Entry) :
  In e (takeWhile (fun e => negb (malformed e)) es) ->
  filedUnder k e = true ->
  In k (scanKeys es).
Proof.
  intros Hin Hfiled. apply filedUnder_inv in Hfiled as [Hlog Hkey].
  induction es as [|x rest IH]; [contradiction|].
  cbn [takeWhile scanKeys] in *. unfold malformed in Hin.
  destruct (isLogFile (file_name x)) eqn:Hx.
  - destruct (categoryKey x) as [kx|] eqn:Hkx; cbn [andb negb] in Hin; [|contradiction].
    destruct Hin as [->|Hin].
    + rewrite Hkey in Hkx. injection Hkx as <-. now left.
    + right. now apply IH.
  - cbn [andb negb] in Hin. destruct Hin as [->|Hin]; [congruence|].
    now apply IH.
Qed.

Lemma not_category_initial (k : string) :
  isCategoryName k = false -> Js.lookup k initialStats = None.
Proof.
  unfold isCategoryName. cbn [existsb ErrorCategory_values categoryName].
  intros H. repeat (apply orb_false_iff in H as [?E H]).
  change initialStats with (statsFrom (fun _ => 0)).
  unfold statsFrom. cbn [map ErrorCategory_values categoryName Js.lookup].
  repeat match goal with
         | E : String.eqb k ?s = false |- context [String.eqb k ?s] => rewrite E
         end.
  reflexivity.
Qed.

(** Once a key holds [NaN], it keeps it. *)
Lemma NaN_stays (k : string) (keys : list string) :
  forall stats, Js.lookup k stats = Some Js.NaN ->
                Js.lookup k (fold_left increment keys stats) = Some Js.NaN.
Proof.
  induction keys as [|k' keys IH]; intros stats H; [exact H|].
  cbn [fold_left]. apply IH.
  destruct (String.eqb_spec k k') as [<-|Hne].
  - unfold increment. rewrite H. apply lookup_set_same.
  - now rewrite lookup_increment_other.
Qed.

Lemma unknown_key_NaN (k : string) (keys : list string) :
  k <> "__proto__" -> In k keys ->
  forall stats, Js.lookup k stats = None \/ Js.lookup k stats = Some Js.NaN ->
                Js.lookup k (fold_left increment keys stats) = Some Js.NaN.
Proof.
  intros Hproto. induction keys as [|k' keys IH]; intros Hin stats H; [contradiction|].
  cbn [fold_left].
  destruct (String.eqb_spec k k') as [<-|Hne].
  - apply NaN_stays. unfold increment. destruct H as [-> | ->].
    + apply String.eqb_neq in Hproto. rewrite Hproto. apply lookup_set_same.
    + apply lookup_set_same.
  - destruct Hin as [->|Hin]; [congruence|].
    apply IH; [exact Hin|]. now rewrite lookup_increment_other.
Qed.

Lemma add_NaN_absorbs (l : list Js.Count) :
  fold_left (fun sum count => Js.add sum count) l Js.NaN = Js.NaN.
Proof. induction l as [|x l IH]; [reflexivity|]. exact IH. Qed.

Lemma sum_with_NaN (l : list Js.Count) (acc : Js.Count) :
  In Js.NaN l -> fold_left (fun sum count => Js.add sum count) l acc = Js.NaN.
Proof.
  revert acc. induction l as [|x l IH]; intros acc Hin; [contradiction|].
  cbn [fold_left]. destruct Hin as [->|Hin]; [|now apply IH].
  destruct acc; apply add_NaN_absorbs.
Qed.

Lemma lookup_In {A : Type} (k : string) (v : A) (l : list (string * A)) :
  Js.lookup k l = Some v -> In v (map snd l).
Proof.
  induction l as [|[k' v'] l IH]; simpl; [discriminate|].
  destruct (String.eqb k k'); [intros [= ->]; now left | right; now apply IH].
Qed.

(** X6. One scanned record whose category is none of the eleven names
    (its [category] property converts to some other property key, not
    [__proto__]) gives the statistics an extra key holding [NaN], and
    [totalErrors] of the maintenance report, which sums every value of
    the statistics, is [NaN]. *)
Theorem record_of_unknown_category_makes_total_NaN :
  forall (now : string) (w : World) (e : Entry) (k : string),
    wfDir (logDir w) ->
    In e (scannedEntries (logDir w)) ->
    filedUnder k e = true ->
    isCategoryName k = false ->
    k <> "__proto__" ->
    exists (stats : Stats) (w1 : World) (report : MaintenanceReport) (w2 : World),
      getErrorStatistics w = (Returns stats, w1)
      /\ Js.lookup k stats = Some Js.NaN
      /\ generateAIMaintenanceReport now w = (Returns report, w2)
      /\ statistics report = stats
      /\ totalErrors report = Js.NaN.
Proof.
  intros now w e k Hwf Hin Hfiled Hcat Hproto.
  destruct (getErrorStatistics_run w Hwf) as [lines Hstats].
  set (stats := if dir_listable (logDir w)
                then fold_left increment (scanKeys (dir_entries (logDir w))) initialStats
                else initialStats) in *.
  assert (Js.lookup k stats = Some Js.NaN) as HNaN.
  { subst stats. unfold scannedEntries in Hin.
    destruct (dir_listable (logDir w)); [|contradiction].
    apply unknown_key_NaN; [exact Hproto | now apply (scanned_key k e) |].
    left. now apply not_category_initial. }
  assert (stats <> []) as Hsome by (intros Hnil; rewrite Hnil in HNaN; discriminate).
  exists stats. eexists. 
  unfold generateAIMaintenanceReport, bind. rewrite Hstats.
  destruct (sort stats) as [|[k0 n0] sorted] eqn:Hsort;
    [now apply sort_nonempty in Hsome|].
  destruct (getErrorsByCategory_run k0 (mkWorld (logDir w) (console w ++ lines)) Hwf)
    as [lines' Herrors].
  rewrite Herrors. unfold ret.
  eexists. eexists. split; [reflexivity|]. split; [exact HNaN|].
  split; [reflexivity|]. cbn [statistics totalErrors]. split; [reflexivity|].
  unfold sumCounts. apply sum_with_NaN. now apply (lookup_In k).
Qed.

Lemma record_of_unknown_category_witness :
  exists (report : MaintenanceReport) (w2 : World),
    generateAIMaintenanceReport "2024-01-02T03:04:05.678Z"
      (mkWorld (mkDir true (fun _ => true) Sample.listedLast
                  [mkFile "error_1_2.json"
                     (Some (JsonText (JSON.TObj [("category", JSON.TStr "FLAKY")])))
                     (Some 5) true]) [])
    = (Returns report, w2)
    /\ totalErrors report = Js.NaN.
Proof.
  destruct (record_of_unknown_category_makes_total_NaN
              "2024-01-02T03:04:05.678Z"
              (mkWorld (mkDir true (fun _ => true) Sample.listedLast
                          [mkFile "error_1_2.json"
                             (Some (JsonText (JSON.TObj [("category", JSON.TStr "FLAKY")])))
                             (Some 5) true]) [])
              (mkFile "error_1_2.json"
                 (Some (JsonText (JSON.TObj [("category", JSON.TStr "FLAKY")])))
                 (Some 5) true)
              "FLAKY")
    as (stats & w1 & report & w2 & _ & _ & Hrun & _ & Htotal).
  - unfold wfDir. simpl. repeat constructor. simpl. tauto.
  - vm_compute. now left.
  - reflexivity.
  - reflexivity.
  - discriminate.
  - exists report, w2. split; [exact Hrun | exact Htotal].
Defined.

(** A category that is a number becomes the key its text spells: a
    key that spells an array index is listed before the eleven
    categories, and a large number is spelled in exponent notation. *)
Example numeric_categories_become_keys :
  map fst (increment initialStats "5")
  = "5" :: map categoryName ErrorCategory_values
  /\ Js.toString (Js.JNum (Js.Integer (10 ^ 21))) = Js.Text "1e+21"
  /\ map fst (increment initialStats "1e+21")
     = (map categoryName ErrorCategory_values ++ ["1e+21"])%list.
Proof. split; [|split]; vm_compute; reflexivity. Qed.

(** ** The two scans, and pruning before a scan *)

Lemma collected_other_name (k : string) (es : list Entry) :
  (forall e, In e es -> isLogFile (file_name e) = true ->
             exists c, categoryValue e = Some (Js.JStr (categoryName c))) ->
  isCategoryName k = false ->
  collected k es = [].
Proof.
  intros Hclean Hk. unfold collected.
  induction es as [|e rest IH]; [reflexivity|].
  cbn [flat_map]. rewrite IH by (intros e' He'; apply Hclean; now right).
  rewrite app_nil_r.
  destruct (isLogFile (file_name e)) eqn:Hlog; [|reflexivity].
  destruct (Hclean e (or_introl eq_refl) Hlog) as [c Hc]. rewrite Hc.
  destruct (parsedRecord e); [|reflexivity].
  cbn [Js.strictEqStr].
  destruct (String.eqb_spec (categoryName c) k) as [<-|_]; [|reflexivity].
  destruct c; discriminate.
Qed.

(** X7. Over a store of well-formed records the two scans agree: for
    each of the eleven categories [getErrorsByCategory] returns as many
    records as [getErrorStatistics] counts, each of that category, and
    for any other name it returns the empty list; neither scan changes
    the directory or prints a line. *)
Theorem scans_agree_over_clean_store :
  forall (w : World),
    cleanStore (logDir w) ->
    exists (stats : Stats),
      getErrorStatistics w = (Returns stats, w)
      /\ (forall c : ErrorCategory,
             exists errors,
               getErrorsByCategory (categoryName c) w = (Returns errors, w)
               /\ Z.of_nat (length errors) = countOf stats c
               /\ forall v, In v errors ->
                            Js.get v "category" = Some (Js.JStr (categoryName c)))
      /\ (forall k, isCategoryName k = false ->
                    getErrorsByCategory k w = (Returns [], w)).
Proof.
  intros w Hclean. eexists. split; [now apply getErrorStatistics_clean|]. split.
  - intros c. eexists. split; [now apply getErrorsByCategory_clean|]. split.
    + rewrite countOf_statsFrom. apply collected_length. apply Hclean.
    + intros v. apply collected_category.
  - intros k Hk. rewrite (getErrorsByCategory_clean k w Hclean).
    rewrite collected_other_name; [reflexivity | apply Hclean | exact Hk].
Qed.

Lemma scans_agree_witness :
  exists (stats : Stats),
    getErrorStatistics
      (mkWorld (withEntries Sample.emptyDir (map callRecord SampleRun.sevenCalls)) [])
    = (Returns stats,
       mkWorld (withEntries Sample.emptyDir (map callRecord SampleRun.sevenCalls)) [])
    /\ countOf stats ELEMENT = 4.
Proof.
  assert (cleanStore (logDir (mkWorld (withEntries Sample.emptyDir
                                         (map callRecord SampleRun.sevenCalls)) [])))
    as Hclean.
  { apply (run_leaves_clean_store _ SampleRun.sevenCalls);
      [apply Permutation_refl | reflexivity |].
    vm_compute. repeat constructor; simpl; intuition discriminate. }
  destruct (scans_agree_over_clean_store _ Hclean) as (stats & Hrun & Hcat & _).
  exists stats. split; [exact Hrun|].
  destruct (Hcat ELEMENT) as (errors & Herr & Hlen & _). rewrite <- Hlen.
  assert (errors = fst (match getErrorsByCategory (categoryName ELEMENT)
                                (mkWorld (withEntries Sample.emptyDir
                                            (map callRecord SampleRun.sevenCalls)) [])
                        with
                        | (Returns l, _) => (l, tt)
                        | (Throws _, _) => (errors, tt)
                        end)) as -> by now rewrite Herr.
  reflexivity.
Defined.

Lemma howMany_filter {A : Type} (p q : A -> bool) (l : list A) :
  howMany p (filter q l) = howMany (fun x => p x && q x) l.
Proof.
  unfold howMany. induction l as [|x l IH]; [reflexivity|].
  cbn [filter]. destruct (q x) eqn:Hq.
  - cbn [filter]. destruct (p x); cbn [andb length]; [|exact IH].
    rewrite !Nat2Z.inj_succ. now rewrite IH.
  - rewrite andb_false_r. exact IH.
Qed.

Lemma howMany_split {A : Type} (p q : A -> bool) (l : list A) :
  howMany p l = howMany (fun x => p x && negb (q x)) l + howMany (fun x => p x && q x) l.
Proof.
  induction l as [|x l IH]; [reflexivity|].
  rewrite !howMany_cons, IH. destruct (p x), (q x); cbn [andb negb indicator]; lia.
Qed.

Lemma cleanStore_filter (f : Entry -> bool) (d : LogDir) :
  cleanStore d -> cleanStore (withEntries d (filter f (dir_entries d))).
Proof.
  intros (Hlist & Hwf & Hclean). split; [exact Hlist|]. split.
  - unfold wfDir. cbn [dir_entries withEntries]. now apply NoDup_names_filter.
  - cbn [dir_entries withEntries]. intros e Hin. apply filter_In in Hin as [Hin _].
    now apply Hclean.
Qed.

(** X8. Pruning and then counting, over a store of well-formed records
    that can all be examined and deleted: [clearOldErrorLogs] prints
    nothing, and the count [getErrorStatistics] gives for each category
    afterwards is the count before less the records of that category
    older than the cutoff. *)
Theorem pruning_lowers_each_count_by_its_expired_records :
  forall (olderThanDays now : Z) (w : World),
    cleanStore (logDir w) -> healthy (logDir w) ->
    exists (before after : Stats) (w1 : World),
      getErrorStatistics w = (Returns before, w)
      /\ clearOldErrorLogs olderThanDays now w = (Returns tt, w1)
      /\ console w1 = console w
      /\ getErrorStatistics w1 = (Returns after, w1)
      /\ forall c : ErrorCategory,
           countOf after c
           = countOf before c
             - howMany (fun e => filedUnder (categoryName c) e
                                 && expired (cutoffTime olderThanDays now) e)
                       (dir_entries (logDir w)).
Proof.
  intros olderThanDays now w Hclean Hhealthy.
  pose proof Hclean as (Hlist & Hwf & _).
  destruct (clearOldErrorLogs_run olderThanDays now w Hwf) as (lines & Hrun & Hnone & _).
  pose proof (healthy_unblocked (cutoffTime olderThanDays now) _ Hhealthy) as Hfree.
  rewrite (Hnone Hlist Hfree), app_nil_r in Hrun.
  rewrite Hlist, (sweep_unblocked _ _ Hfree) in Hrun.
  set (w1 := mkWorld _ _) in Hrun.
  assert (cleanStore (logDir w1)) as Hclean1
      by (subst w1; cbn [logDir]; now apply cleanStore_filter).
  eexists _, _, w1. split; [now apply getErrorStatistics_clean|].
  split; [exact Hrun|]. split; [reflexivity|].
  split; [now apply getErrorStatistics_clean|].
  intros c. rewrite !countOf_statsFrom.
  subst w1. cbn [logDir dir_entries withEntries].
  rewrite howMany_filter.
  rewrite (howMany_split (filedUnder (categoryName c))
             (expired (cutoffTime olderThanDays now)) (dir_entries (logDir w))).
  lia.
Qed.

Lemma pruning_lowers_each_count_witness :
  exists (after : Stats) (w1 : World),
    clearOldErrorLogs 0 4
      (mkWorld (withEntries Sample.emptyDir (map callRecord SampleRun.sevenCalls)) [])
    = (Returns tt, w1)
    /\ getErrorStatistics w1 = (Returns after, w1)
    /\ countOf after ELEMENT = 2.
Proof.
  set (w := mkWorld (withEntries Sample.emptyDir (map callRecord SampleRun.sevenCalls)) []).
  assert (cleanStore (logDir w)) as Hclean.
  { apply (run_leaves_clean_store _ SampleRun.sevenCalls);
      [apply Permutation_refl | reflexivity |].
    vm_compute. repeat constructor; simpl; intuition discriminate. }
  assert (healthy (logDir w)) as Hhealthy.
  { split; [reflexivity|]. intros e Hin _.
    cbn [w logDir dir_entries withEntries SampleRun.sevenCalls map] in Hin.
    repeat (destruct Hin as [<-|Hin]; [split; [discriminate | reflexivity]|]).
    contradiction. }
  destruct (pruning_lowers_each_count_by_its_expired_records 0 4 w Hclean Hhealthy)
    as (before & after & w1 & Hb & Hrun & _ & Ha & Hcount).
  exists after, w1. split; [exact Hrun|]. split; [exact Ha|].
  rewrite Hcount.
  assert (before = fst (match getErrorStatistics w with
                        | (Returns s, _) => (s, tt)
                        | (Throws _, _) => (before, tt)
                        end)) as -> by now rewrite Hb.
  reflexivity.
Defined.

(** ** The report-and-throw actions of the page object *)

(** The message derived from a details object that has no [message]
    property is its JSON text, a string. *)
Lemma object_message (props : list (string * Js.Value)) :
  serializable (Js.JObj props) ->
  Js.lookup "message" props = None ->
  exists text, messageFromDetails (Js.JObj props) = Js.JStr text.
Proof.
  intros Hser Hnone. unfold messageFromDetails, serializable in *.
  cbn [Js.optGet]. rewrite Hnone. cbn [Js.truthy].
  cbn [JSON.serialize] in *.
  destruct (JSON.memberTexts _); [|congruence]. eexists. reflexivity.
Qed.

(** [handleError] on a details object without a [message] property:
    one report, then the classified error. *)
Lemma handleError_object_run (this : Instance) (errorCode : ErrorCodeEntry)
  (props : list (string * Js.Value)) (clock : Clock) (w : World) :
  serializable (Js.JObj props) ->
  Js.lookup "message" props = None ->
  exists thrown w',
    createError errorCode (messageFromDetails (Js.JObj props)) = Returns thrown
    /\ handleError this errorCode (Js.JObj props) true clock w = (Throws thrown, w')
    /\ logDir w' = persist (expectedRecord this errorCode (Js.JObj props) None clock)
                           (msNow clock) (logDir w).
Proof.
  intros Hser Hnone.
  destruct (handleError_run this errorCode (Js.JObj props) clock w Hser)
    as [(w' & Hrun & Hdir) _].
  destruct (object_message props Hser Hnone) as [text Htext].
  destruct (createError_string errorCode text) as (thrown & Hcreate & _).
  unfold thrownBy in Hrun. rewrite Htext, Hcreate in Hrun.
  exists thrown, w'. rewrite Htext. auto.
Qed.

(** The shape all of them share: a [try] block that only asks the
    browser, and a [catch] that hands the failure to [handleError]. *)
Lemma guarded_action_run (this : Instance) (attempt : M unit) (outcome : Outcome unit)
  (errorCode : ErrorCodeEntry) (details : JsError -> Js.Value) (clock : Clock)
  (w : World) :
  attempt w = (outcome, w) ->
  (forall low, serializable (details low)) ->
  (forall low, exists text, messageFromDetails (details low) = Js.JStr text) ->
  reportsAndThrows
    (try_catch attempt
       (fun error => handleError this errorCode (details error) true clock ;;; ret tt))
    outcome this errorCode details clock w.
Proof.
  intros Hattempt Hser Hmsg. unfold reportsAndThrows, try_catch. rewrite Hattempt.
  destruct outcome as [[]|low]; [reflexivity|].
  destruct (handleError_run this errorCode (details low) clock w (Hser low))
    as [(w' & Hrun & Hdir) _].
  destruct (Hmsg low) as [text Htext].
  destruct (createError_string errorCode text) as (thrown & Hcreate & _).
  unfold thrownBy in Hrun. rewrite Htext, Hcreate in Hrun.
  exists thrown, w'. rewrite Htext. split; [exact Hcreate|].
  unfold bind. rewrite Hrun. split; [reflexivity | exact Hdir].
Qed.

Lemma onLocator_run {A : Type} (this : Instance) (call : Outcome A) (w : World) :
  BasePageActions.onLocator this call w = (locatorOutcome this call, w).
Proof.
  unfold BasePageActions.onLocator, locatorOutcome. destruct (page this); reflexivity.
Qed.

Ltac details_serializable :=
  intros; unfold serializable;
  try match goal with
      | |- context [BasePageActions.optionalNumber ?t] =>
          is_var t; destruct t as [[z| |text| |negative]|]
      end;
  cbn [JSON.serialize map fst snd JSON.memberTexts BasePageActions.optionalNumber];
  discriminate.

(** X9. Each of [click], [fill], [waitForElement], [expectTextToContain]
    and [expectToBeVisible] returns, leaving the log directory and the
    console alone, when its browser call succeeds; when the call fails
    (or there is no page), it makes one report, under
    [ERROR_ELEMENT_NOT_CLICKABLE] for [click], [ERROR_ELEMENT_NOT_VISIBLE]
    for [fill] and [waitForElement], [ERROR_ASSERTION_TEXT] and
    [ERROR_ASSERTION_VISIBILITY] for the two assertions, with the
    selector, the arguments, the low-level message and the action name as
    details, and throws the synthetic error of that code. *)
Theorem locator_actions_report_and_throw :
  forall (this : Instance) (browser : Browser) (selector value : string)
         (timeout : option Js.Number) (clock : Clock) (w : World),
    reportsAndThrows
      (BasePageActions.click this browser selector clock)
      (locatorOutcome this (locator_click browser selector))
      this ERROR_ELEMENT_NOT_CLICKABLE
      (fun low => Js.JObj [ ("selector", Js.JStr selector);
                            ("error", Js.JStr (err_message low));
                            ("action", Js.JStr "click") ])
      clock w
    /\ reportsAndThrows
         (BasePageActions.fill this browser selector value clock)
         (locatorOutcome this (locator_fill browser selector value))
         this ERROR_ELEMENT_NOT_VISIBLE
         (fun low => Js.JObj [ ("selector", Js.JStr selector);
                               ("value", Js.JStr value);
                               ("error", Js.JStr (err_message low));
                               ("action", Js.JStr "fill") ])
         clock w
    /\ reportsAndThrows
         (BasePageActions.waitForElement this browser selector timeout clock)
         (locatorOutcome this (locator_waitFor browser selector timeout))
         this ERROR_ELEMENT_NOT_VISIBLE
         (fun low => Js.JObj [ ("selector", Js.JStr selector);
                               ("timeout", BasePageActions.optionalNumber timeout);
                               ("error", Js.JStr (err_message low));
                               ("action", Js.JStr "waitForElement") ])
         clock w
    /\ reportsAndThrows
         (BasePageActions.expectTextToContain this browser selector value clock)
         (locatorOutcome this (expect_toContainText browser selector value))
         this ERROR_ASSERTION_TEXT
         (fun low => Js.JObj [ ("selector", Js.JStr selector);
                               ("expectedText", Js.JStr value);
                               ("error", Js.JStr (err_message low));
                               ("action", Js.JStr "expectTextToContain") ])
         clock w
    /\ reportsAndThrows
         (BasePageActions.expectToBeVisible this browser selector clock)
         (locatorOutcome this (expect_toBeVisible browser selector))
         this ERROR_ASSERTION_VISIBILITY
         (fun low => Js.JObj [ ("selector", Js.JStr selector);
                               ("error", Js.JStr (err_message low));
                               ("action", Js.JStr "expectToBeVisible") ])
         clock w.
Proof.
  intros this browser selector value timeout clock w.
  split; [|split; [|split; [|split]]].
  - unfold BasePageActions.click.
    assert (forall low : JsError,
               serializable (Js.JObj [ ("selector", Js.JStr selector);
                                  ("error", Js.JStr (err_message low));
                                  ("action", Js.JStr "click") ]))
      as Hser by details_serializable.
    exact (guarded_action_run this
             (BasePageActions.onLocator this (locator_click browser selector))
             (locatorOutcome this (locator_click browser selector))
             ERROR_ELEMENT_NOT_CLICKABLE
             (fun low => Js.JObj [ ("selector", Js.JStr selector);
                                  ("error", Js.JStr (err_message low));
                                  ("action", Js.JStr "click") ])
             clock w (onLocator_run _ _ _) Hser
             (fun low => object_message _ (Hser low) eq_refl)).
  - unfold BasePageActions.fill.
    assert (forall low : JsError,
               serializable (Js.JObj [ ("selector", Js.JStr selector);
                                  ("value", Js.JStr value);
                                  ("error", Js.JStr (err_message low));
                                  ("action", Js.JStr "fill") ]))
      as Hser by details_serializable.
    exact (guarded_action_run this
             (BasePageActions.onLocator this (locator_fill browser selector value))
             (locatorOutcome this (locator_fill browser selector value))
             ERROR_ELEMENT_NOT_VISIBLE
             (fun low => Js.JObj [ ("selector", Js.JStr selector);
                                  ("value", Js.JStr value);
                                  ("error", Js.JStr (err_message low));
                                  ("action", Js.JStr "fill") ])
             clock w (onLocator_run _ _ _) Hser
             (fun low => object_message _ (Hser low) eq_refl)).
  - unfold BasePageActions.waitForElement.
    assert (forall low : JsError,
               serializable (Js.JObj [ ("selector", Js.JStr selector);
                                  ("timeout", BasePageActions.optionalNumber timeout);
                                  ("error", Js.JStr (err_message low));
                                  ("action", Js.JStr "waitForElement") ]))
      as Hser by details_serializable.
    exact (guarded_action_run this
             (BasePageActions.onLocator this (locator_waitFor browser selector timeout))
             (locatorOutcome this (locator_waitFor browser selector timeout))
             ERROR_ELEMENT_NOT_VISIBLE
             (fun low => Js.JObj [ ("selector", Js.JStr selector);
                                  ("timeout", BasePageActions.optionalNumber timeout);
                                  ("error", Js.JStr (err_message low));
                                  ("action", Js.JStr "waitForElement") ])
             clock w (onLocator_run _ _ _) Hser
             (fun low => object_message _ (Hser low) eq_refl)).
  - unfold BasePageActions.expectTextToContain.
    assert (forall low : JsError,
               serializable (Js.JObj [ ("selector", Js.JStr selector);
                                  ("expectedText", Js.JStr value);
                                  ("error", Js.JStr (err_message low));
                                  ("action", Js.JStr "expectTextToContain") ]))
      as Hser by details_serializable.
    exact (guarded_action_run this
             (BasePageActions.onLocator this (expect_toContainText browser selector value))
             (locatorOutcome this (expect_toContainText browser selector value))
             ERROR_ASSERTION_TEXT
             (fun low => Js.JObj [ ("selector", Js.JStr selector);
                                  ("expectedText", Js.JStr value);
                                  ("error", Js.JStr (err_message low));
                                  ("action", Js.JStr "expectTextToContain") ])
             clock w (onLocator_run _ _ _) Hser
             (fun low => object_message _ (Hser low) eq_refl)).
  - unfold BasePageActions.expectToBeVisible.
    assert (forall low : JsError,
               serializable (Js.JObj [ ("selector", Js.JStr selector);
                                  ("error", Js.JStr (err_message low));
                                  ("action", Js.JStr "expectToBeVisible") ]))
      as Hser by details_serializable.
    exact (guarded_action_run this
             (BasePageActions.onLocator this (expect_toBeVisible browser selector))
             (locatorOutcome this (expect_toBeVisible browser selector))
             ERROR_ASSERTION_VISIBILITY
             (fun low => Js.JObj [ ("selector", Js.JStr selector);
                                  ("error", Js.JStr (err_message low));
                                  ("action", Js.JStr "expectToBeVisible") ])
             clock w (onLocator_run _ _ _) Hser
             (fun low => object_message _ (Hser low) eq_refl)).
Qed.

(** ** [selectOption] and the assertions on the page *)

(** X10. [selectOption] returns, leaving the state alone, when the
    browser call succeeds. When it fails, the failure is filed under
    [ERROR_ELEMENT_TIMEOUT] (2007) exactly when the low-level message
    contains the lower-case text [timeout], and under
    [ERROR_ELEMENT_WRONG_STATE] (2004) otherwise; one report is made and
    the synthetic error of that code is thrown. *)
Theorem selectOption_files_timeouts_by_message :
  forall (this : Instance) (browser : Browser) (selector value : string)
         (clock : Clock) (w : World),
    match locatorOutcome this (locator_selectOption browser selector value) with
    | Returns _ =>
        BasePageActions.selectOption this browser selector value clock w = (Returns tt, w)
    | Throws low =>
        let details := Js.JObj [ ("selector", Js.JStr selector);
                                 ("value", Js.JStr value);
                                 ("error", Js.JStr (err_message low));
                                 ("action", Js.JStr "selectOption") ] in
        exists (errorCode : ErrorCodeEntry) (thrown : JsError) (w' : World),
          createError errorCode (messageFromDetails details) = Returns thrown
          /\ BasePageActions.selectOption this browser selector value clock w
             = (Throws thrown, w')
          /\ logDir w' = persist (expectedRecord this errorCode details None clock)
                                 (msNow clock) (logDir w)
          /\ (Str.includes (err_message low) "timeout" = true ->
              errorCode = ERROR_ELEMENT_TIMEOUT /\ code errorCode = 2007)
          /\ (Str.includes (err_message low) "timeout" = false ->
              errorCode = ERROR_ELEMENT_WRONG_STATE /\ code errorCode = 2004)
    end.
Proof.
  intros this browser selector value clock w.
  unfold BasePageActions.selectOption, try_catch. rewrite onLocator_run.
  destruct (locatorOutcome this (locator_selectOption browser selector value))
    as [[]|low]; [reflexivity|].
  cbv zeta.
  set (details := Js.JObj [ ("selector", Js.JStr selector);
                            ("value", Js.JStr value);
                            ("error", Js.JStr (err_message low));
                            ("action", Js.JStr "selectOption") ]).
  assert (serializable details) as Hser
      by (unfold serializable, details;
          cbn [JSON.serialize map fst snd JSON.memberTexts]; discriminate).
  destruct (handleError_object_run this (BasePageActions.selectOptionCode low) _
              clock w Hser eq_refl) as (thrown & w' & Hcreate & Hrun & Hdir).
  exists (BasePageActions.selectOptionCode low), thrown, w'.
  split; [exact Hcreate|].
  unfold bind. subst details. rewrite Hrun.
  split; [reflexivity|]. split; [exact Hdir|].
  unfold BasePageActions.selectOptionCode.
  split; intros ->; split; reflexivity.
Qed.

(** A message that spells the word with a capital letter is not filed
    as a timeout. *)
Example selectOption_capital_Timeout :
  BasePageActions.selectOptionCode (plainError "Timeout 30000ms exceeded.")
  = ERROR_ELEMENT_WRONG_STATE.
Proof. reflexivity. Qed.

(** X11. [expectUrl] and [expectTitle] return, leaving the state alone,
    when the assertion holds. When it fails, [expectUrl] reports
    [ERROR_URL_MISMATCH] with the expected pattern and the current URL
    and throws the synthetic error; [expectTitle] first reads the
    current title, and reports [ERROR_ASSERTION_PROPERTY] and throws the
    synthetic error only when that read succeeds: when the title cannot
    be read, the error of that read reaches the caller instead, and
    nothing is reported or logged. Without a page, the TypeError of the
    [catch] block reaches the caller, unreported. *)
Theorem page_assertions_report_the_actual_value :
  forall (this : Instance) (browser : Browser) (pattern : Pattern)
         (clock : Clock) (w : World),
    match expect_toHaveURL browser (page this) pattern with
    | Returns _ => BasePageActions.expectUrl this browser pattern clock w = (Returns tt, w)
    | Throws low =>
        match page this with
        | Some p =>
            reportsAndThrows
              (BasePageActions.expectUrl this browser pattern clock)
              (Throws low) this ERROR_URL_MISMATCH
              (fun low => Js.JObj [ ("expectedUrl", Js.JStr (Pattern_toString pattern));
                                    ("actualUrl", Js.JStr (page_url p));
                                    ("error", Js.JStr (err_message low)) ])
              clock w
        | None =>
            BasePageActions.expectUrl this browser pattern clock w
            = (Throws (BasePage.noPage "url"), w)
        end
    end
    /\
    match expect_toHaveTitle browser (page this) pattern with
    | Returns _ => BasePageActions.expectTitle this browser pattern clock w = (Returns tt, w)
    | Throws low =>
        match page this with
        | Some p =>
            match page_title p with
            | Returns actual =>
                reportsAndThrows
                  (BasePageActions.expectTitle this browser pattern clock)
                  (Throws low) this ERROR_ASSERTION_PROPERTY
                  (fun low => Js.JObj [ ("expectedTitle",
                                         Js.JStr (Pattern_toString pattern));
                                        ("actualTitle", Js.JStr actual);
                                        ("error", Js.JStr (err_message low)) ])
                  clock w
            | Throws unreadable =>
                BasePageActions.expectTitle this browser pattern clock w
                = (Throws unreadable, w)
            end
        | None =>
            BasePageActions.expectTitle this browser pattern clock w
            = (Throws (BasePage.noPage "title"), w)
        end
    end.
Proof.
  intros this browser pattern clock w. split.
  - unfold BasePageActions.expectUrl, try_catch, lift.
    destruct (expect_toHaveURL browser (page this) pattern) as [[]|low];
      [reflexivity|].
    destruct (page this) as [p|] eqn:Hpage; [|reflexivity].
    unfold reportsAndThrows. unfold bind at 1. unfold ret at 1.
    match goal with
    | |- context [handleError this ?c ?d true clock] =>
        assert (serializable d) as Hser
            by (unfold serializable;
                cbn [JSON.serialize map fst snd JSON.memberTexts]; discriminate);
        destruct (handleError_object_run this c _ clock w Hser eq_refl)
          as (thrown & w' & Hcreate & Hrun & Hdir)
    end.
    exists thrown, w'. split; [exact Hcreate|].
    unfold bind. rewrite Hrun. split; [reflexivity | exact Hdir].
  - unfold BasePageActions.expectTitle, try_catch, lift.
    destruct (expect_toHaveTitle browser (page this) pattern) as [[]|low];
      [reflexivity|].
    destruct (page this) as [p|] eqn:Hpage; [|reflexivity].
    unfold bind at 1.
    destruct (page_title p) as [actual|unreadable]; [|reflexivity].
    unfold reportsAndThrows.
    match goal with
    | |- context [handleError this ?c ?d true clock] =>
        assert (serializable d) as Hser
            by (unfold serializable;
                cbn [JSON.serialize map fst snd JSON.memberTexts]; discriminate);
        destruct (handleError_object_run this c _ clock w Hser eq_refl)
          as (thrown & w' & Hcreate & Hrun & Hdir)
    end.
    exists thrown, w'. split; [exact Hcreate|].
    unfold bind. rewrite Hrun. split; [reflexivity | exact Hdir].
Qed.

Lemma selectOption_files_timeouts_witness :
  exists (thrown : JsError) (w' : World),
    createError ERROR_ELEMENT_WRONG_STATE
      (messageFromDetails
         (Js.JObj [ ("selector", Js.JStr "#sort");
                    ("value", Js.JStr "az");
                    ("error", Js.JStr (err_message (BasePage.noPage "locator")));
                    ("action", Js.JStr "selectOption") ]))
    = Returns thrown
    /\ BasePageActions.selectOption Sample.withoutPage
         (mkBrowser (fun _ => Returns tt) (fun _ _ => Returns tt) (fun _ _ => Returns tt)
            (fun _ _ => Returns tt) (fun _ _ => Returns tt) (fun _ => Returns tt)
            (fun _ _ => Returns tt) (fun _ _ => Returns tt) (fun _ => Returns tt)
            (fun _ _ => Returns tt) (fun _ => Returns tt))
         "#sort" "az" Sample.clock Sample.fresh
       = (Throws thrown, w').
Proof.
  pose proof (selectOption_files_timeouts_by_message Sample.withoutPage
                (mkBrowser (fun _ => Returns tt) (fun _ _ => Returns tt)
                   (fun _ _ => Returns tt) (fun _ _ => Returns tt)
                   (fun _ _ => Returns tt) (fun _ => Returns tt)
                   (fun _ _ => Returns tt) (fun _ _ => Returns tt)
                   (fun _ => Returns tt) (fun _ _ => Returns tt)
                   (fun _ => Returns tt))
                "#sort" "az" Sample.clock Sample.fresh) as H.
  cbn [locatorOutcome Sample.withoutPage page] in H.
  destruct H as (errorCode & thrown & w' & Hcreate & Hrun & _ & _ & Hstate).
  destruct (Hstate eq_refl) as [-> _].
  exists thrown, w'. split; [exact Hcreate | exact Hrun].
Defined.

(** ** [parseInt] and the cart badge *)

Lemma digits_acc (d : Decimal.uint) :
  forall acc : BinNums.positive,
    digitsPrefix 10 (NilEmpty.string_of_uint d) (Some (Z.pos acc))
    = Some (Z.pos (Pos.of_uint_acc d acc)).
Proof.
  induction d; intros acc; cbn [NilEmpty.string_of_uint Pos.of_uint_acc];
    [reflexivity | ..];
    (cbn [digitsPrefix];
     match goal with
     | |- context [digitValue ?c] =>
         let v := eval vm_compute in (digitValue c) in
         change (digitValue c) with v
     end;
     cbv iota beta;
     match goal with
     | |- context [?a <? 10] => change (a <? 10) with true
     end;
     cbv iota; rewrite <- IHd; f_equal; f_equal; lia).
Qed.

Lemma digits_zero (d : Decimal.uint) :
  digitsPrefix 10 (NilEmpty.string_of_uint d) (Some 0)
  = Some (Z.of_N (Pos.of_uint d)).
Proof.
  induction d; cbn [NilEmpty.string_of_uint Pos.of_uint];
    [reflexivity | exact IHd | ..];
    (cbn [digitsPrefix];
     match goal with
     | |- context [digitValue ?c] =>
         let v := eval vm_compute in (digitValue c) in
         change (digitValue c) with v
     end;
     cbv iota beta;
     match goal with
     | |- context [?a <? 10] => change (a <? 10) with true
     end;
     cbv iota;
     match goal with
     | |- digitsPrefix 10 _ (Some ?x) = _ =>
         let v := eval vm_compute in x in change x with v
     end;
     rewrite digits_acc; reflexivity).
Qed.

Lemma digits_start (d : Decimal.uint) :
  d <> Decimal.Nil ->
  digitsPrefix 10 (NilEmpty.string_of_uint d) None
  = digitsPrefix 10 (NilEmpty.string_of_uint d) (Some 0).
Proof. destruct d; [congruence | reflexivity ..]. Qed.

(** The printed form of a positive number has no white space, sign or
    [0x] in front. *)
Lemma parseInt_digits (d : Decimal.uint) :
  d <> Decimal.Nil ->
  let n := Z.of_N (Pos.of_uint d) in
  parseInt (NilEmpty.string_of_uint d)
  = (if n =? 0 then Js.Integer 0 else Js.ofInteger n)
  /\ parseInt (String "-" (NilEmpty.string_of_uint d))
     = (if n =? 0 then Js.NegativeZero else Js.ofInteger (- n)).
Proof.
  intros Hd n.
  assert (forall s, s = NilEmpty.string_of_uint d ->
                    parseInt s
                    = match digitsPrefix 10 s None with
                      | Some n => if n =? 0 then Js.Integer 0 else Js.ofInteger (1 * n)
                      | None => Js.NotANumber
                      end
                    /\ parseInt (String "-" s)
                       = match digitsPrefix 10 s None with
                         | Some n =>
                             if n =? 0 then Js.NegativeZero else Js.ofInteger (-1 * n)
                         | None => Js.NotANumber
                         end) as Hshape.
  { intros s ->.
    destruct d as [|l|l|l|l|l|l|l|l|l|l]; [congruence | | ..];
      try (split; reflexivity).
    destruct l; split; reflexivity. }
  destruct (Hshape _ eq_refl) as [Hpos Hneg].
  rewrite Hpos, Hneg, (digits_start d Hd), digits_zero. fold n.
  split; destruct (n =? 0); try reflexivity; f_equal; lia.
Qed.

Lemma string_of_uint_proper (d : Decimal.uint) :
  d <> Decimal.Nil -> NilZero.string_of_uint d = NilEmpty.string_of_uint d.
Proof. destruct d; [congruence | reflexivity ..]. Qed.

(** An integer up to 2^53 in size is a double. *)
Lemma ofInteger_exact (n : Z) :
  - Js.two53 <= n <= Js.two53 -> Js.ofInteger n = Js.Integer n.
Proof.
  intros Hn. unfold Js.ofInteger, Js.nearestDouble.
  replace (Z.abs n <=? Js.two53) with true; [reflexivity|].
  symmetry. apply Z.leb_le. lia.
Qed.

(** [parseInt] reads back the decimal text of an integer that is at
    most 2^53 in size; larger ones are rounded. *)
Lemma parseInt_ofZ (n : Z) :
  - Js.two53 <= n <= Js.two53 -> parseInt (Str.ofZ n) = Js.Integer n.
Proof.
  intros Hn. unfold Str.ofZ. destruct n as [|p|p]; [reflexivity | |];
    cbn [Z.to_int NilZero.string_of_int];
    pose proof (DecimalPos.Unsigned.to_uint_nonnil p) as Hnil;
    destruct (parseInt_digits (Pos.to_uint p) Hnil) as [Hpos Hneg];
    pose proof (DecimalPos.Unsigned.of_to p) as Hback;
    rewrite (string_of_uint_proper _ Hnil).
  - rewrite Hpos, Hback. cbn [Z.of_N Z.eqb]. now apply ofInteger_exact.
  - rewrite Hneg, Hback. cbn [Z.of_N Z.eqb Z.opp]. now apply ofInteger_exact.
Qed.

(** What [getText] does: the text of the element, or one report and
    the empty string. *)
Lemma getText_run (this : Instance) (selector : string) (clock : Clock) (w : World) :
  match fst (BasePage.getTextAttempt this selector w) with
  | Returns text => BasePage.getText this selector clock w = (Returns text, w)
  | Throws low =>
      exists lines,
        BasePage.getText this selector clock w
        = (Returns "",
           mkWorld (persist (expectedRecord this ERROR_LOCATOR_NOT_FOUND
                               (BasePage.locatorDetails selector low "getText")
                               None clock)
                      (msNow clock) (logDir w))
                   (console w ++ lines))
  end.
Proof.
  pose proof (getTextAttempt_state this selector w) as Hstate.
  unfold BasePage.getText, try_catch.
  destruct (BasePage.getTextAttempt this selector w) as [[text|low] w1];
    simpl in Hstate; subst w1; simpl fst; cbv iota; [reflexivity|].
  destruct (reportError_run this ERROR_LOCATOR_NOT_FOUND
              (BasePage.locatorDetails selector low "getText") None clock w
              (locatorDetails_serializable selector low "getText"))
    as [lines Hrun].
  exists lines. unfold bind. rewrite Hrun. reflexivity.
Qed.

(** X12. [getCartCount] never throws. When the badge can be read it
    returns [parseInt] of its text and leaves the state alone: the
    number [n] when the badge shows the decimal text of an integer [n]
    of at most 2^53 in size. When the badge cannot be read (an empty
    cart shows none), [getText] reports [ERROR_LOCATOR_NOT_FOUND] and
    gives the empty string, and the result is [NaN], not 0: the [catch]
    block that returns 0 is never entered. *)
Theorem getCartCount_is_NaN_without_badge :
  forall (this : Instance) (clock : Clock) (w : World),
    match fst (BasePage.getTextAttempt this SauceInventoryPage.shoppingCartBadge w) with
    | Returns text =>
        SauceInventoryPage.getCartCount this clock w = (Returns (parseInt text), w)
        /\ forall n : Z, - Js.two53 <= n <= Js.two53 ->
                         text = Str.ofZ n -> parseInt text = Js.Integer n
    | Throws low =>
        exists w',
          SauceInventoryPage.getCartCount this clock w = (Returns Js.NotANumber, w')
          /\ logDir w' =
             persist (expectedRecord this ERROR_LOCATOR_NOT_FOUND
                        (BasePage.locatorDetails SauceInventoryPage.shoppingCartBadge
                           low "getText")
                        None clock)
                     (msNow clock) (logDir w)
    end.
Proof.
  intros this clock w.
  pose proof (getText_run this SauceInventoryPage.shoppingCartBadge clock w) as Htext.
  unfold SauceInventoryPage.getCartCount, try_catch, bind.
  destruct (fst (BasePage.getTextAttempt this SauceInventoryPage.shoppingCartBadge w))
    as [text|low].
  - rewrite Htext. split; [reflexivity|]. intros n Hn ->. now apply parseInt_ofZ.
  - destruct Htext as [lines Htext]. rewrite Htext.
    eexists. split; reflexivity.
Qed.

Lemma getCartCount_witness :
  (exists (w' : World),
      SauceInventoryPage.getCartCount Sample.withClosedPage Sample.clock Sample.fresh
      = (Returns Js.NotANumber, w')
      /\ length (dir_entries (logDir w')) = 1%nat)
  /\ SauceInventoryPage.getCartCount Sample.withPage Sample.clock Sample.fresh
     = (Returns (parseInt "Products"), Sample.fresh)
  /\ parseInt (Str.ofZ 3) = Js.Integer 3.
Proof.
  split.
  - pose proof (getCartCount_is_NaN_without_badge Sample.withClosedPage Sample.clock
                  Sample.fresh) as H.
    change (fst (BasePage.getTextAttempt Sample.withClosedPage
                   SauceInventoryPage.shoppingCartBadge Sample.fresh))
      with (@Throws string Sample.closed) in H.
    destruct H as (w' & Hrun & Hdir).
    exists w'. split; [exact Hrun|]. rewrite Hdir. reflexivity.
  - pose proof (getCartCount_is_NaN_without_badge Sample.withPage Sample.clock
                  Sample.fresh) as H.
    change (fst (BasePage.getTextAttempt Sample.withPage
                   SauceInventoryPage.shoppingCartBadge Sample.fresh))
      with (@Returns string "Products") in H.
    destruct H as [Hrun _]. split; [exact Hrun|]. reflexivity.
Defined.

(** Beyond 2^53 [parseInt] rounds to the nearest double, a zero keeps
    its sign, and an integer past the largest double reads as an
    infinity. *)
Example parseInt_rounds :
  parseInt "9007199254740993" = Js.Integer 9007199254740992
  /\ parseInt "-0" = Js.NegativeZero
  /\ parseInt " 42px" = Js.Integer 42
  /\ parseInt "0x1f" = Js.Integer 31
  /\ parseInt "" = Js.NotANumber
  /\ parseInt (Str.ofZ (10 ^ 309)) = Js.Infinity false.
Proof. repeat split; vm_compute; reflexivity. Qed.

(** ** [sortProducts] *)

Lemma sortDetails_serializable (o : SauceInventoryPage.SortOption) (e : JsError) :
  serializable (SauceInventoryPage.sortDetails o e).
Proof. unfold serializable. cbn. discriminate. Qed.

(** X13. When the wait for the sort dropdown fails in [sortProducts],
    the failure is reported twice: [waitForElement] reports it under
    [ERROR_ELEMENT_NOT_VISIBLE] and throws the synthetic error, and the
    [catch] block of [sortProducts] reports that error again, under
    [ERROR_ELEMENT_TIMEOUT] or [ERROR_ELEMENT_WRONG_STATE], before
    throwing it on unchanged. The two records never share a file: in a
    log directory that takes both writes and holds neither name, two
    files are added. *)
Theorem sortProducts_reports_a_failed_wait_twice :
  forall (this : Instance) (browser : Browser)
         (sortOption : SauceInventoryPage.SortOption)
         (waitClock selectClock : Clock) (nameMs : Z) (clock : Clock)
         (w : World) (low : JsError),
    locatorOutcome this (locator_waitFor browser SauceInventoryPage.sortDropdown None)
    = Throws low ->
    let waitDetails :=
      Js.JObj [ ("selector", Js.JStr SauceInventoryPage.sortDropdown);
                ("timeout", Js.JUndefined);
                ("error", Js.JStr (err_message low));
                ("action", Js.JStr "waitForElement") ] in
    exists (first : JsError) (second : ErrorCodeEntry) (w2 : World),
      createError ERROR_ELEMENT_NOT_VISIBLE (messageFromDetails waitDetails)
      = Returns first
      /\ SauceInventoryPage.sortProducts this browser sortOption waitClock selectClock
           nameMs clock w = (Throws first, w2)
      /\ (second = ERROR_ELEMENT_TIMEOUT \/ second = ERROR_ELEMENT_WRONG_STATE)
      /\ logDir w2 =
         persist (expectedRecord this second
                    (SauceInventoryPage.sortDetails sortOption first)
                    (Some ("sort-products-error-" ++ Str.ofZ nameMs ++ ".png")) clock)
                 (msNow clock)
                 (persist (expectedRecord this ERROR_ELEMENT_NOT_VISIBLE waitDetails
                             None waitClock)
                          (msNow waitClock) (logDir w))
      /\ (dir_writable (logDir w)
            (logFileName (code ERROR_ELEMENT_NOT_VISIBLE) (msNow waitClock)) = true ->
          dir_writable (logDir w) (logFileName (code second) (msNow clock)) = true ->
          find (hasName (logFileName (code ERROR_ELEMENT_NOT_VISIBLE) (msNow waitClock)))
               (dir_entries (logDir w)) = None ->
          find (hasName (logFileName (code second) (msNow clock)))
               (dir_entries (logDir w)) = None ->
          length (dir_entries (logDir w2)) = S (S (length (dir_entries (logDir w))))).
Proof.
  intros this browser sortOption waitClock selectClock nameMs clock w low Hwait
         waitDetails.
  assert (serializable waitDetails) as Hser1
      by (unfold serializable; cbn; discriminate).
  (* the wait reports and throws *)
  destruct (handleError_object_run this ERROR_ELEMENT_NOT_VISIBLE _ waitClock w
              Hser1 eq_refl) as (first & w1 & Hcreate & Hrun1 & Hdir1).
  fold waitDetails in Hcreate, Hrun1, Hdir1.
  set (second := if Str.includes (err_message first) "timeout"
                 then ERROR_ELEMENT_TIMEOUT else ERROR_ELEMENT_WRONG_STATE).
  assert (SauceInventoryPage.sortAttempt this browser sortOption waitClock selectClock w
          = (Throws first, w1)) as Hattempt.
  { unfold SauceInventoryPage.sortAttempt. unfold bind at 1.
    unfold BasePageActions.waitForElement, try_catch.
    rewrite onLocator_run, Hwait.
    cbn [BasePageActions.optionalNumber]. fold waitDetails.
    unfold bind at 1. rewrite Hrun1. reflexivity. }
  (* the catch block reports once more and throws the same error *)
  destruct (reportError_run this second (SauceInventoryPage.sortDetails sortOption first)
              (Some ("sort-products-error-" ++ Str.ofZ nameMs ++ ".png")) clock w1
              (sortDetails_serializable sortOption first)) as [lines Hrun2].
  exists first, second. eexists.
  split; [exact Hcreate|].
  split.
  { unfold SauceInventoryPage.sortProducts, try_catch. rewrite Hattempt.
    fold second. unfold BasePageActions.reportError.
    unfold bind at 1. unfold bind at 1. rewrite Hrun2. reflexivity. }
  split; [subst second; destruct (Str.includes _ _); [now left | now right]|].
  cbn [logDir]. rewrite Hdir1. split; [reflexivity|].
  intros Hw1 Hw2 Hfresh1 Hfresh2.
  set (r1 := expectedRecord this ERROR_ELEMENT_NOT_VISIBLE waitDetails None waitClock).
  set (r2 := expectedRecord this second (SauceInventoryPage.sortDetails sortOption first)
               (Some ("sort-products-error-" ++ Str.ofZ nameMs ++ ".png")) clock).
  rewrite (persist_fresh r1 (msNow waitClock) (logDir w) Hser1 Hw1 Hfresh1).
  rewrite persist_fresh.
  - cbn [dir_entries withEntries]. now rewrite !length_insertAt.
  - apply sortDetails_serializable.
  - exact Hw2.
  - cbn [dir_entries withEntries]. rewrite find_insertAt_skip; [exact Hfresh2|].
    unfold hasName. cbn [recordFile file_name]. apply String.eqb_neq. intros Heq.
    apply logFileName_inj in Heq as [Hcode _].
    subst second r1 r2. cbn [ed_code expectedRecord] in Hcode.
    destruct (Str.includes _ _); discriminate Hcode.
Qed.

Lemma sortProducts_reports_witness :
  exists (first : JsError) (w2 : World),
    createError ERROR_ELEMENT_NOT_VISIBLE
      (messageFromDetails
         (Js.JObj [ ("selector", Js.JStr SauceInventoryPage.sortDropdown);
                    ("timeout", Js.JUndefined);
                    ("error", Js.JStr (err_message (BasePage.noPage "locator")));
                    ("action", Js.JStr "waitForElement") ]))
    = Returns first
    /\ SauceInventoryPage.sortProducts Sample.withoutPage
         (mkBrowser (fun _ => Returns tt) (fun _ _ => Returns tt) (fun _ _ => Returns tt)
            (fun _ _ => Returns tt) (fun _ _ => Returns tt) (fun _ => Returns tt)
            (fun _ _ => Returns tt) (fun _ _ => Returns tt) (fun _ => Returns tt)
            (fun _ _ => Returns tt) (fun _ => Returns tt))
         SauceInventoryPage.lohi Sample.clock Sample.clock 7 Sample.clock Sample.fresh
       = (Throws first, w2)
    /\ length (dir_entries (logDir w2)) = 2%nat.
Proof.
  destruct (sortProducts_reports_a_failed_wait_twice Sample.withoutPage
              (mkBrowser (fun _ => Returns tt) (fun _ _ => Returns tt)
                 (fun _ _ => Returns tt) (fun _ _ => Returns tt)
                 (fun _ _ => Returns tt) (fun _ => Returns tt)
                 (fun _ _ => Returns tt) (fun _ _ => Returns tt)
                 (fun _ => Returns tt) (fun _ _ => Returns tt)
                 (fun _ => Returns tt))
              SauceInventoryPage.lohi Sample.clock Sample.clock 7 Sample.clock
              Sample.fresh (BasePage.noPage "locator") eq_refl)
    as (first & second & w2 & Hcreate & Hrun & Hsecond & _ & Hlen).
  exists first, w2. split; [exact Hcreate|]. split; [exact Hrun|].
  rewrite Hlen; try reflexivity;
    destruct Hsecond as [-> | ->]; reflexivity.
Defined.

(** ** The OpenAI helper *)

(** What one [generateText] call does. *)
Lemma generateText_run (this : OpenAIHelper.Instance) (axios : Lab.Axios)
  (prompt : string) (options : option OpenAIHelper.Options) (s : Lab.State) :
  OpenAIHelper.generateText this axios prompt options s =
  if String.eqb (OpenAIHelper.apiKey this) ""
  then (Throws (plainError "OpenAI API key not provided"), s)
  else
    let request := OpenAIHelper.requestFor this prompt options in
    match axios request with
    | Returns (content :: _) =>
        (Returns (trim content),
         Lab.mkState (Lab.disk s) (Lab.printed s) (Lab.sent s ++ [request]))
    | Returns [] =>
        (Throws (plainError
                   "Cannot read properties of undefined (reading 'message')"),
         Lab.mkState (Lab.disk s)
           (Lab.printed s ++
            [("error", ["Error generating text with OpenAI:";
                        "Cannot read properties of undefined (reading 'message')"])])
           (Lab.sent s ++ [request]))
    | Throws e =>
        (Throws e,
         Lab.mkState (Lab.disk s)
           (Lab.printed s ++
            [("error", ["Error generating text with OpenAI:"; err_message e])])
           (Lab.sent s ++ [request]))
    end.
Proof.
  unfold OpenAIHelper.generateText.
  destruct (String.eqb (OpenAIHelper.apiKey this) ""); [reflexivity|].
  unfold Lab.try_catch, Lab.bind, Lab.post. cbv zeta.
  destruct (axios (OpenAIHelper.requestFor this prompt options)) as [[|content rest]|e];
    reflexivity.
Qed.

Ltac includes_code :=
  cbn [Str.join]; rewrite ?append_assoc;
  repeat first [apply includes_here | apply includes_app_r].

Lemma prompts_include_code (testCode other : string) :
  Str.includes (OpenAIHelper.analyzeTestFailurePrompt testCode other) testCode = true
  /\ Str.includes (OpenAIHelper.optimizeTestSuitePrompt other testCode) testCode = true
  /\ Str.includes (OpenAIHelper.generateDocumentationPrompt testCode) testCode = true
  /\ Str.includes (AITestMaintainer.refactorTestPrompt testCode) testCode = true.
Proof.
  unfold OpenAIHelper.analyzeTestFailurePrompt, OpenAIHelper.optimizeTestSuitePrompt,
    OpenAIHelper.generateDocumentationPrompt, AITestMaintainer.refactorTestPrompt.
  repeat split; includes_code.
Qed.

(** A [generateText] call with the default number of tokens: the disk
    is left alone, and either the key is missing and nothing is sent,
    or exactly one request is sent. *)
Lemma generateText_effect (this : OpenAIHelper.Instance) (axios : Lab.Axios)
  (prompt testCode : string) (t : QArith_base.Q) (s : Lab.State) :
  Str.includes prompt testCode = true ->
  exists o s',
    OpenAIHelper.generateText this axios prompt
      (Some (OpenAIHelper.mkOptions (Some t) None)) s = (o, s')
    /\ Lab.disk s' = Lab.disk s
    /\ ((OpenAIHelper.apiKey this = ""
         /\ o = Throws (plainError "OpenAI API key not provided") /\ s' = s)
        \/ (OpenAIHelper.apiKey this <> ""
            /\ exists r, Lab.sent s' = (Lab.sent s ++ [r])%list
                         /\ postedFor this testCode r)).
Proof.
  intros Hinc. rewrite generateText_run.
  destruct (String.eqb_spec (OpenAIHelper.apiKey this) "") as [Hkey|Hkey].
  - eexists _, _. split; [reflexivity|]. split; [reflexivity|]. left. now repeat split.
  - cbv zeta.
    set (request := OpenAIHelper.requestFor this prompt
                      (Some (OpenAIHelper.mkOptions (Some t) None))).
    assert (postedFor this testCode request) as Hposted
        by (repeat split; exact Hinc).
    destruct (axios request) as [[|content rest]|e];
      (eexists _, _; split; [reflexivity|]; split; [reflexivity|]; right;
       split; [exact Hkey|]; exists request; split; [reflexivity | exact Hposted]).
Qed.

(** The [switch] of [maintainTest] leaves the disk alone; it fails
    with nothing sent, or sends exactly one request, which carries the
    whole test code. *)
Lemma perform_effect (this : AITestMaintainer.Instance) (axios : Lab.Axios)
  (options : AITestMaintainer.TestMaintenanceOptions) (testCode : string)
  (s : Lab.State) :
  exists o s',
    AITestMaintainer.perform this axios options testCode s = (o, s')
    /\ Lab.disk s' = Lab.disk s
    /\ ((exists e, o = Throws e /\ s' = s)
        \/ (OpenAIHelper.apiKey (AITestMaintainer.openAIHelper this) <> ""
            /\ exists r, Lab.sent s' = (Lab.sent s ++ [r])%list
                         /\ postedFor (AITestMaintainer.openAIHelper this) testCode r)).
Proof.
  assert (forall prompt t,
             Str.includes prompt testCode = true ->
             exists o s',
               OpenAIHelper.generateText (AITestMaintainer.openAIHelper this) axios prompt
                 (Some (OpenAIHelper.mkOptions (Some t) None)) s = (o, s')
               /\ Lab.disk s' = Lab.disk s
               /\ ((exists e, o = Throws e /\ s' = s)
                   \/ (OpenAIHelper.apiKey (AITestMaintainer.openAIHelper this) <> ""
                       /\ exists r, Lab.sent s' = (Lab.sent s ++ [r])%list
                                    /\ postedFor (AITestMaintainer.openAIHelper this)
                                                 testCode r))) as Hgen.
  { intros prompt t Hinc.
    destruct (generateText_effect (AITestMaintainer.openAIHelper this) axios prompt
                testCode t s Hinc) as (o & s' & Hrun & Hdisk & Hcases).
    exists o, s'. split; [exact Hrun|]. split; [exact Hdisk|].
    destruct Hcases as [(_ & Ho & Hs) | Hsent]; [left | right; exact Hsent].
    eexists. split; [exact Ho | exact Hs]. }
  assert (forall e : JsError,
             exists (o : Outcome string) (s' : Lab.State),
               (@Throws string e, s) = (o, s')
               /\ Lab.disk s' = Lab.disk s
               /\ ((exists e', o = Throws e' /\ s' = s)
                   \/ (OpenAIHelper.apiKey (AITestMaintainer.openAIHelper this) <> ""
                       /\ exists r, Lab.sent s' = (Lab.sent s ++ [r])%list
                                    /\ postedFor (AITestMaintainer.openAIHelper this)
                                                 testCode r))) as Hthrow.
  { intros e. exists (Throws e), s. split; [reflexivity|]. split; [reflexivity|].
    left. exists e. split; reflexivity. }
  unfold AITestMaintainer.perform.
  destruct (AITestMaintainer.action options).
  - unfold AITestMaintainer.fixTest.
    destruct (AITestMaintainer.errorMessage options) as [text|]; [|apply Hthrow].
    destruct (String.eqb text ""); [apply Hthrow|].
    unfold OpenAIHelper.analyzeTestFailure. apply Hgen.
    exact (proj1 (prompts_include_code testCode text)).
  - unfold AITestMaintainer.optimizeTest, OpenAIHelper.optimizeTestSuite.
    apply Hgen. exact (proj1 (proj2 (prompts_include_code testCode _))).
  - unfold AITestMaintainer.documentTest, OpenAIHelper.generateDocumentation, Lab.bind.
    destruct (Hgen (OpenAIHelper.generateDocumentationPrompt testCode)
                (QArith_base.Qmake 3 10)
                (proj1 (proj2 (proj2 (prompts_include_code testCode "")))))
      as (o & s' & Hrun & Hdisk & Hcases).
    rewrite Hrun. destruct o as [documentation|e].
    + eexists _, _. split; [reflexivity|]. split; [exact Hdisk|].
      destruct Hcases as [(e & He & _) | Hsent]; [discriminate He | right; exact Hsent].
    + eexists _, _. split; [reflexivity|]. split; [exact Hdisk|].
      destruct Hcases as [(e' & He & Hs) | Hsent]; [left | right; exact Hsent].
      exists e'. split; [exact He | exact Hs].
  - unfold AITestMaintainer.refactorTest. apply Hgen.
    exact (proj2 (proj2 (proj2 (prompts_include_code testCode "")))).
Qed.

(** ** The maintainer *)

Lemma backup_path_differs (path : string) : path ++ ".bak" <> path.
Proof.
  intros H. apply (f_equal String.length) in H.
  rewrite length_append in H. simpl in H. lia.
Qed.

Lemma writeTo_inv (path content : string) (s s' : Lab.State) :
  Lab.writeTo path content s = Some s' ->
  nodeAt path s' = Some (Lab.DFile (Some content))
  /\ (forall other, other <> path -> nodeAt other s' = nodeAt other s)
  /\ Lab.disk_writable (Lab.disk s') = Lab.disk_writable (Lab.disk s)
  /\ Lab.printed s' = Lab.printed s /\ Lab.sent s' = Lab.sent s.
Proof.
  unfold Lab.writeTo, nodeAt.
  destruct (Lab.disk_writable (Lab.disk s) path); [|discriminate].
  destruct (Js.lookup path (Lab.disk_nodes (Lab.disk s))) as [[c|]|];
    try discriminate; intros [= <-]; cbn [Lab.setNodes Lab.disk Lab.disk_nodes
      Lab.disk_writable Lab.printed Lab.sent];
    (split; [apply lookup_set_same|]; split; [|now repeat split];
     intros other Hne; now apply lookup_set_other).
Qed.

(** Every way [maintainTest] can go, by the node at the test path, the
    outcome of the [switch], and the two writes. *)
Lemma maintainTest_outcomes (this : AITestMaintainer.Instance) (axios : Lab.Axios)
  (options : AITestMaintainer.TestMaintenanceOptions) (s : Lab.State) :
  let path := AITestMaintainer.testFilePath options in
  let s0 := Lab.mkState (Lab.disk s)
              (Lab.printed s ++ [("log", ["Maintaining test file: " ++ path])])
              (Lab.sent s) in
  match nodeAt path s with
  | None =>
      AITestMaintainer.maintainTest this axios options s
      = (Throws (plainError ("Test file not found: " ++ path)), s0)
  | Some Lab.DDir =>
      AITestMaintainer.maintainTest this axios options s
      = (Throws (plainError "EISDIR: illegal operation on a directory, read"), s0)
  | Some (Lab.DFile None) =>
      AITestMaintainer.maintainTest this axios options s
      = (Throws (plainError "EACCES: permission denied, open"), s0)
  | Some (Lab.DFile (Some original)) =>
      match AITestMaintainer.perform this axios options original s0 with
      | (Throws e, s1) =>
          AITestMaintainer.maintainTest this axios options s = (Throws e, s1)
      | (Returns updated, s1) =>
          match Lab.writeTo (path ++ ".bak") original s1 with
          | None =>
              AITestMaintainer.maintainTest this axios options s
              = (Throws (plainError "EACCES: permission denied, copyfile"), s1)
          | Some s2 =>
              match Lab.writeTo path updated s2 with
              | None =>
                  AITestMaintainer.maintainTest this axios options s
                  = (Throws (plainError "EACCES: permission denied, open"), s2)
              | Some s3 =>
                  AITestMaintainer.maintainTest this axios options s
                  = (Returns path,
                     Lab.mkState (Lab.disk s3)
                       (Lab.printed s3 ++
                        [("log", ["Test maintained successfully: " ++ path]);
                         ("log", ["Original file backed up to: " ++ path ++ ".bak"])])
                       (Lab.sent s3))
              end
          end
      end
  end.
Proof.
  intros path s0. unfold nodeAt.
  assert (AITestMaintainer.maintainTest this axios options s
          = match Js.lookup path (Lab.disk_nodes (Lab.disk s)) with
            | None => (Throws (plainError ("Test file not found: " ++ path)), s0)
            | Some _ =>
                Lab.bind (Lab.readFileSync path)
                  (fun testCode =>
                     Lab.bind (AITestMaintainer.perform this axios options testCode)
                       (fun updatedCode =>
                          Lab.bind (Lab.copyFileSync path (path ++ ".bak"))
                            (fun _ =>
                               Lab.bind (Lab.writeFileSync path updatedCode)
                                 (fun _ =>
                                    Lab.bind
                                      (Lab.console_call "log"
                                         ["Test maintained successfully: " ++ path])
                                      (fun _ =>
                                         Lab.bind
                                           (Lab.console_call "log"
                                              ["Original file backed up to: "
                                               ++ path ++ ".bak"])
                                           (fun _ => Lab.ret path)))))) s0
            end) as Hstart.
  { unfold AITestMaintainer.maintainTest. fold path.
    unfold Lab.bind at 1. unfold Lab.console_call at 1. fold s0.
    unfold Lab.bind at 1. unfold Lab.existsSync at 1.
    change (Lab.disk_nodes (Lab.disk s0)) with (Lab.disk_nodes (Lab.disk s)).
    destruct (Js.lookup path (Lab.disk_nodes (Lab.disk s))); reflexivity. }
  destruct (Js.lookup path (Lab.disk_nodes (Lab.disk s))) as [[[original|]|]|] eqn:Hnode;
    [| | | exact Hstart].
  - (* a readable file *)
    destruct (perform_effect this axios options original s0)
      as (o & s1 & Hperform & Hdisk & _).
    rewrite Hperform.
    assert (AITestMaintainer.maintainTest this axios options s
            = match o with
              | Returns updated =>
                  Lab.bind (Lab.copyFileSync path (path ++ ".bak"))
                    (fun _ =>
                       Lab.bind (Lab.writeFileSync path updated)
                         (fun _ =>
                            Lab.bind
                              (Lab.console_call "log"
                                 ["Test maintained successfully: " ++ path])
                              (fun _ =>
                                 Lab.bind
                                   (Lab.console_call "log"
                                      ["Original file backed up to: "
                                       ++ path ++ ".bak"])
                                   (fun _ => Lab.ret path)))) s1
              | Throws e => (Throws e, s1)
              end) as Hmid.
    { rewrite Hstart. unfold Lab.bind at 1. unfold Lab.readFileSync at 1.
      change (Lab.disk_nodes (Lab.disk s0)) with (Lab.disk_nodes (Lab.disk s)).
      rewrite Hnode. unfold Lab.bind at 1. rewrite Hperform.
      destruct o; reflexivity. }
    clear Hstart. destruct o as [updated|e]; [|exact Hmid].
    assert (Js.lookup path (Lab.disk_nodes (Lab.disk s1))
            = Some (Lab.DFile (Some original))) as Hnode1
        by (rewrite Hdisk; exact Hnode).
    destruct (Lab.writeTo (path ++ ".bak") original s1) as [s2|] eqn:Hcopy.
    + destruct (Lab.writeTo path updated s2) as [s3|] eqn:Hwrite;
        rewrite Hmid; unfold Lab.bind at 1; unfold Lab.copyFileSync at 1;
        rewrite Hnode1, Hcopy; unfold Lab.bind at 1; unfold Lab.writeFileSync at 1;
        rewrite Hwrite; [|reflexivity].
      unfold Lab.bind, Lab.console_call, Lab.ret.
      cbn [Lab.disk Lab.printed Lab.sent]. rewrite <- app_assoc. reflexivity.
    + rewrite Hmid. unfold Lab.bind at 1. unfold Lab.copyFileSync at 1.
      rewrite Hnode1, Hcopy. reflexivity.
  - rewrite Hstart. unfold Lab.bind at 1. unfold Lab.readFileSync at 1.
    change (Lab.disk_nodes (Lab.disk s0)) with (Lab.disk_nodes (Lab.disk s)).
    rewrite Hnode. reflexivity.
  - rewrite Hstart. unfold Lab.bind at 1. unfold Lab.readFileSync at 1.
    change (Lab.disk_nodes (Lab.disk s0)) with (Lab.disk_nodes (Lab.disk s)).
    rewrite Hnode. reflexivity.
Qed.

(** What a run of [maintainTest] that returns has done. *)
Lemma maintainTest_returns_inv (this : AITestMaintainer.Instance) (axios : Lab.Axios)
  (options : AITestMaintainer.TestMaintenanceOptions) (s s' : Lab.State) (p : string) :
  AITestMaintainer.maintainTest this axios options s = (Returns p, s') ->
  p = AITestMaintainer.testFilePath options
  /\ exists original updated,
       nodeAt (AITestMaintainer.testFilePath options) s
       = Some (Lab.DFile (Some original))
       /\ nodeAt (AITestMaintainer.testFilePath options) s'
          = Some (Lab.DFile (Some updated))
       /\ nodeAt (AITestMaintainer.testFilePath options ++ ".bak") s'
          = Some (Lab.DFile (Some original))
       /\ (forall other,
              other <> AITestMaintainer.testFilePath options ->
              other <> AITestMaintainer.testFilePath options ++ ".bak" ->
              nodeAt other s' = nodeAt other s)
       /\ exists r, Lab.sent s' = (Lab.sent s ++ [r])%list
                    /\ postedFor (AITestMaintainer.openAIHelper this) original r.
Proof.
  intros Hrun. pose proof (maintainTest_outcomes this axios options s) as Hall.
  cbv zeta in Hall.
  set (path := AITestMaintainer.testFilePath options) in *.
  destruct (nodeAt path s) as [[[original|]|]|] eqn:Hnode;
    try (rewrite Hall in Hrun; discriminate Hrun).
  destruct (perform_effect this axios options original
              (Lab.mkState (Lab.disk s)
                 (Lab.printed s ++ [("log", ["Maintaining test file: " ++ path])])
                 (Lab.sent s)))
    as (o & s1 & Hperform & Hdisk & Hsent).
  rewrite Hperform in Hall.
  destruct o as [updated|e]; [|rewrite Hall in Hrun; discriminate Hrun].
  destruct Hsent as [(e & He & _) | (_ & r & Hsent & Hposted)]; [discriminate He|].
  destruct (Lab.writeTo (path ++ ".bak") original s1) as [s2|] eqn:Hcopy;
    [|rewrite Hall in Hrun; discriminate Hrun].
  destruct (Lab.writeTo path updated s2) as [s3|] eqn:Hwrite;
    [|rewrite Hall in Hrun; discriminate Hrun].
  rewrite Hall in Hrun. injection Hrun as <- <-.
  destruct (writeTo_inv _ _ _ _ Hcopy) as (Hbak2 & Hother2 & _ & _ & Hsent2).
  destruct (writeTo_inv _ _ _ _ Hwrite) as (Hpath3 & Hother3 & _ & _ & Hsent3).
  assert (forall k, nodeAt k s1 = nodeAt k s) as Hsame
      by (intros k; unfold nodeAt; now rewrite Hdisk).
  split; [reflexivity|]. exists original, updated.
  split; [reflexivity|].
  split; [exact Hpath3|].
  split.
  { change (nodeAt (path ++ ".bak") s3 = Some (Lab.DFile (Some original))).
    rewrite (Hother3 _ (backup_path_differs path)). exact Hbak2. }
  split.
  { intros other Hne Hnebak.
    change (nodeAt other s3 = nodeAt other s).
    now rewrite (Hother3 _ Hne), (Hother2 _ Hnebak), Hsame. }
  exists r. cbn [Lab.sent]. rewrite Hsent3, Hsent2. split; [exact Hsent | exact Hposted].
Qed.

(** X14. A run of [maintainTest] that returns has returned the test
    path, found a readable file there, posted exactly one request, which
    carries the whole original code to the chat-completions endpoint
    with the key as bearer token, left the original code in the file
    named by the path followed by [.bak], written the new code to the
    test path, and changed no other path. *)
Theorem maintainTest_keeps_the_original_in_the_backup :
  forall (this : AITestMaintainer.Instance) (axios : Lab.Axios)
         (options : AITestMaintainer.TestMaintenanceOptions) (s s' : Lab.State)
         (p : string),
    AITestMaintainer.maintainTest this axios options s = (Returns p, s') ->
    p = AITestMaintainer.testFilePath options
    /\ exists original updated,
         nodeAt (AITestMaintainer.testFilePath options) s
         = Some (Lab.DFile (Some original))
         /\ nodeAt (AITestMaintainer.testFilePath options) s'
            = Some (Lab.DFile (Some updated))
         /\ nodeAt (AITestMaintainer.testFilePath options ++ ".bak") s'
            = Some (Lab.DFile (Some original))
         /\ (forall other,
                other <> AITestMaintainer.testFilePath options ->
                other <> AITestMaintainer.testFilePath options ++ ".bak" ->
                nodeAt other s' = nodeAt other s)
         /\ exists r, Lab.sent s' = (Lab.sent s ++ [r])%list
                      /\ postedFor (AITestMaintainer.openAIHelper this) original r.
Proof.
  intros this axios options s s' p Hrun.
  exact (maintainTest_returns_inv this axios options s s' p Hrun).
Qed.

(** X15. Whatever the outcome of [maintainTest], no path other than the
    test path and its backup is changed, and at most one request is
    posted, which then carries the whole test code; when [maintainTest]
    throws, the test file itself is as before. *)
Theorem maintainTest_failure_leaves_the_test_file :
  forall (this : AITestMaintainer.Instance) (axios : Lab.Axios)
         (options : AITestMaintainer.TestMaintenanceOptions) (s s' : Lab.State)
         (o : Outcome string),
    AITestMaintainer.maintainTest this axios options s = (o, s') ->
    (forall other,
        other <> AITestMaintainer.testFilePath options ->
        other <> AITestMaintainer.testFilePath options ++ ".bak" ->
        nodeAt other s' = nodeAt other s)
    /\ (forall e, o = Throws e ->
                  nodeAt (AITestMaintainer.testFilePath options) s'
                  = nodeAt (AITestMaintainer.testFilePath options) s)
    /\ (Lab.sent s' = Lab.sent s
        \/ exists original r,
             nodeAt (AITestMaintainer.testFilePath options) s
             = Some (Lab.DFile (Some original))
             /\ Lab.sent s' = (Lab.sent s ++ [r])%list
             /\ postedFor (AITestMaintainer.openAIHelper this) original r).
Proof.
  intros this axios options s s' o Hrun.
  destruct o as [p|e].
  { destruct (maintainTest_returns_inv this axios options s s' p Hrun)
      as (_ & original & updated & Hnode & _ & _ & Hother & r & Hsent & Hposted).
    split; [exact Hother|]. split; [intros e He; discriminate He|].
    right. exists original, r.
    split; [exact Hnode|]. split; [exact Hsent | exact Hposted]. }
  pose proof (maintainTest_outcomes this axios options s) as Hall.
  cbv zeta in Hall.
  set (path := AITestMaintainer.testFilePath options) in *.
  destruct (nodeAt path s) as [[[original|]|]|] eqn:Hnode;
    try (rewrite Hall in Hrun; injection Hrun as <- <-;
         split; [reflexivity|]; split; [intros; exact Hnode | now left]).
  destruct (perform_effect this axios options original
              (Lab.mkState (Lab.disk s)
                 (Lab.printed s ++ [("log", ["Maintaining test file: " ++ path])])
                 (Lab.sent s)))
    as (o1 & s1 & Hperform & Hdisk & Hsent).
  rewrite Hperform in Hall.
  assert (forall k, nodeAt k s1 = nodeAt k s) as Hsame
      by (intros k; unfold nodeAt; now rewrite Hdisk).
  assert (Lab.sent s1 = Lab.sent s
          \/ exists original0 r,
               Some (Lab.DFile (Some original)) = Some (Lab.DFile (Some original0))
               /\ Lab.sent s1 = (Lab.sent s ++ [r])%list
               /\ postedFor (AITestMaintainer.openAIHelper this) original0 r) as Hsent1.
  { destruct Hsent as [(e1 & _ & ->) | (_ & r & Hs & Hp)]; [now left|].
    right. exists original, r.
    split; [reflexivity|]. split; [exact Hs | exact Hp]. }
  destruct o1 as [updated|e1].
  - destruct (Lab.writeTo (path ++ ".bak") original s1) as [s2|] eqn:Hcopy.
    + destruct (writeTo_inv _ _ _ _ Hcopy) as (_ & Hother2 & _ & _ & Hsent2).
      destruct (Lab.writeTo path updated s2) as [s3|] eqn:Hwrite;
        rewrite Hall in Hrun; [discriminate Hrun|].
      injection Hrun as <- <-.
      split; [intros other _ Hnebak; now rewrite (Hother2 _ Hnebak), Hsame|].
      split.
      * intros _ _.
        assert (path <> path ++ ".bak") as Hne
            by (intros H; symmetry in H; now apply backup_path_differs in H).
        now rewrite (Hother2 _ Hne), Hsame.
      * rewrite Hsent2. exact Hsent1.
    + rewrite Hall in Hrun. injection Hrun as <- <-.
      split; [intros; apply Hsame|]. split; [intros; rewrite Hsame; exact Hnode|].
      exact Hsent1.
  - rewrite Hall in Hrun. injection Hrun as <- <-.
    split; [intros; apply Hsame|]. split; [intros; rewrite Hsame; exact Hnode|].
    exact Hsent1.
Qed.

(** X16. The backup is overwritten by the next run: when two runs of
    [maintainTest] on the same path both return, the backup file holds
    what the first run wrote, not the code the first run started from. *)
Theorem second_run_overwrites_the_backup :
  forall (this this' : AITestMaintainer.Instance) (axios axios' : Lab.Axios)
         (options options' : AITestMaintainer.TestMaintenanceOptions)
         (s s1 s2 : Lab.State) (p1 p2 : string),
    AITestMaintainer.testFilePath options' = AITestMaintainer.testFilePath options ->
    AITestMaintainer.maintainTest this axios options s = (Returns p1, s1) ->
    AITestMaintainer.maintainTest this' axios' options' s1 = (Returns p2, s2) ->
    nodeAt (AITestMaintainer.testFilePath options ++ ".bak") s2
    = nodeAt (AITestMaintainer.testFilePath options) s1.
Proof.
  intros this this' axios axios' options options' s s1 s2 p1 p2 Hpath Hrun1 Hrun2.
  destruct (maintainTest_returns_inv _ _ _ _ _ _ Hrun2)
    as (_ & original & updated & Hbefore & _ & Hbak & _).
  rewrite Hpath in Hbefore, Hbak. now rewrite Hbak, Hbefore.
Qed.

Lemma maintainTest_keeps_the_original_witness :
  nodeAt "tests/login.spec.ts.bak"
    (snd (AITestMaintainer.maintainTest SampleLab.maintainer
            (SampleLab.answering " test('login', fast) ")
            SampleLab.refactorLogin SampleLab.start))
  = Some (Lab.DFile (Some "test('login')")).
Proof.
  destruct (maintainTest_keeps_the_original_in_the_backup
              SampleLab.maintainer (SampleLab.answering " test('login', fast) ")
              SampleLab.refactorLogin SampleLab.start
              (snd (AITestMaintainer.maintainTest SampleLab.maintainer
                      (SampleLab.answering " test('login', fast) ")
                      SampleLab.refactorLogin SampleLab.start))
              "tests/login.spec.ts")
    as (_ & original & updated & Hbefore & _ & Hbak & _).
  - vm_compute. reflexivity.
  - change (AITestMaintainer.testFilePath SampleLab.refactorLogin)
      with "tests/login.spec.ts" in Hbefore, Hbak.
    change ("tests/login.spec.ts" ++ ".bak") with "tests/login.spec.ts.bak" in Hbak.
    rewrite Hbak. vm_compute in Hbefore. injection Hbefore as <-. reflexivity.
Defined.

Lemma maintainTest_failure_witness :
  nodeAt "tests/login.spec.ts"
    (snd (AITestMaintainer.maintainTest SampleLab.keyless
            (SampleLab.answering "x") SampleLab.refactorLogin SampleLab.start))
  = Some (Lab.DFile (Some "test('login')")).
Proof.
  destruct (maintainTest_failure_leaves_the_test_file
              SampleLab.keyless (SampleLab.answering "x")
              SampleLab.refactorLogin SampleLab.start
              (snd (AITestMaintainer.maintainTest SampleLab.keyless
                      (SampleLab.answering "x") SampleLab.refactorLogin SampleLab.start))
              (Throws (plainError "OpenAI API key not provided")))
    as (_ & Hfile & _).
  - vm_compute. reflexivity.
  - change (AITestMaintainer.testFilePath SampleLab.refactorLogin)
      with "tests/login.spec.ts" in Hfile.
    rewrite (Hfile _ eq_refl). reflexivity.
Defined.

Lemma second_run_overwrites_witness :
  nodeAt "tests/login.spec.ts.bak"
    (snd (AITestMaintainer.maintainTest SampleLab.maintainer (SampleLab.answering "second")
            SampleLab.refactorLogin
            (snd (AITestMaintainer.maintainTest SampleLab.maintainer
                    (SampleLab.answering "first") SampleLab.refactorLogin
                    SampleLab.start))))
  = Some (Lab.DFile (Some "first")).
Proof.
  pose proof (second_run_overwrites_the_backup
                SampleLab.maintainer SampleLab.maintainer
                (SampleLab.answering "first") (SampleLab.answering "second")
                SampleLab.refactorLogin SampleLab.refactorLogin
                SampleLab.start
                (snd (AITestMaintainer.maintainTest SampleLab.maintainer
                        (SampleLab.answering "first") SampleLab.refactorLogin
                        SampleLab.start))
                (snd (AITestMaintainer.maintainTest SampleLab.maintainer
                        (SampleLab.answering "second") SampleLab.refactorLogin
                        (snd (AITestMaintainer.maintainTest SampleLab.maintainer
                                (SampleLab.answering "first") SampleLab.refactorLogin
                                SampleLab.start))))
                "tests/login.spec.ts" "tests/login.spec.ts" eq_refl) as H.
  change (AITestMaintainer.testFilePath SampleLab.refactorLogin ++ ".bak")
    with "tests/login.spec.ts.bak" in H.
  rewrite H.
  - vm_compute. reflexivity.
  - vm_compute. reflexivity.
  - vm_compute. reflexivity.
Defined.

(** X17. [maintainTest] refuses before it touches anything: when no
    file exists at the test path, when the action is [fix] and the
    error message is missing or empty, and when the helper has no API
    key, it throws the matching error after its first console line, with
    the disk unchanged and no request posted. *)
Theorem maintainTest_refuses_before_touching_anything :
  forall (this : AITestMaintainer.Instance) (axios : Lab.Axios)
         (options : AITestMaintainer.TestMaintenanceOptions) (s : Lab.State),
    let path := AITestMaintainer.testFilePath options in
    let s0 := Lab.mkState (Lab.disk s)
                (Lab.printed s ++ [("log", ["Maintaining test file: " ++ path])])
                (Lab.sent s) in
    (nodeAt path s = None ->
     AITestMaintainer.maintainTest this axios options s
     = (Throws (plainError ("Test file not found: " ++ path)), s0))
    /\ (forall original,
           nodeAt path s = Some (Lab.DFile (Some original)) ->
           AITestMaintainer.action options = AITestMaintainer.fix_ ->
           AITestMaintainer.missing (AITestMaintainer.errorMessage options) = true ->
           AITestMaintainer.maintainTest this axios options s
           = (Throws (plainError "Error message is required to fix a test"), s0))
    /\ (forall original,
           nodeAt path s = Some (Lab.DFile (Some original)) ->
           OpenAIHelper.apiKey (AITestMaintainer.openAIHelper this) = "" ->
           (AITestMaintainer.action options = AITestMaintainer.fix_ ->
            AITestMaintainer.missing (AITestMaintainer.errorMessage options) = false) ->
           AITestMaintainer.maintainTest this axios options s
           = (Throws (plainError "OpenAI API key not provided"), s0)).
Proof.
  intros this axios options s path s0.
  pose proof (maintainTest_outcomes this axios options s) as Hall.
  cbv zeta in Hall. fold path in Hall. fold s0 in Hall.
  split; [|split].
  - intros Hnode. rewrite Hnode in Hall. exact Hall.
  - intros original Hnode Haction Hmissing. rewrite Hnode in Hall.
    assert (AITestMaintainer.perform this axios options original s0
            = (Throws (plainError "Error message is required to fix a test"), s0))
      as Hperform.
    { unfold AITestMaintainer.perform. rewrite Haction.
      unfold AITestMaintainer.fixTest, AITestMaintainer.missing in *.
      destruct (AITestMaintainer.errorMessage options) as [text|]; [|reflexivity].
      rewrite Hmissing. reflexivity. }
    rewrite Hperform in Hall. exact Hall.
  - intros original Hnode Hkey Hmessage. rewrite Hnode in Hall.
    assert (forall prompt o,
               OpenAIHelper.generateText (AITestMaintainer.openAIHelper this) axios
                 prompt o s0
               = (Throws (plainError "OpenAI API key not provided"), s0)) as Hgen
        by (intros prompt o; rewrite generateText_run, Hkey; reflexivity).
    assert (AITestMaintainer.perform this axios options original s0
            = (Throws (plainError "OpenAI API key not provided"), s0)) as Hperform.
    { unfold AITestMaintainer.perform.
      destruct (AITestMaintainer.action options).
      - specialize (Hmessage eq_refl).
        unfold AITestMaintainer.fixTest, AITestMaintainer.missing in *.
        destruct (AITestMaintainer.errorMessage options) as [text|];
          [|discriminate Hmessage].
        rewrite Hmessage. apply Hgen.
      - apply Hgen.
      - unfold AITestMaintainer.documentTest, Lab.bind,
          OpenAIHelper.generateDocumentation.
        now rewrite Hgen.
      - apply Hgen. }
    rewrite Hperform in Hall. exact Hall.
Qed.

Lemma maintainTest_refuses_witness :
  fst (AITestMaintainer.maintainTest SampleLab.maintainer (SampleLab.answering "x")
         SampleLab.fixLogin SampleLab.start)
  = Throws (plainError "Error message is required to fix a test").
Proof.
  destruct (maintainTest_refuses_before_touching_anything
              SampleLab.maintainer (SampleLab.answering "x")
              SampleLab.fixLogin SampleLab.start) as (_ & Hfix & _).
  rewrite (Hfix "test('login')" eq_refl eq_refl eq_refl). reflexivity.
Defined.

(** ** The key in the [.env] file *)

(** The run is followed by white space or by the end of the text. *)
Lemma nonSpaceRun_split (s : string) :
  exists tail, s = OpenAIHelper.nonSpaceRun s ++ tail /\ startsKey tail = false.
Proof.
  induction s as [|c s [tail [IH Hend]]]; [now exists ""|].
  cbn [OpenAIHelper.nonSpaceRun]. destruct (isWhiteSpace c) eqn:Hc.
  - exists (String c s). split; [reflexivity|]. cbn [startsKey]. now rewrite Hc.
  - exists tail. split; [simpl; now rewrite <- IH | exact Hend].
Qed.

Lemma nonSpaceRun_clean (s : string) (c : ascii) :
  In c (list_ascii_of_string (OpenAIHelper.nonSpaceRun s)) -> isWhiteSpace c = false.
Proof.
  induction s as [|x s IH]; simpl; [tauto|].
  destruct (isWhiteSpace x) eqn:Hx; simpl; [tauto|].
  intros [<-|Hin]; [exact Hx | now apply IH].
Qed.

(** The run is empty exactly when no key can start. *)
Lemma nonSpaceRun_empty (s : string) :
  OpenAIHelper.nonSpaceRun s = "" -> startsKey s = false.
Proof.
  destruct s as [|c s]; [reflexivity|]. cbn [OpenAIHelper.nonSpaceRun startsKey].
  destruct (isWhiteSpace c); [reflexivity | discriminate].
Qed.

Lemma matchApiKey_step (content : string) :
  OpenAIHelper.matchApiKey content =
  let here :=
    if prefix "OPENAI_API_KEY=" content
    then OpenAIHelper.nonSpaceRun (substring 15 (String.length content - 15) content)
    else "" in
  if negb (String.eqb here "") then Some here
  else match content with
       | EmptyString => None
       | String _ rest => OpenAIHelper.matchApiKey rest
       end.
Proof. destruct content; reflexivity. Qed.

(** A text that starts with the name and the equals sign. *)
Lemma after_name (suf : string) :
  prefix "OPENAI_API_KEY=" ("OPENAI_API_KEY=" ++ suf) = true
  /\ substring 15 (String.length ("OPENAI_API_KEY=" ++ suf) - 15) ("OPENAI_API_KEY=" ++ suf)
     = suf.
Proof.
  split; [apply prefix_app|].
  rewrite length_append.
  change (String.length "OPENAI_API_KEY=") with 15%nat.
  replace (15 + String.length suf - 15)%nat with (String.length suf) by lia.
  change 15%nat with (String.length "OPENAI_API_KEY=") at 1.
  rewrite substring_skip. apply substring_all.
Qed.

Lemma name_at_start (content : string) :
  prefix "OPENAI_API_KEY=" content = true ->
  content = "OPENAI_API_KEY=" ++ substring 15 (String.length content - 15) content.
Proof.
  intros H.
  assert (forall a s, prefix a s = true ->
                      s = a ++ substring (String.length a)
                                 (String.length s - String.length a) s) as Hsplit.
  { induction a as [|c a IH]; intros s Hp.
    - simpl. rewrite Nat.sub_0_r. now rewrite substring_all.
    - destruct s as [|c' s]; [discriminate|]. simpl in Hp.
      destruct (ascii_dec c c') as [<-|]; [|discriminate].
      simpl. f_equal. now apply IH. }
  exact (Hsplit _ _ H).
Qed.

(** No key can start after the name at the head of [content] when the
    scan moves on from there. *)
Lemma no_key_here (content suf : string) :
  content = "OPENAI_API_KEY=" ++ suf ->
  negb (String.eqb
          (if prefix "OPENAI_API_KEY=" content
           then OpenAIHelper.nonSpaceRun
                  (substring 15 (String.length content - 15) content)
           else "") "") = false ->
  startsKey suf = false.
Proof.
  intros -> Hhere. destruct (after_name suf) as [Hp Hs].
  rewrite Hp, Hs in Hhere. apply negb_false_iff, String.eqb_eq in Hhere.
  now apply nonSpaceRun_empty.
Qed.

(** What [matchApiKey] returns is what the regular expression
    captures, and it returns nothing only when the expression matches
    nowhere. *)
Lemma matchApiKey_spec (content : string) :
  match OpenAIHelper.matchApiKey content with
  | Some key => captures content key
  | None => capturesNothing content
  end.
Proof.
  induction content as [|c rest IH]; rewrite matchApiKey_step; cbv zeta.
  - cbn [prefix String.eqb negb]. intros pre suf Heq.
    apply (f_equal String.length) in Heq. rewrite !length_append in Heq.
    simpl in Heq. lia.
  - match goal with
    | |- context [negb ?b] => destruct (negb b) eqn:Hhere
    end.
    + (* the name stands here and a key follows *)
      destruct (prefix "OPENAI_API_KEY=" (String c rest)) eqn:Hprefix;
        [|discriminate].
      set (after := substring 15 (String.length (String c rest) - 15) (String c rest))
        in *.
      destruct (nonSpaceRun_split after) as (tail & Htail & Hend).
      exists "", tail. split; [|split; [|split; [|split]]].
      * assert (String c rest = "OPENAI_API_KEY=" ++ after) as Hcontent
            by exact (name_at_start _ Hprefix).
        rewrite Hcontent.
        change ("" ++ "OPENAI_API_KEY=" ++ OpenAIHelper.nonSpaceRun after ++ tail)
          with ("OPENAI_API_KEY=" ++ (OpenAIHelper.nonSpaceRun after ++ tail)).
        now rewrite <- Htail.
      * intros Hempty. rewrite Hempty in Hhere. discriminate.
      * apply nonSpaceRun_clean.
      * exact Hend.
      * intros pre suf _ Hlen. simpl in Hlen. lia.
    + (* the scan moves on *)
      destruct (OpenAIHelper.matchApiKey rest) as [key|].
      * destruct IH as (before & after & Hcontent & Hne & Hclean & Hend & Hleft).
        exists (String c before), after. split; [|split; [|split; [|split]]];
          try assumption.
        -- cbn [append]. now rewrite Hcontent.
        -- intros [|c' pre] suf Heq Hlen.
           ++ cbn [append] in Heq. now apply (no_key_here (String c rest) suf).
           ++ cbn [append] in Heq. injection Heq as _ Heq.
              apply (Hleft pre suf Heq). simpl in Hlen. lia.
      * intros [|c' pre] suf Heq.
        -- cbn [append] in Heq. now apply (no_key_here (String c rest) suf).
        -- cbn [append] in Heq. injection Heq as _ Heq. exact (IH pre suf Heq).
Qed.

(** X18. [readApiKeyFromEnvFile] never throws and changes neither the
    disk nor the requests posted. When there is no file at the path it
    returns nothing and prints nothing. From a readable file it returns
    what the regular expression captures at its leftmost match: the
    run of characters other than white space that follows
    [OPENAI_API_KEY=], never empty, taken up to the next white space or
    the end of the text; and it returns nothing only when the name
    and the equals sign are nowhere followed by such a character. It
    returns a key from a readable file only. *)
Theorem readApiKeyFromEnvFile_never_throws :
  forall (envPath : string) (s : Lab.State),
    exists (key : option string) (s' : Lab.State),
      OpenAIHelper.readApiKeyFromEnvFile envPath s = (Returns key, s')
      /\ Lab.disk s' = Lab.disk s
      /\ Lab.sent s' = Lab.sent s
      /\ (nodeAt envPath s = None -> key = None /\ s' = s)
      /\ (forall content,
             nodeAt envPath s = Some (Lab.DFile (Some content)) ->
             s' = s
             /\ match key with
                | Some k => captures content k
                | None => capturesNothing content
                end)
      /\ (forall k,
             key = Some k ->
             exists content, nodeAt envPath s = Some (Lab.DFile (Some content))).
Proof.
  intros envPath s.
  unfold OpenAIHelper.readApiKeyFromEnvFile, Lab.try_catch, Lab.bind,
    Lab.existsSync, Lab.readFileSync, nodeAt.
  destruct (Js.lookup envPath (Lab.disk_nodes (Lab.disk s))) as [[[content|]|]|] eqn:Hnode;
    cbn [negb]; rewrite ?Hnode.
  - exists (OpenAIHelper.matchApiKey content), s.
    split; [reflexivity|]. split; [reflexivity|]. split; [reflexivity|].
    split; [discriminate|]. split.
    + intros content' [= <-]. split; [reflexivity | apply matchApiKey_spec].
    + intros k _. now exists content.
  - eexists None, _. split; [reflexivity|]. split; [reflexivity|].
    split; [reflexivity|]. split; [discriminate|]. split; discriminate.
  - eexists None, _. split; [reflexivity|]. split; [reflexivity|].
    split; [reflexivity|]. split; [discriminate|]. split; discriminate.
  - exists None, s. split; [reflexivity|]. split; [reflexivity|].
    split; [reflexivity|]. split; [now split|]. split; discriminate.
Qed.

Lemma readApiKeyFromEnvFile_witness :
  exists s',
    OpenAIHelper.readApiKeyFromEnvFile ".env"
      (Lab.mkState
         (Lab.mkDisk [(".env", Lab.DFile (Some SampleLab.envFile))] (fun _ => true))
         [] [])
    = (Returns (Some "sk-live-42"), s')
    /\ captures SampleLab.envFile "sk-live-42".
Proof.
  destruct (readApiKeyFromEnvFile_never_throws ".env"
              (Lab.mkState
                 (Lab.mkDisk [(".env", Lab.DFile (Some SampleLab.envFile))]
                             (fun _ => true))
                 [] []))
    as (key & s' & Hrun & _ & _ & _ & Hfile & _).
  destruct (Hfile SampleLab.envFile eq_refl) as [_ Hkey].
  assert (key = Some "sk-live-42") as ->.
  { assert (Returns key
            = fst (OpenAIHelper.readApiKeyFromEnvFile ".env"
                     (Lab.mkState
                        (Lab.mkDisk [(".env", Lab.DFile (Some SampleLab.envFile))]
                                    (fun _ => true))
                        [] []))) as Hfst by now rewrite Hrun.
    vm_compute in Hfst. now injection Hfst. }
  exists s'. split; [exact Hrun | exact Hkey].
Defined.
